(** * Renewable portfolio dashboard: file resolution and aggregation layer

    A shallow embedding of the data layer of [src/app.py]: the class
    [RenewablePortfolioDashboard] (root discovery, site catalogue, the three
    file resolvers, the historical rolling average) and the data preparation
    of the annual distribution, the duration curve and the covariate scatter
    plots.

    Conventions of the embedding.
    - The file system is a finite directory tree; a [Path] is a sequence of
      name components, relative to the working directory or absolute, as
      [pathlib] keeps it.  Site, metric and temporal tokens are single
      components.
    - A parquet file holds a table ([DataFrame]); numeric entries are exact
      rationals standing for the floating point values of the program, a
      missing entry is [NaN], anything else is [Text].
    - Python exceptions are values of [exn]; a computation that can raise
      has type [result A].  Console output ([print]) and the construction of
      the plotly figure are not part of the model. *)

From Stdlib Require Import Ascii QArith Qcanon Qround Lqa DecimalString.
From stdpp Require Import gmap strings list sorting numbers.

Close Scope Q_scope.
Close Scope Qc_scope.

Set Warnings "-register-all".

(* ================================================================== *)
(** * Python values, exceptions and tables *)
(* ================================================================== *)

Module Py.

(** Exceptions the modelled code can meet; all derive from [Exception]. *)
Inductive exn : Type :=
  | KeyError (key : string)
  | UnboundLocalError (var : string)
  | TypeError
  | ValueError
  | FileNotFoundError
  | NotADirectoryError
  | ArrowInvalid.

Global Instance exn_eq_dec : EqDecision exn.
Proof. solve_decision. Defined.

Inductive result (A : Type) : Type :=
  | Ok (a : A)
  | Raise (e : exn).
Global Arguments Ok {A} a.
Global Arguments Raise {A} e.

Global Instance result_eq_dec `{EqDecision A} : EqDecision (result A).
Proof. solve_decision. Defined.

Global Instance result_ret : MRet result := λ A a, Ok a.
Global Instance result_bind : MBind result := λ A B k m,
  match m with
  | Ok a => k a
  | Raise e => Raise e
  end.

(** [try: body / except Exception: handler] *)
Definition try_except {A} (body : result A) (handler : exn → A) : A :=
  match body with
  | Ok a => a
  | Raise e => handler e
  end.

Fixpoint mapM {A B} (f : A → result B) (l : list A) : result (list B) :=
  match l with
  | [] => Ok []
  | x :: l' => y ← f x; ys ← mapM f l'; Ok (y :: ys)
  end.

(** A table entry. *)
Inductive cell : Type :=
  | Num (q : Qc)
  | NaN
  | Text (s : string).

Global Instance cell_eq_dec : EqDecision cell.
Proof. solve_decision. Defined.

(** A row gives the entry under each label. *)
Definition row : Type := list (string * cell).

(** A table: its column labels and its rows. *)
Record DataFrame : Type := mkDataFrame {
  columns : list string;
  rows : list row
}.

Global Instance DataFrame_eq_dec : EqDecision DataFrame.
Proof. solve_decision. Defined.

(** The entry of a row under a label; an entry absent from the row reads
    as missing. *)
Fixpoint at_ (r : row) (col : string) : cell :=
  match r with
  | [] => NaN
  | (c, v) :: r' => if bool_decide (c = col) then v else at_ r' col
  end.

(** The row with the entry under a label set: in place when the label is
    there, at the end otherwise. *)
Fixpoint set_at (col : string) (v : cell) (r : row) : row :=
  match r with
  | [] => [(col, v)]
  | (c, v') :: r' =>
      if bool_decide (c = col) then (c, v) :: r' else (c, v') :: set_at col v r'
  end.

End Py.

Export Py.

(* ================================================================== *)
(** * Strings *)
(* ================================================================== *)

Module Str.

(** [a <= b] on [str]: lexicographic on code units. *)
Definition le (a b : string) : Prop := String.leb a b = true.

Global Instance le_dec : RelDecision le.
Proof. intros a b. unfold le. apply _. Defined.

(** [sorted(l)] for a list of strings. *)
Definition sorted (l : list string) : list string := merge_sort le l.

(** [s.startswith(p)] *)
Definition startswith (s p : string) : bool := String.prefix p s.

(** [p in s] for strings: [p] occurs in [s] as a contiguous substring. *)
Fixpoint contains (s p : string) : bool :=
  String.prefix p s ||
  match s with
  | EmptyString => false
  | String _ s' => contains s' p
  end.

Definition is_digit (c : ascii) : bool :=
  (48 <=? nat_of_ascii c)%nat && (nat_of_ascii c <=? 57)%nat.

Fixpoint all_digits (s : string) : bool :=
  match s with
  | EmptyString => true
  | String c s' => is_digit c && all_digits s'
  end.

(** [s.isdigit()]: non-empty and made of decimal digits. *)
Definition isdigit (s : string) : bool :=
  match s with
  | EmptyString => false
  | _ => all_digits s
  end.

Fixpoint int_acc (acc : Z) (s : string) : Z :=
  match s with
  | EmptyString => acc
  | String c s' => int_acc (10 * acc + (Z.of_nat (nat_of_ascii c) - 48)) s'
  end.

(** [int(s)] on a string of decimal digits. *)
Definition int (s : string) : Z := int_acc 0 s.

(** [s.endswith(suffix)] *)
Fixpoint endswith (s suffix : string) : bool :=
  bool_decide (s = suffix) ||
  match s with
  | EmptyString => false
  | String _ s' => endswith s' suffix
  end.

(** [s.split(sep)] for a separator of one character. *)
Fixpoint split (sep : ascii) (s : string) : list string :=
  match s with
  | EmptyString => [EmptyString]
  | String c s' =>
      if bool_decide (c = sep) then EmptyString :: split sep s'
      else match split sep s' with
           | [] => [String c EmptyString]
           | x :: xs => String c x :: xs
           end
  end.

Fixpoint replace_from (old new : string) (skip : nat) (s : string) : string :=
  match s with
  | EmptyString => EmptyString
  | String c s' =>
      match skip with
      | S k => replace_from old new k s'
      | O =>
          if String.prefix old s
          then new +:+ replace_from old new (String.length old - 1) s'
          else String c (replace_from old new 0 s')
      end
  end.

Fixpoint interleave (new s : string) : string :=
  match s with
  | EmptyString => EmptyString
  | String c s' => String c (new +:+ interleave new s')
  end.

(** [s.replace(old, new)]: every occurrence of [old], found from the left
    without overlap, gives way to [new]. *)
Definition replace (s old new : string) : string :=
  match old with
  | EmptyString => new +:+ interleave new s
  | _ => replace_from old new 0 s
  end.

Definition is_lower (c : ascii) : bool :=
  (97 <=? nat_of_ascii c)%nat && (nat_of_ascii c <=? 122)%nat.

Definition is_upper (c : ascii) : bool :=
  (65 <=? nat_of_ascii c)%nat && (nat_of_ascii c <=? 90)%nat.

Definition to_upper (c : ascii) : ascii :=
  if is_lower c then ascii_of_nat (nat_of_ascii c - 32) else c.

Definition to_lower (c : ascii) : ascii :=
  if is_upper c then ascii_of_nat (nat_of_ascii c + 32) else c.

Fixpoint title_from (previous_is_cased : bool) (s : string) : string :=
  match s with
  | EmptyString => EmptyString
  | String c s' =>
      String (if previous_is_cased then to_lower c else to_upper c)
             (title_from (is_lower c || is_upper c) s')
  end.

(** [s.title()] on ASCII text: a letter is upper case after a character
    that is not a letter and lower case after a letter. *)
Definition title (s : string) : string := title_from false s.

(** [str(n)] for a natural number. *)
Definition of_nat (n : nat) : string := NilZero.string_of_uint (Nat.to_uint n).

Fixpoint upper (s : string) : string :=
  match s with
  | EmptyString => EmptyString
  | String c s' => String (to_upper c) (upper s')
  end.

(** [sep.join(parts)] *)
Definition join (sep : string) (parts : list string) : string :=
  String.concat sep parts.

(** [str(z)] for an integer. *)
Definition of_Z (z : Z) : string :=
  if bool_decide (z < 0)%Z then "-" +:+ of_nat (Z.abs_nat z)
  else of_nat (Z.to_nat z).

End Str.

(* ================================================================== *)
(** * pathlib over a directory tree *)
(* ================================================================== *)

Module Pathlib.

(** A node of the tree: a file (a parquet table when it parses as one)
    or a directory with named entries. *)
Inductive node : Type :=
  | File (content : option DataFrame)
  | Dir (entries : gmap string node).

Record World : Type := mkWorld {
  fs_root : node;         (* the directory "/" *)
  cwd : list string       (* the working directory, from "/" *)
}.

Record Path : Type := mkPath {
  absolute : bool;
  parts : list string
}.

Global Instance Path_eq_dec : EqDecision Path.
Proof. solve_decision. Defined.

(** [Path(s)] for a single relative component. *)
Definition Path_of (s : string) : Path := mkPath false [s].

(** [Path.cwd()] *)
Definition Path_cwd (w : World) : Path := mkPath true (cwd w).

(** [p / s] *)
Definition joinpath (p : Path) (s : string) : Path :=
  mkPath (absolute p) (parts p ++ [s]).

(** [p.name] *)
Definition name (p : Path) : string := List.last (parts p) EmptyString.

Fixpoint walk (n : node) (p : list string) : option node :=
  match p with
  | [] => Some n
  | c :: p' =>
      match n with
      | Dir m =>
          match m !! c with
          | Some n' => walk n' p'
          | None => None
          end
      | File _ => None
      end
  end.

Definition resolve (w : World) (p : Path) : list string :=
  if absolute p then parts p else cwd w ++ parts p.

Definition stat (w : World) (p : Path) : option node :=
  walk (fs_root w) (resolve w p).

(** [p.exists()] *)
Definition exists_ (w : World) (p : Path) : bool :=
  match stat w p with
  | Some _ => true
  | None => false
  end.

(** [p.is_dir()] *)
Definition is_dir (w : World) (p : Path) : bool :=
  match stat w p with
  | Some (Dir _) => true
  | _ => false
  end.

(** [p.iterdir()]: the children of a directory, in the order the
    operating system lists them. *)
Definition iterdir (w : World) (p : Path) : result (list Path) :=
  match stat w p with
  | Some (Dir m) => Ok (map (λ kv, joinpath p kv.1) (map_to_list m))
  | Some (File _) => Raise NotADirectoryError
  | None => Raise FileNotFoundError
  end.

(** [pd.read_parquet(p)] *)
Definition read_parquet (w : World) (p : Path) : result DataFrame :=
  match stat w p with
  | Some (File (Some df)) => Ok df
  | Some (File None) => Raise ArrowInvalid
  | Some (Dir _) => Raise ArrowInvalid
  | None => Raise FileNotFoundError
  end.

(** [str(p)] *)
Definition str (p : Path) : string :=
  match absolute p, parts p with
  | true, _ => "/" +:+ String.concat "/" (parts p)
  | false, [] => "."
  | false, _ => String.concat "/" (parts p)
  end.

(** [p / s] for a string of several components. *)
Definition truediv (p : Path) (s : string) : Path :=
  let comps :=
    List.filter (λ c, negb (bool_decide (c = EmptyString)) && negb (bool_decide (c = ".")))
                (Str.split "/" s) in
  if String.prefix "/" s then mkPath true comps
  else mkPath (absolute p) (parts p ++ comps).

(** Matching of a name against a pattern made of literal characters and [*]. *)
Fixpoint fnmatch (pat : string) : string → bool :=
  match pat with
  | EmptyString => λ name, bool_decide (name = EmptyString)
  | String c pat' =>
      if bool_decide (c = "*"%char) then
        fix star (name : string) : bool :=
          fnmatch pat' name ||
          match name with
          | EmptyString => false
          | String _ name' => star name'
          end
      else
        λ name,
          match name with
          | EmptyString => false
          | String d name' => bool_decide (c = d) && fnmatch pat' name'
          end
  end.

(** [p.glob(pattern)] for a pattern of one component: the matching
    children of a directory, in the order the operating system lists them;
    nothing when [p] is not a directory. *)
Definition glob (w : World) (p : Path) (pattern : string) : list Path :=
  match stat w p with
  | Some (Dir m) =>
      map (λ kv, joinpath p kv.1)
          (List.filter (λ kv : string * node, fnmatch pattern kv.1) (map_to_list m))
  | _ => []
  end.

End Pathlib.

Export Pathlib.

Notation "p // s" := (Pathlib.joinpath p s) (at level 40, left associativity).

(* ================================================================== *)
(** * pandas and numpy operations used by the program *)
(* ================================================================== *)

Module Pandas.

(** [df[col]] *)
Definition getitem (df : DataFrame) (col : string) : result (list cell) :=
  if bool_decide (col ∈ columns df)
  then Ok (map (λ r, at_ r col) (rows df))
  else Raise (KeyError col).

(** [df[mask]] with the mask given row by row. *)
Definition select (df : DataFrame) (keep : row → bool) : DataFrame :=
  mkDataFrame (columns df) (List.filter keep (rows df)).

Fixpoint unique_from (seen l : list cell) : list cell :=
  match l with
  | [] => []
  | c :: l' =>
      if bool_decide (c ∈ seen) then unique_from seen l'
      else c :: unique_from (c :: seen) l'
  end.

(** [s.unique()]: the distinct entries in order of first appearance. *)
Definition unique (s : list cell) : list cell := unique_from [] s.

(** A calendar or numeric entry read as a number.  The calendar columns
    of the data files are integer columns; an entry that is not a number
    stops the model with [TypeError]. *)
Definition as_number (c : cell) : result Qc :=
  match c with
  | Num q => Ok q
  | _ => Raise TypeError
  end.

(** [sorted(values)] on numbers. *)
Definition sorted (s : list cell) : result (list Qc) :=
  qs ← mapM as_number s; Ok (merge_sort Qcle qs).

(** [l[start:]] with Python's treatment of a negative start. *)
Definition slice_from {A} (start : Z) (l : list A) : list A :=
  if (start <? 0)%Z
  then drop (Z.to_nat (Z.max 0 (Z.of_nat (length l) + start))) l
  else drop (Z.to_nat start) l.

(** [s.isin(values)] for one entry. *)
Definition isin (values : list Qc) (c : cell) : bool :=
  match c with
  | Num q => bool_decide (q ∈ values)
  | _ => false
  end.

(** The group key of a row: [None] when a key entry is missing (such
    rows are left out of every group). *)
Fixpoint group_key (cs : list cell) : result (option (list Qc)) :=
  match cs with
  | [] => Ok (Some [])
  | c :: cs' =>
      rest ← group_key cs';
      match c with
      | Num q => Ok (option_map (cons q) rest)
      | NaN => Ok None
      | Text _ => Raise TypeError
      end
  end.

Fixpoint keyed_rows {V} (keys : list string) (val : row → V)
    (rs : list row) : result (list (list Qc * V)) :=
  match rs with
  | [] => Ok []
  | r :: rs' =>
      k ← group_key (map (at_ r) keys);
      rest ← keyed_rows keys val rs';
      Ok (match k with
          | Some k => (k, val r) :: rest
          | None => rest
          end)
  end.

Fixpoint push {V} (k : list Qc) (v : V) (gs : list (list Qc * list V))
    : list (list Qc * list V) :=
  match gs with
  | [] => [(k, [v])]
  | (k', vs) :: gs' =>
      if bool_decide (k = k') then (k', v :: vs) :: gs'
      else (k', vs) :: push k v gs'
  end.

(** The groups of a keyed sequence, each with its members in row order. *)
Fixpoint groups {V} (kvs : list (list Qc * V)) : list (list Qc * list V) :=
  match kvs with
  | [] => []
  | (k, v) :: kvs' => push k v (groups kvs')
  end.

(** Lexicographic order of group keys. *)
Fixpoint key_leb (a b : list Qc) : bool :=
  match a, b with
  | [], _ => true
  | _ :: _, [] => false
  | x :: a', y :: b' =>
      if bool_decide (x < y)%Qc then true
      else if bool_decide (x = y) then key_leb a' b'
      else false
  end.

Definition group_le {V} (g1 g2 : list Qc * V) : Prop := key_leb g1.1 g2.1 = true.

Global Instance group_le_dec {V} : RelDecision (@group_le V).
Proof. intros g1 g2. unfold group_le. apply _. Defined.

(** [df.groupby(keys)]: the groups in ascending key order. *)
Definition groupby {V} (df : DataFrame) (keys : list string)
    (val : row → V) : result (list (list Qc * list V)) :=
  _ ← mapM (getitem df) keys;
  kvs ← keyed_rows keys val (rows df);
  Ok (merge_sort group_le (groups kvs)).

Fixpoint numbers (s : list cell) : result (list Qc) :=
  match s with
  | [] => Ok []
  | Num q :: s' => qs ← numbers s'; Ok (q :: qs)
  | NaN :: s' => numbers s'
  | Text _ :: s' => Raise TypeError
  end.

Definition total (xs : list Qc) : Qc := foldr Qcplus 0%Qc xs.

Definition Qc_of_nat (n : nat) : Qc := Qc_of_Z (Z.of_nat n).

(** The arithmetic mean of the values present; missing when there is none. *)
Definition mean_of (xs : list Qc) : cell :=
  match xs with
  | [] => NaN
  | _ => Num (total xs / Qc_of_nat (length xs))
  end.

(** [s.mean()]: missing entries are skipped. *)
Definition mean (s : list cell) : result cell :=
  xs ← numbers s; Ok (mean_of xs).

(** [s.sum()]: missing entries are skipped. *)
Definition sum (s : list cell) : result Qc :=
  xs ← numbers s; Ok (total xs).

(** [s.notna().sum()] *)
Definition notna_count (s : list cell) : nat :=
  length (List.filter (λ c, negb (bool_decide (c = NaN))) s).

(** [df.groupby(keys)[col].mean().reset_index()] with the columns renamed
    to [keys ++ [label]]. *)
Definition groupby_mean (df : DataFrame) (keys : list string) (col label : string)
    : result DataFrame :=
  gs ← groupby df keys (λ r, at_ r col);
  _ ← getitem df col;
  avgs ← mapM (λ g : list Qc * list cell, a ← mean g.2; Ok (g.1, a)) gs;
  Ok (mkDataFrame (keys ++ [label])
        (map (λ g : list Qc * cell, zip keys (Num <$> g.1) ++ [(label, g.2)])
             avgs)).

End Pandas.

Module Numpy.

Import Pandas.

(** [np.sort(a)[::-1]] *)
Definition sort_desc (a : list Qc) : list Qc := reverse (merge_sort Qcle a).

(** [np.linspace(start, stop, n)] *)
Definition linspace (start stop : Qc) (n : nat) : list Qc :=
  match n with
  | 0 => []
  | 1 => [start]
  | _ => map (λ i, start + Qc_of_nat i * ((stop - start) / Qc_of_nat (n - 1)))%Qc
             (seq 0 n)
  end.

(** [np.mean(a)] on a non-empty sample. *)
Definition mean (a : list Qc) : Qc := (total a / Qc_of_nat (length a))%Qc.

Definition floor (q : Qc) : Z := Qfloor (this q).

(** [a.min()] and [a.max()] on a non-empty sample. *)
Definition amin (a : list Qc) : Qc := nth 0 (merge_sort Qcle a) 0%Qc.

Definition amax (a : list Qc) : Qc :=
  nth (length a - 1) (merge_sort Qcle a) 0%Qc.

(** [np.percentile(a, q)], linear interpolation between the two order
    statistics around the position [q/100 * (n-1)]. *)
Definition percentile (a : list Qc) (q : Qc) : Qc :=
  let s := merge_sort Qcle a in
  let pos := (q / Qc_of_Z 100 * Qc_of_nat (length s - 1))%Qc in
  let lo := Z.to_nat (floor pos) in
  let hi := Nat.min (S lo) (length s - 1) in
  let frac := (pos - Qc_of_nat lo)%Qc in
  let x_lo := nth lo s 0%Qc in
  let x_hi := nth hi s 0%Qc in
  (x_lo + frac * (x_hi - x_lo))%Qc.

End Numpy.

(* ================================================================== *)
(** * src/app.py: class RenewablePortfolioDashboard *)
(* ================================================================== *)

Module Dashboard.

Import Pandas.

Definition PARQUET_DIR : string := "Renewable Portfolio LLC_parquet".
Definition PORTFOLIO_DIR : string := "Renewable Portfolio LLC".

(** The instance state: the portfolio root and the site cache
    ([_files_cache] is passed to [get_available_files] beside it). *)
Record t : Type := mk {
  portfolio_path : Path;
  _sites_cache : option (list string)
}.

Global Instance t_eq_dec : EqDecision t.
Proof. solve_decision. Defined.

(** [__init__(self, base_path=None)] *)
Definition init (w : World) (base_path : option Path) : t :=
  let p0 :=
    match base_path with
    | None =>
        if exists_ w (Path_of PARQUET_DIR) then Path_of PARQUET_DIR
        else if exists_ w (Path_of PORTFOLIO_DIR) then Path_of PORTFOLIO_DIR
        else Path_cwd w
    | Some b => b
    end in
  let p1 :=
    if bool_decide (name p0 ∈ [PORTFOLIO_DIR; PARQUET_DIR]) then p0
    else if exists_ w (p0 // PARQUET_DIR) then p0 // PARQUET_DIR
    else if exists_ w (p0 // PORTFOLIO_DIR) then p0 // PORTFOLIO_DIR
    else p0 in
  mk p1 None.

(** The test of the loop body of [get_all_sites]. *)
Definition is_site (w : World) (item : Path) : bool :=
  is_dir w item && negb (Str.startswith (name item) "bootstrap_selections") &&
  (exists_ w (item // "Generation") || exists_ w (item // "Price_da") ||
   exists_ w (item // "Price_rt") || exists_ w (item // "Revenue_da") ||
   exists_ w (item // "Revenue_rt")).

(** [get_all_sites(self)]: the result and the instance afterwards. *)
Definition get_all_sites (w : World) (self : t) : result (list string * t) :=
  match _sites_cache self with
  | None =>
      items ← iterdir w (portfolio_path self);
      let sites := map name (List.filter (is_site w) items) in
      let cache := Str.sorted sites in
      Ok (cache, mk (portfolio_path self) (Some cache))
  | Some cache => Ok (cache, self)
  end.

Definition folder_map : gmap string string :=
  {[ "generation" := "Generation";
     "price_da" := "Price_da";
     "price_rt" := "Price_rt";
     "revenue_da" := "Revenue_da";
     "revenue_rt" := "Revenue_rt" ]}.

(** [folder_map.get(metric_type, metric_type)] *)
Definition folder_of (metric_type : string) : string :=
  default metric_type (folder_map !! metric_type).

(** [f"{site_name}_{metric_type}_{temporal}_{category}.parquet"] *)
Definition filename (site_name metric_type temporal category : string) : string :=
  site_name +:+ "_" +:+ metric_type +:+ "_" +:+ temporal +:+ "_" +:+ category
    +:+ ".parquet".

(** [find_distribution_file]; the listing printed on a miss has no
    effect on the result. *)
Definition find_distribution_file (w : World) (self : t)
    (site_name metric_type temporal : string) : option Path :=
  let metric_folder := portfolio_path self // site_name // folder_of metric_type in
  if negb (exists_ w metric_folder) then None
  else
    let dist_path := metric_folder // "forecast" // "distribution" in
    if negb (exists_ w dist_path) then None
    else
      let file_path :=
        dist_path // filename site_name metric_type temporal "distribution" in
      if exists_ w file_path then Some file_path else None.

(** [find_timeseries_file] *)
Definition find_timeseries_file (w : World) (self : t)
    (site_name metric_type temporal : string) : option Path :=
  let metric_folder := portfolio_path self // site_name // folder_of metric_type in
  if negb (exists_ w metric_folder) then None
  else
    let ts_path := metric_folder // "forecast" // "timeseries" in
    if negb (exists_ w ts_path) then None
    else
      let file_path :=
        ts_path // filename site_name metric_type temporal "timeseries" in
      if exists_ w file_path then Some file_path else None.

(** [find_historical_file] *)
Definition find_historical_file (w : World) (self : t)
    (site_name metric_type temporal : string) : option Path :=
  let metric_folder := portfolio_path self // site_name // folder_of metric_type in
  let hist_path := metric_folder // "historical" in
  if negb (exists_ w hist_path) then None
  else
    let file_path :=
      hist_path // filename site_name metric_type temporal "historical" in
    if exists_ w file_path then Some file_path else None.

(** The assignment of [value_col]; [None] when no branch assigns it. *)
Definition value_col_of (metric_type temporal : string) : option string :=
  if bool_decide (metric_type = "generation") then
    if bool_decide (temporal = "hourly") then Some "generation_mw"
    else Some (temporal +:+ "_generation_mwh")
  else if bool_decide (metric_type ∈ ["price_da"; "price_rt"]) then
    Some (if bool_decide (temporal ∈ ["daily"; "monthly"]) then "weighted_price"
          else metric_type)
  else if bool_decide (metric_type ∈ ["revenue_da"; "revenue_rt"]) then
    Some metric_type
  else None.

(** [years] limited to the last [num_years]. *)
Definition last_years_of (years : list Qc) (num_years : Z) : list Qc :=
  if (Z.of_nat (length years) <? num_years)%Z then years
  else slice_from (- num_years) years.

(** The body of the [try] block of [calculate_historical_average], from
    the table read from the historical file. *)
Definition historical_average (df : DataFrame)
    (metric_type temporal : string) (num_years : Z) : result (option DataFrame) :=
  value_col ←
    match value_col_of metric_type temporal with
    | Some c => Ok c
    | None => Raise (UnboundLocalError "value_col")
    end;
  if negb (bool_decide (value_col ∈ columns df)) then Ok None
  else
    year ← getitem df "year";
    years ← sorted (unique year);
    let last_years := last_years_of years num_years in
    let df_recent := select df (λ r, isin last_years (at_ r "year")) in
    if bool_decide (temporal = "monthly") then
      avg_df ← groupby_mean df_recent ["month"] value_col "historical_avg";
      Ok (Some avg_df)
    else if bool_decide (temporal = "daily") then
      avg_df ← groupby_mean df_recent ["month"; "day"] value_col "historical_avg";
      Ok (Some avg_df)
    else if bool_decide (temporal = "hourly") then
      if bool_decide (metric_type = "generation") || Str.contains metric_type "price"
      then
        avg_df ← groupby_mean df_recent ["hour"] value_col "historical_avg";
        Ok (Some avg_df)
      else
        avg_df ← groupby_mean df_recent ["month"; "day"; "hour"] value_col
                   "historical_avg";
        Ok (Some avg_df)
    else Ok None.

(** [calculate_historical_average(self, site_name, metric_type, temporal,
    num_years=10)] *)
Definition calculate_historical_average (w : World) (self : t)
    (site_name metric_type temporal : string) (num_years : Z) : option DataFrame :=
  match find_historical_file w self site_name metric_type temporal with
  | None => None
  | Some hist_file =>
      try_except
        (df ← read_parquet w hist_file;
         historical_average df metric_type temporal num_years)
        (λ _, None)
  end.

(** ** The display name and the files of a site *)

(** [clean_site_name(self, site_name)] *)
Definition clean_site_name (site_name : string) : string :=
  let clean_name := Str.replace (Str.replace site_name "_LLC" "") "_Power" "" in
  Str.title (Str.replace clean_name "_" " ").

(** An entry of the list [get_available_files] returns. *)
Record FileInfo : Type := mkFileInfo {
  fi_metric : string;
  fi_type : string;
  fi_file : string;
  fi_path : string;
  fi_size : string
}.

Global Instance FileInfo_eq_dec : EqDecision FileInfo.
Proof. solve_decision. Defined.

(** The dictionary [folders], in the order of its entries. *)
Definition folders : list (string * list string) :=
  [ ("Generation", ["forecast/distribution"; "forecast/timeseries"; "historical"]);
    ("Price_da", ["forecast/distribution"; "forecast/timeseries"; "historical"]);
    ("Price_rt", ["forecast/distribution"; "forecast/timeseries"; "historical"]);
    ("Revenue_da", ["forecast/distribution"; "forecast/timeseries"; "historical"]);
    ("Revenue_rt", ["forecast/distribution"; "forecast/timeseries"; "historical"]) ].

Section Files.

(** From the operating system and the formatting of floats: the label
    [f"{file.stat().st_size / 1024:.1f} KB"] of what lies at a path. *)
Variable size_label : World → Path → string.

(** The body of the loop over [subfolders]. *)
Definition files_in (w : World) (main_folder : string) (main_path : Path)
    (subfolder : string) : list FileInfo :=
  let sub_path := Pathlib.truediv main_path subfolder in
  if exists_ w sub_path then
    map (λ file,
           mkFileInfo main_folder
                      (List.last (Str.split "/" subfolder) EmptyString)
                      (name file) (Pathlib.str file) (size_label w file))
        (Pathlib.glob w sub_path "*.parquet")
  else [].

(** The loop over [folders]. *)
Definition files_info (w : World) (site_path : Path) : list FileInfo :=
  flat_map (λ entry : string * list string,
              let main_path := site_path // entry.1 in
              if exists_ w main_path
              then flat_map (files_in w entry.1 main_path) entry.2
              else [])
           folders.

(** [get_available_files(self, site_name)]: the result and
    [self._files_cache] afterwards. *)
Definition get_available_files (w : World) (self : t)
    (_files_cache : gmap string (list FileInfo)) (site_name : string)
    : list FileInfo * gmap string (list FileInfo) :=
  let cache_key := site_name +:+ "_files" in
  match _files_cache !! cache_key with
  | None =>
      let site_path := portfolio_path self // site_name in
      let files := files_info w site_path in
      (files, <[cache_key := files]> _files_cache)
  | Some files => (files, _files_cache)
  end.

End Files.

End Dashboard.

(* ================================================================== *)
(** * src/app.py: data preparation of the plots *)
(* ================================================================== *)

Module Plots.

Import Pandas.

(** Columns named by a year between 1980 and 2024. *)
Definition year_cols (df : DataFrame) : list string :=
  List.filter (λ col, Str.isdigit col &&
                      bool_decide (1980 ≤ Str.int col)%Z &&
                      bool_decide (Str.int col ≤ 2024)%Z)
              (columns df).

Definition path_cols (df : DataFrame) : list string :=
  List.filter (λ col, Str.startswith col "path_") (columns df).

Definition all_cols (df : DataFrame) : list string := year_cols df ++ path_cols df.

(** ** create_annual_distribution *)

(** The loop that fills [annual_values]. *)
Fixpoint annual_totals (df : DataFrame) (cols : list string) : result (list Qc) :=
  match cols with
  | [] => Ok []
  | col :: cols' =>
      s ← getitem df col;
      if bool_decide (notna_count s = 12) then
        v ← sum s; rest ← annual_totals df cols'; Ok (v :: rest)
      else annual_totals df cols'
  end.

Definition annual_values (df : DataFrame) : result (list Qc) :=
  annual_totals df (all_cols df).

(** The function itself, [create_annual_distribution], follows with the
    other views, where the colours are. *)

(** ** create_duration_curve *)

Record curve : Type := mkCurve {
  duration_pct : list Qc;         (* x of the curve *)
  sorted_values : list Qc;        (* y of the curve *)
  mean_value : Qc;
  percentiles : list (Z * Qc)     (* the markers, by the number in their label *)
}.

Global Instance curve_eq_dec : EqDecision curve.
Proof. solve_decision. Defined.

Inductive duration_outcome : Type :=
  | DurationNoData
  | DurationInsufficient
  | DurationError (e : exn)
  | DurationCurve (c : curve).

Section ToNumeric.

(** The reading of a text entry as a number by [pd.to_numeric]. *)
Variable parse_number : string → option Qc.

(** [pd.to_numeric(s, errors='coerce').dropna().tolist()] *)
Fixpoint numeric_values (s : list cell) : list Qc :=
  match s with
  | [] => []
  | Num q :: s' => q :: numeric_values s'
  | NaN :: s' => numeric_values s'
  | Text t :: s' =>
      match parse_number t with
      | Some q => q :: numeric_values s'
      | None => numeric_values s'
      end
  end.

(** The loop that fills [all_values]. *)
Fixpoint pooled (df : DataFrame) (cols : list string) : result (list Qc) :=
  match cols with
  | [] => Ok []
  | col :: cols' =>
      s ← getitem df col;
      rest ← pooled df cols';
      Ok (numeric_values s ++ rest)
  end.

Definition all_values (df : DataFrame) : result (list Qc) :=
  pooled df (all_cols df).

Definition duration_curve (values : list Qc) : curve :=
  let sorted_values := Numpy.sort_desc values in
  let n_values := length sorted_values in
  let duration_pct := Numpy.linspace 0%Qc (Qc_of_Z 100) n_values in
  let mean_value := Numpy.mean values in
  let p10_val := Numpy.percentile values (Qc_of_Z 90) in
  let p50_val := Numpy.percentile values (Qc_of_Z 50) in
  let p90_val := Numpy.percentile values (Qc_of_Z 10) in
  mkCurve duration_pct sorted_values mean_value
    [(10%Z, p10_val); (50%Z, p50_val); (90%Z, p90_val)].

(** [create_duration_curve(site_name, metric)] up to the data of the
    figure. *)
Definition create_duration_curve (w : World) (dashboard : Dashboard.t)
    (site_name metric : string) : duration_outcome :=
  match Dashboard.find_timeseries_file w dashboard site_name metric "hourly" with
  | None => DurationNoData
  | Some ts_file =>
      try_except
        (df ← read_parquet w ts_file;
         values ← all_values df;
         Ok (match values with
             | [] => DurationInsufficient
             | _ => DurationCurve (duration_curve values)
             end))
        DurationError
  end.

End ToNumeric.

(** ** create_ghi_vs_generation_hour, create_ghi_vs_generation_temp *)

Inductive scatter_outcome : Type :=
  | ScatterNoData
  | ScatterNoCompleteYears
  | ScatterInsufficient
  | ScatterError (e : exn)
  | ScatterPoints (df_filtered : DataFrame).

(** [df[col] = values] *)
Definition setitem (df : DataFrame) (col : string) (values : list cell)
    : result DataFrame :=
  if bool_decide (length values = length (rows df)) then
    Ok (mkDataFrame
          (if bool_decide (col ∈ columns df) then columns df else columns df ++ [col])
          (zip_with (λ r v, set_at col v r) (rows df) values))
  else Raise ValueError.

(** [s > x] for one entry. *)
Definition gt (x : Qc) (c : cell) : result bool :=
  match c with
  | Num q => Ok (bool_decide (x < q)%Qc)
  | NaN => Ok false
  | Text _ => Raise TypeError
  end.

(** [df[mask]] with the mask given as a column of booleans. *)
Definition select_mask (df : DataFrame) (mask : list bool) : DataFrame :=
  mkDataFrame (columns df) (map fst (List.filter snd (zip (rows df) mask))).

Section Scatter.

(** From pandas and numpy: the assembly of timestamps, the state of the
    global random generator and row sampling ([random_state] is
    [None] or a seed). *)
Variable to_datetime : list (list cell) → result (list cell).
Variable rng : Type.
Variable sample : rng → option Z → Z → list row → list row.

(** The common body of the two functions up to [df_filtered], the rows
    of the last [keep] complete years that pass the two thresholds;
    [None] when no year is complete. *)
Definition filtered_rows (keep : Z) (df : DataFrame) : result (option DataFrame) :=
  dates ←
    (if bool_decide ("datetime" ∈ columns df) then
       s ← getitem df "datetime"; to_datetime [s]
     else
       ss ← mapM (getitem df) ["year"; "month"; "day"; "hour"]; to_datetime ss);
  df ← setitem df "date" dates;
  year_counts ← groupby df ["year"] (λ _, ());
  let complete_years :=
    map (λ yc : list Qc * list (), hd 0%Qc yc.1)
        (List.filter (λ yc : list Qc * list (), bool_decide (8760 ≤ Z.of_nat (length yc.2))%Z)
                     year_counts) in
  match complete_years with
  | [] => Ok None
  | _ =>
      let years_to_use := slice_from (- keep) (merge_sort Qcle complete_years) in
      let df_years := select df (λ r, isin years_to_use (at_ r "year")) in
      gen ← getitem df_years "generation_mw";
      gen_mask ← mapM (gt (Q2Qc (1 # 10))) gen;
      ghi ← getitem df_years "shortwave_radiation";
      ghi_mask ← mapM (gt 0%Qc) ghi;
      Ok (Some (select_mask df_years (zip_with andb gen_mask ghi_mask)))
  end.

(** From [df_filtered] to the points drawn: [colour] is the column that
    colours them. *)
Definition sampled_points (colour : string) (g : rng) (df_filtered : DataFrame)
    : result scatter_outcome :=
  if bool_decide (length (rows df_filtered) < 100) then Ok ScatterInsufficient
  else
    let df_filtered :=
      if bool_decide (10000 < Z.of_nat (length (rows df_filtered)))%Z then
        mkDataFrame (columns df_filtered)
                    (sample g (Some 42%Z) 10000%Z (rows df_filtered))
      else df_filtered in
    _ ← getitem df_filtered colour;
    Ok (ScatterPoints df_filtered).

(** The common body of the two functions. *)
Definition scatter_points (keep : Z) (colour : string) (g : rng) (df : DataFrame)
    : result scatter_outcome :=
  filtered ← filtered_rows keep df;
  match filtered with
  | None => Ok ScatterNoCompleteYears
  | Some df_filtered => sampled_points colour g df_filtered
  end.

Definition create_ghi_vs_generation (keep : Z) (colour : string)
    (w : World) (dashboard : Dashboard.t) (g : rng) (site_name : string)
    : scatter_outcome :=
  match Dashboard.find_historical_file w dashboard site_name "generation" "hourly" with
  | None => ScatterNoData
  | Some hist_file =>
      try_except
        (df ← read_parquet w hist_file; scatter_points keep colour g df)
        ScatterError
  end.

(** [create_ghi_vs_generation_hour(site_name)]: the last 10 complete
    years, coloured by hour. *)
Definition create_ghi_vs_generation_hour :=
  create_ghi_vs_generation 10 "hour".

(** [create_ghi_vs_generation_temp(site_name)]: the last 5 complete
    years, coloured by temperature. *)
Definition create_ghi_vs_generation_temp :=
  create_ghi_vs_generation 5 "temperature_2m".

End Scatter.

End Plots.

(* ================================================================== *)
(** * The views of the data tab and of three plots *)
(* ================================================================== *)

Module Views.

Import Pandas Dashboard.

Definition COLORS : gmap string string :=
  {[ "generation" := "#70AD47";
     "price_da" := "#ED7D31";
     "price_rt" := "#4472C4";
     "revenue_da" := "#ED7D31";
     "revenue_rt" := "#FFC000";
     "historical" := "#8B0000";
     "background" := "#f8f9fa";
     "card" := "#ffffff";
     "text" := "#2c3e50";
     "text_muted" := "#6c757d";
     "border" := "#dee2e6" ]}.

(** [COLORS[key]] *)
Definition color_of (key : string) : result string :=
  match COLORS !! key with
  | Some c => Ok c
  | None => Raise (KeyError key)
  end.

Definition icons : gmap string string :=
  {[ "Generation" := "sun";
     "Price_da" := "dollar-sign";
     "Price_rt" := "dollar-sign";
     "Revenue_da" := "chart-line";
     "Revenue_rt" := "chart-line" ]}.

(** [get_metric_icon(metric)] *)
Definition get_metric_icon (metric : string) : string :=
  default "file" (icons !! metric).

(** ** create_file_explorer *)

(** A row of the table of a card. *)
Record table_row : Type := mkTableRow {
  row_type : string;
  row_file_name : string;
  row_size : string;
  row_actions : string
}.

(** A card: the icon class and the text of its header, and its table. *)
Record file_card : Type := mkFileCard {
  card_icon : string;
  card_title : string;
  table_data : list table_row
}.

Inductive file_explorer : Type :=
  | ExplorerAlert (message : string)
  | ExplorerCards (heading : string) (cards : list file_card).

(** The body of the loop that fills [grouped_files], a dictionary kept
    in the order its keys were first set. *)
Fixpoint add_file (file_info : FileInfo) (grouped_files : list (string * list FileInfo))
    : list (string * list FileInfo) :=
  match grouped_files with
  | [] => [(fi_metric file_info, [file_info])]
  | (metric, files) :: rest =>
      if bool_decide (metric = fi_metric file_info)
      then (metric, files ++ [file_info]) :: rest
      else (metric, files) :: add_file file_info rest
  end.

Definition group_files (files_info : list FileInfo) : list (string * list FileInfo) :=
  foldl (λ grouped_files file_info, add_file file_info grouped_files) [] files_info.

Definition card_of (group : string * list FileInfo) : file_card :=
  mkFileCard
    ("fas fa-" +:+ get_metric_icon group.1 +:+ " me-2")
    (Str.title (Str.replace group.1 "_" " "))
    (map (λ file_info,
            mkTableRow (Str.title (fi_type file_info)) (fi_file file_info)
                       (fi_size file_info) "View | Download")
         group.2).

Section Explorer.

Variable size_label : World → Path → string.

(** [create_file_explorer(site_name)]: the view and the file cache of the
    dashboard afterwards. *)
Definition create_file_explorer (w : World) (dashboard : Dashboard.t)
    (_files_cache : gmap string (list FileInfo)) (site_name : string)
    : file_explorer * gmap string (list FileInfo) :=
  let result := get_available_files size_label w dashboard _files_cache site_name in
  match result.1 with
  | [] => (ExplorerAlert "No data files found for this site", result.2)
  | files_info =>
      (ExplorerCards ("Data Files - " +:+ clean_site_name site_name)
                     (map card_of (group_files files_info)),
       result.2)
  end.

End Explorer.

(** ** create_diurnal_pattern *)

Definition hex_digit (c : ascii) : option Z :=
  let n := Z.of_nat (nat_of_ascii c) in
  if bool_decide (48 ≤ n ≤ 57)%Z then Some (n - 48)%Z
  else if bool_decide (97 ≤ n ≤ 102)%Z then Some (n - 87)%Z
  else if bool_decide (65 ≤ n ≤ 70)%Z then Some (n - 55)%Z
  else None.

Fixpoint hex_acc (acc : Z) (s : string) : result Z :=
  match s with
  | EmptyString => Ok acc
  | String c s' =>
      match hex_digit c with
      | Some d => hex_acc (16 * acc + d) s'
      | None => Raise ValueError
      end
  end.

(** [int(s, 16)] on a string of hexadecimal digits. *)
Definition int16 (s : string) : result Z :=
  match s with
  | EmptyString => Raise ValueError
  | _ => hex_acc 0 s
  end.

(** [f'rgba({int(c[1:3], 16)}, {int(c[3:5], 16)}, {int(c[5:7], 16)}, 0.3)'] *)
Definition rgba (c : string) : result string :=
  r ← int16 (String.substring 1 2 c);
  g ← int16 (String.substring 3 2 c);
  b ← int16 (String.substring 5 2 c);
  Ok ("rgba(" +:+ Str.of_nat (Z.to_nat r) +:+ ", " +:+ Str.of_nat (Z.to_nat g)
        +:+ ", " +:+ Str.of_nat (Z.to_nat b) +:+ ", 0.3)").

(** [df.groupby(keys).agg({col: 'mean' for col in cols}).reset_index()] *)
Definition groupby_agg_mean (df : DataFrame) (keys cols : list string)
    : result DataFrame :=
  gs ← groupby df keys (λ r, r);
  _ ← mapM (getitem df) cols;
  rs ← mapM (λ g : list Qc * list row,
               avgs ← mapM (λ col, mean (map (λ r, at_ r col) g.2)) cols;
               Ok (zip keys (Num <$> g.1) ++ zip cols avgs))
            gs;
  Ok (mkDataFrame (keys ++ cols) rs).

(** The data of the figure of the diurnal pattern. *)
Record diurnal_figure : Type := mkDiurnal {
  band_x : list cell;
  band_y : list cell;
  band_fillcolor : string;
  mean_x : list cell;
  mean_y : list cell;
  mean_color : string;
  hist_trace : option (list cell * list cell);
  fig_title : string;
  yaxis_title : string;
  yaxis_format : string
}.

Inductive diurnal_outcome : Type :=
  | DiurnalNoData
  | DiurnalError (e : exn)
  | DiurnalGraph (fig : diurnal_figure).

(** [create_diurnal_pattern(site_name, metric)] up to the data of the
    figure. *)
Definition create_diurnal_pattern (w : World) (dashboard : Dashboard.t)
    (site_name metric : string) : diurnal_outcome :=
  match find_distribution_file w dashboard site_name metric "hourly" with
  | None => DiurnalNoData
  | Some dist_file =>
      try_except
        (df ← read_parquet w dist_file;
         let hist_avg :=
           calculate_historical_average w dashboard site_name metric "hourly" 10 in
         hourly ← groupby_agg_mean df ["hour"] ["mean"; "p5"; "p95"];
         hour ← getitem hourly "hour";
         p95 ← getitem hourly "p95";
         p5 ← getitem hourly "p5";
         color ← color_of metric;
         fillcolor ← rgba color;
         mean_ ← getitem hourly "mean";
         hist ←
           match hist_avg with
           | None => Ok None
           | Some avg =>
               x ← getitem avg "hour";
               y ← getitem avg "historical_avg";
               Ok (Some (x, y))
           end;
         labels ←
           (if bool_decide (metric = "generation") then
              Ok ("Generation Diurnal Pattern - " +:+ clean_site_name site_name,
                  "Generation (MW)", ",.0f")
            else if bool_decide (metric ∈ ["price_da"; "price_rt"]) then
              let price_type :=
                if bool_decide (metric = "price_da") then "Day-Ahead" else "Real-Time" in
              Ok (price_type +:+ " Price Diurnal Pattern - " +:+ clean_site_name site_name,
                  "Price ($/MWh)", "$,.0f")
            else Raise (UnboundLocalError "title"));
         Ok (DiurnalGraph
               (mkDiurnal (hour ++ reverse hour) (p95 ++ reverse p5) fillcolor
                          hour mean_ color hist labels.1.1 labels.1.2 labels.2)))
        DiurnalError
  end.

(** ** create_daily_historical, create_monthly_historical *)

(** The data of the figure: the trace and the texts. *)
Record historical_figure : Type := mkHistorical {
  trace_x : list cell;
  trace_y : list cell;
  trace_color : string;
  historical_title : string;
  historical_yaxis_title : string;
  historical_yaxis_format : string
}.

Inductive historical_outcome : Type :=
  | HistoricalNoData
  | HistoricalUnsupported
  | HistoricalColumnMissing (value_col : string)
  | HistoricalError (e : exn)
  | HistoricalGraph (fig : historical_figure).

(** [df.dropna(subset=[col])] *)
Definition dropna (col : string) (df : DataFrame) : DataFrame :=
  select df (λ r, negb (bool_decide (at_ r col = NaN))).

(** The title, the title of the y axis and its format. *)
Definition historical_labels (temporal site_name metric : string)
    : string * string * string :=
  if bool_decide (metric = "generation") then
    (temporal +:+ " Generation Historical - " +:+ clean_site_name site_name,
     "Generation (MWh)", ",.0f")
  else if bool_decide (metric ∈ ["price_da"; "price_rt"]) then
    let price_type :=
      if bool_decide (metric = "price_da") then "Day-Ahead" else "Real-Time" in
    (temporal +:+ " " +:+ price_type +:+ " Price Historical - "
       +:+ clean_site_name site_name,
     "Price ($/MWh)", "$,.0f")
  else
    let revenue_type :=
      if bool_decide (metric = "revenue_da") then "Day-Ahead" else "Real-Time" in
    (temporal +:+ " " +:+ revenue_type +:+ " Revenue Historical - "
       +:+ clean_site_name site_name,
     "Revenue ($)", "$,.0f").

Section Calendar.

(** From pandas: the assembly of timestamps from the columns of a
    calendar, and [df.sort_values(col)], which does not fix the order of
    rows with equal entries. *)
Variable to_datetime : list (list cell) → result (list cell).
Variable sort_values : string → DataFrame → DataFrame.

(** The common body of the two functions up to the data of the figure;
    they differ in the resolution they ask for, in the days of the
    calendar and in their texts. *)
Definition create_historical (daily : bool) (w : World) (dashboard : Dashboard.t)
    (site_name metric : string) : historical_outcome :=
  let temporal := if daily then "daily" else "monthly" in
  match find_historical_file w dashboard site_name metric temporal with
  | None => HistoricalNoData
  | Some hist_file =>
      try_except
        (df ← read_parquet w hist_file;
         match
           (if bool_decide (metric = "generation")
            then Some (temporal +:+ "_generation_mwh")
            else if bool_decide (metric ∈ ["price_da"; "price_rt"])
            then Some "weighted_price"
            else if bool_decide (metric ∈ ["revenue_da"; "revenue_rt"])
            then Some metric
            else None)
         with
         | None => Ok HistoricalUnsupported
         | Some value_col =>
             if negb (bool_decide (value_col ∈ columns df))
             then Ok (HistoricalColumnMissing value_col)
             else
               year ← getitem df "year";
               years ← sorted (unique year);
               let recent_years :=
                 if bool_decide (10 ≤ length years)
                 then slice_from (-10) years else years in
               let df_recent := select df (λ r, isin recent_years (at_ r "year")) in
               calendar ←
                 (if daily then mapM (getitem df_recent) ["year"; "month"; "day"]
                  else
                    year_month ← mapM (getitem df_recent) ["year"; "month"];
                    Ok (year_month ++
                        [replicate (length (rows df_recent)) (Num (Qc_of_Z 1))]));
               dates ← to_datetime calendar;
               df_recent ← Plots.setitem df_recent "date" dates;
               let df_recent := sort_values "date" df_recent in
               let df_recent := dropna value_col df_recent in
               x ← getitem df_recent "date";
               y ← getitem df_recent value_col;
               color ← color_of metric;
               let text :=
                 historical_labels (if daily then "Daily" else "Monthly")
                                   site_name metric in
               Ok (HistoricalGraph
                     (mkHistorical x y color text.1.1 text.1.2 text.2))
         end)
        HistoricalError
  end.

(** [create_daily_historical(site_name, metric)] *)
Definition create_daily_historical := create_historical true.

(** [create_monthly_historical(site_name, metric)] *)
Definition create_monthly_historical := create_historical false.

End Calendar.

(** ** create_annual_distribution *)

(** The data of the figure: the sample, the statistics marked by the
    vertical lines, and the abscissae and the values of the density
    curve.  (The standard deviation and the coefficient of variation of
    the statistics box are square roots and stay outside.) *)
Record annual_figure (density : Type) : Type := mkAnnual {
  annual_sample : list Qc;
  mean_val : Qc;
  p5_val : Qc;
  p95_val : Qc;
  x_smooth : list Qc;
  kde_values : density;
  annual_fillcolor : string;
  annual_color : string;
  annual_title : string;
  annual_xaxis_title : string;
  annual_xaxis_format : string
}.
Global Arguments mkAnnual {density}.
Global Arguments annual_sample {density}.
Global Arguments mean_val {density}.
Global Arguments p5_val {density}.
Global Arguments p95_val {density}.
Global Arguments x_smooth {density}.
Global Arguments kde_values {density}.
Global Arguments annual_fillcolor {density}.
Global Arguments annual_color {density}.
Global Arguments annual_title {density}.
Global Arguments annual_xaxis_title {density}.
Global Arguments annual_xaxis_format {density}.

Inductive annual_outcome (density : Type) : Type :=
  | AnnualNoData                      (* no monthly timeseries file *)
  | AnnualInsufficient                (* no complete column *)
  | AnnualError (e : exn)
  | AnnualGraph (fig : annual_figure density).
Global Arguments AnnualNoData {density}.
Global Arguments AnnualInsufficient {density}.
Global Arguments AnnualError {density} e.
Global Arguments AnnualGraph {density} fig.

Section Density.

(** From scipy: [gaussian_kde(dataset, bw_method='scott')(points) * 100]
    for a dataset of more than one element, that is the values of the
    density curve or the exception raised on the way (the covariance of a
    dataset without spread is singular). *)
Variable density : Type.
Variable scipy_kde : list Qc → list Qc → result density.

(** The density estimate: the constructor of [gaussian_kde] refuses a
    dataset that has not several elements. *)
Definition gaussian_kde (dataset points : list Qc) : result density :=
  if bool_decide (1 < length dataset) then scipy_kde dataset points
  else Raise ValueError.

(** [create_annual_distribution(site_name, metric)] up to the data of the
    figure. *)
Definition create_annual_distribution (w : World) (dashboard : Dashboard.t)
    (site_name metric : string) : annual_outcome density :=
  match find_timeseries_file w dashboard site_name metric "monthly" with
  | None => AnnualNoData
  | Some ts_file =>
      try_except
        (df ← read_parquet w ts_file;
         values ← Plots.annual_values df;
         match values with
         | [] => Ok AnnualInsufficient
         | _ =>
             let mean_val := Numpy.mean values in
             let p5_val := Numpy.percentile values (Qc_of_Z 5) in
             let p95_val := Numpy.percentile values (Qc_of_Z 95) in
             let spread := (Numpy.amax values - Numpy.amin values)%Qc in
             let x_min := (Numpy.amin values - Q2Qc (1 # 10) * spread)%Qc in
             let x_max := (Numpy.amax values + Q2Qc (1 # 10) * spread)%Qc in
             let x_smooth := Numpy.linspace x_min x_max 300 in
             kde_values ← gaussian_kde values x_smooth;
             color ← color_of metric;
             fillcolor ← rgba color;
             text ←
               (if bool_decide (metric = "generation") then
                  Ok ("Generation Annual Distribution - " +:+ clean_site_name site_name,
                      "Annual Generation (MWh)", ",.0f")
                else if bool_decide (metric ∈ ["revenue_da"; "revenue_rt"]) then
                  let revenue_type :=
                    if bool_decide (metric = "revenue_da")
                    then "Day-Ahead" else "Real-Time" in
                  Ok (revenue_type +:+ " Revenue Annual Distribution - "
                        +:+ clean_site_name site_name,
                      "Annual Revenue ($)", "$,.0f")
                else Raise (UnboundLocalError "title"));
             Ok (AnnualGraph
                   (mkAnnual values mean_val p5_val p95_val x_smooth kde_values
                             fillcolor color text.1.1 text.1.2 text.2))
         end)
        AnnualError
  end.

End Density.

(** ** create_daily_forecast, create_monthly_forecast *)

Definition MONTH_NAMES : list string :=
  ["January"; "February"; "March"; "April"; "May"; "June";
   "July"; "August"; "September"; "October"; "November"; "December"].

(** [l[k]] on a list: a negative index counts from the end; [None] stands
    for [IndexError]. *)
Definition index {A} (l : list A) (k : Z) : option A :=
  if bool_decide (0 ≤ k)%Z then l !! Z.to_nat k
  else if bool_decide (- Z.of_nat (length l) ≤ k)%Z
       then l !! Z.to_nat (Z.of_nat (length l) + k)
       else None.

(** [a == b] on table entries: a missing entry equals nothing. *)
Definition eq_cell (a b : cell) : bool :=
  match a, b with
  | Num x, Num y => bool_decide (x = y)
  | Text s, Text t => bool_decide (s = t)
  | _, _ => false
  end.

(** What a computation leaves when the exception it raises is not told
    apart: [None] stands for any exception. *)
Definition ok {A} (r : result A) : option A :=
  match r with
  | Ok a => Some a
  | Raise _ => None
  end.

(** What the two functions return: the alert for a missing file, the
    alert of the handler, or the plot. *)
Inductive forecast_outcome (F : Type) : Type :=
  | ForecastNoData (message : string)
  | ForecastError
  | ForecastGraph (fig : F).
Global Arguments ForecastNoData {F} message.
Global Arguments ForecastError {F}.
Global Arguments ForecastGraph {F} fig.

(** The title, the title of the y axis and its format. *)
Definition forecast_labels (temporal site_name metric : string)
    : string * string * string :=
  if bool_decide (metric = "generation") then
    (temporal +:+ " Generation Forecast - " +:+ clean_site_name site_name,
     "Generation (MWh)", ",.0f")
  else if bool_decide (metric ∈ ["price_da"; "price_rt"]) then
    let price_type :=
      if bool_decide (metric = "price_da") then "Day-Ahead" else "Real-Time" in
    (temporal +:+ " " +:+ price_type +:+ " Price Forecast - "
       +:+ clean_site_name site_name,
     "Price ($/MWh)", "$,.0f")
  else
    let revenue_type :=
      if bool_decide (metric = "revenue_da") then "Day-Ahead" else "Real-Time" in
    (temporal +:+ " " +:+ revenue_type +:+ " Revenue Forecast - "
       +:+ clean_site_name site_name,
     "Revenue ($)", "$,.0f").

Record daily_figure : Type := mkDaily {
  daily_band_x : list nat;
  daily_band_y : list cell;
  daily_fillcolor : string;
  daily_mean_x : list nat;
  daily_mean_y : list cell;
  daily_mean_color : string;
  tick_positions : list nat;
  tick_labels : list string;
  daily_title : string;
  daily_yaxis_title : string;
  daily_yaxis_format : string
}.

Record monthly_figure : Type := mkMonthly {
  monthly_x : list nat;
  month_labels : list string;
  path_traces : list (list cell);
  monthly_band_x : list nat;
  monthly_band_y : list cell;
  monthly_fillcolor : string;
  monthly_mean_y : list cell;
  monthly_mean_color : string;
  hist_values : option (list cell);
  monthly_title : string;
  monthly_yaxis_title : string;
  monthly_yaxis_format : string
}.

Section Forecasts.

(** From Python: [int(s)] for a string, [None] when it raises. *)
Variable int_str : string → option Z.

(** [int(x)] for a table entry: a number is cut towards zero, a missing
    entry raises. *)
Definition int_ (x : cell) : option Z :=
  match x with
  | Num q => Some (Z.quot (Qnum q) (Z.pos (Qden q)))
  | NaN => None
  | Text s => int_str s
  end.

(** [MONTH_NAMES[int(m)-1][:3]] *)
Definition month_abbr (m : cell) : option string :=
  k ← int_ m;
  name ← index MONTH_NAMES (k - 1);
  Some (String.substring 0 3 name).

(** [range(0, n, step)] *)
Definition range_step (n step : nat) : list nat :=
  List.filter (λ i, bool_decide (i `mod` step = 0)) (seq 0 n).

(** The label of the tick at row [i]. *)
Definition tick_label (df : DataFrame) (i : nat) : option string :=
  r ← rows df !! i;
  _ ← ok (getitem df "month");
  month ← int_ (at_ r "month");
  _ ← ok (getitem df "day");
  day ← int_ (at_ r "day");
  name ← index MONTH_NAMES (month - 1);
  Some (String.substring 0 3 name +:+ " " +:+ Str.of_Z day).

(** [create_daily_forecast(site_name, metric)] up to the data of the
    figure. *)
Definition create_daily_forecast (w : World) (dashboard : Dashboard.t)
    (site_name metric : string) : forecast_outcome daily_figure :=
  match find_distribution_file w dashboard site_name metric "daily" with
  | None => ForecastNoData "No daily forecast data available"
  | Some dist_file =>
      default ForecastError
        (df ← ok (read_parquet w dist_file);
         let n := length (rows df) in
         p10 ← ok (getitem df "p10");
         p90 ← ok (getitem df "p90");
         color ← ok (color_of metric);
         fillcolor ← ok (rgba color);
         mean_ ← ok (getitem df "mean");
         let positions := range_step n 30 in
         labels ← list.mapM (tick_label df) positions;
         let text := forecast_labels "Daily" site_name metric in
         Some (ForecastGraph
                 (mkDaily (seq 0 n ++ reverse (seq 0 n)) (p10 ++ reverse p90) fillcolor
                          (seq 0 n) mean_ color positions labels
                          text.1.1 text.1.2 text.2)))
  end.

(** The value of the historical trace for a month of the forecast. *)
Definition hist_value (hist_avg : DataFrame) (month : cell) : option cell :=
  hist_month ← ok (getitem hist_avg "month");
  let hist_subset :=
    Plots.select_mask hist_avg (map (λ c, eq_cell c month) hist_month) in
  if bool_decide (0 < length (rows hist_subset)) then
    values ← ok (getitem hist_subset "historical_avg");
    list.head values
  else Some NaN.

(** [create_monthly_forecast(site_name, metric)] up to the data of the
    figure. *)
Definition create_monthly_forecast (w : World) (dashboard : Dashboard.t)
    (site_name metric : string) : forecast_outcome monthly_figure :=
  let dist_file := find_distribution_file w dashboard site_name metric "monthly" in
  let ts_file := find_timeseries_file w dashboard site_name metric "monthly" in
  match dist_file with
  | None =>
      ForecastNoData
        ("No monthly forecast data available for " +:+ metric +:+ " at " +:+ site_name)
  | Some dist_file =>
      default ForecastError
        (df_dist ← ok (read_parquet w dist_file);
         let hist_avg :=
           calculate_historical_average w dashboard site_name metric "monthly" 10 in
         axis ←
           (if bool_decide ("month" ∈ columns df_dist) then
              actual_months ← ok (getitem df_dist "month");
              labels ← list.mapM month_abbr actual_months;
              Some (seq 0 (length actual_months), labels)
            else Some (seq 0 12, map (String.substring 0 3) MONTH_NAMES));
         let x := axis.1 in
         paths ←
           match ts_file with
           | Some ts_file =>
               if exists_ w ts_file then
                 df_ts ← ok (read_parquet w ts_file);
                 list.mapM (λ path,
                              y ← ok (getitem df_ts path);
                              _ ← ok (color_of metric);
                              Some y)
                           (take 30 (Plots.path_cols df_ts))
               else Some []
           | None => Some []
           end;
         p10 ← ok (getitem df_dist "p10");
         p90 ← ok (getitem df_dist "p90");
         color ← ok (color_of metric);
         fillcolor ← ok (rgba color);
         mean_ ← ok (getitem df_dist "mean");
         hist ←
           match hist_avg with
           | Some hist_avg =>
               if bool_decide ("month" ∈ columns df_dist) then
                 actual_months ← ok (getitem df_dist "month");
                 values ← list.mapM (hist_value hist_avg) actual_months;
                 Some (Some values)
               else Some None
           | None => Some None
           end;
         let text := forecast_labels "Monthly" site_name metric in
         Some (ForecastGraph
                 (mkMonthly x axis.2 paths (x ++ reverse x) (p10 ++ reverse p90)
                            fillcolor mean_ color hist text.1.1 text.1.2 text.2)))
  end.

End Forecasts.

End Views.

(* ================================================================== *)
(** * The callbacks *)
(* ================================================================== *)

Module Callbacks.

Import Dashboard.

(** The truth value of a string or [None]. *)
Definition truthy (x : option string) : bool :=
  match x with
  | Some s => negb (bool_decide (s = EmptyString))
  | None => false
  end.

(** [x or d] *)
Definition or_else (x : option string) (d : string) : string :=
  match x with
  | Some s => if bool_decide (s = EmptyString) then d else s
  | None => d
  end.

(** [f"{x}"] *)
Definition fstr (x : option string) : string := default "None" x.

(** What a callback does: it returns its outputs or raises
    [PreventUpdate]. *)
Inductive update (A : Type) : Type :=
  | Update (outputs : A)
  | PreventUpdate.
Global Arguments Update {A} outputs.
Global Arguments PreventUpdate {A}.

(** [update_quick_stats(site_name)]: the text and the dashboard
    afterwards. *)
Definition update_quick_stats (w : World) (dashboard : Dashboard.t)
    (site_name : option string) : result (string * Dashboard.t) :=
  if negb (truthy site_name) then Ok ("No site selected", dashboard)
  else
    r ← get_all_sites w dashboard;
    Ok (Str.of_nat (length r.1) +:+ " sites available", r.2).

(** ** handle_nav_clicks *)

Definition TABS : list string :=
  ["generation"; "price"; "revenue"; "validation"; "data"; "portfolio"].

(** A navigation card: [create_card_content(icon_class, icon_color, title,
    is_active)]. *)
Record nav_card : Type := mkNavCard {
  icon_class : string;
  icon_color : string;
  nav_title : string;
  is_active : bool
}.

(** The [try] block of [handle_nav_clicks]; [triggered] is
    [ctx.triggered_id].  Nothing in it raises. *)
Definition handle_nav_clicks (triggered current_tab : option string)
    : string * list nav_card :=
  let new_tab :=
    if bool_decide (triggered = Some "nav-generation") then "generation"
    else if bool_decide (triggered = Some "nav-price") then "price"
    else if bool_decide (triggered = Some "nav-revenue") then "revenue"
    else if bool_decide (triggered = Some "nav-validation") then "validation"
    else if bool_decide (triggered = Some "nav-data") then "data"
    else if bool_decide (triggered = Some "nav-portfolio") then "portfolio"
    else or_else current_tab "generation" in
  let new_tab := if bool_decide (new_tab ∈ TABS) then new_tab else "generation" in
  (new_tab,
   [ mkNavCard "fas fa-sun" "#70AD47" "Generation" (bool_decide (new_tab = "generation"));
     mkNavCard "fas fa-dollar-sign" "#ED7D31" "Price" (bool_decide (new_tab = "price"));
     mkNavCard "fas fa-chart-line" "#ED7D31" "Revenue" (bool_decide (new_tab = "revenue"));
     mkNavCard "fas fa-check-circle" "#28a745" "Validation"
               (bool_decide (new_tab = "validation"));
     mkNavCard "fas fa-table" "#6f42c1" "Data View" (bool_decide (new_tab = "data"));
     mkNavCard "fas fa-briefcase" "#e83e8c" "Portfolio View"
               (bool_decide (new_tab = "portfolio")) ]).

(** ** handle_price_nav, handle_revenue_nav *)

(** The common body: the outline of the day-ahead button, the outline of
    the real-time button and the type stored. *)
Definition handle_type_nav (tab da_btn rt_btn : string)
    (triggered current_type current_tab : option string)
    : update (bool * bool * option string) :=
  if negb (bool_decide (current_tab = Some tab)) then PreventUpdate
  else if bool_decide (triggered = Some da_btn) then Update (false, true, Some "da")
  else if bool_decide (triggered = Some rt_btn) then Update (true, false, Some "rt")
  else Update (bool_decide (current_type = Some "rt"),
               bool_decide (current_type = Some "da"), current_type).

Definition handle_price_nav := handle_type_nav "price" "price-da-btn" "price-rt-btn".

Definition handle_revenue_nav :=
  handle_type_nav "revenue" "revenue-da-btn" "revenue-rt-btn".

(** ** update_plot_buttons *)

(** A button of the plot type bar, as rendered. *)
Record plot_button : Type := mkPlotButton {
  btn_label : string;
  btn_value : string;
  btn_icon : string;
  btn_color : string;
  btn_outline : bool
}.

Definition buttons_of (current_tab : option string)
    : option (list (string * string * string)) :=
  if bool_decide (current_tab = Some "generation") then
    Some [ ("Daily Forecast", "daily-forecast", "fa-calendar-day");
           ("Monthly Forecast", "monthly-forecast", "fa-chart-bar");
           ("Diurnal Pattern", "diurnal-pattern", "fa-clock");
           ("Annual Distribution", "annual-distribution", "fa-chart-area");
           ("GHI vs Generation (Hour)", "ghi-hour", "fa-sun");
           ("GHI vs Generation (Temp)", "ghi-temp", "fa-temperature-high") ]
  else if bool_decide (current_tab = Some "price") then
    Some [ ("Daily Forecast", "daily-forecast", "fa-calendar-day");
           ("Monthly Forecast", "monthly-forecast", "fa-chart-bar");
           ("Diurnal Pattern", "diurnal-pattern", "fa-clock");
           ("Duration Curve", "duration-curve", "fa-sort-amount-down") ]
  else if bool_decide (current_tab = Some "revenue") then
    Some [ ("Daily Forecast", "daily-forecast", "fa-calendar-day");
           ("Monthly Forecast", "monthly-forecast", "fa-chart-bar");
           ("Annual Distribution", "annual-distribution", "fa-chart-area") ]
  else if bool_decide (current_tab = Some "data") then
    Some [ ("File Explorer", "file-explorer", "fa-folder");
           ("Data Summary", "data-summary", "fa-info-circle");
           ("Download Center", "download-center", "fa-download") ]
  else None.

(** [update_plot_buttons(current_tab, price_type, revenue_type,
    current_plot_type)]: the buttons drawn ([None] for no bar) and the plot
    type stored. *)
Definition update_plot_buttons (current_tab current_plot_type : option string)
    : option (list plot_button) * option string :=
  match buttons_of current_tab with
  | None => (None, current_plot_type)
  | Some buttons =>
      let new_plot_type := "monthly-forecast" in
      if bool_decide (current_tab ∈ [Some "validation"; Some "data"; Some "portfolio"])
      then (None, Some new_plot_type)
      else
        (Some (map (λ btn : string * string * string,
                      mkPlotButton btn.1.1 btn.1.2 btn.2
                        (if bool_decide (btn.1.2 = new_plot_type)
                         then "primary" else "secondary")
                        (negb (bool_decide (btn.1.2 = new_plot_type))))
                   buttons),
         Some new_plot_type)
  end.

(** ** update_plot_type_from_click *)

Definition DQUOTE : string := String "034"%char EmptyString.

(** How the loop over the buttons ends: it returns an index, it raises
    (when [ctx.triggered[0]] does not exist), or it runs to its end. *)
Inductive loop_end : Type :=
  | Returned (index : string)
  | Raised
  | Exhausted.

Fixpoint clicked_button (triggered : list string) (n_clicks : list (option Z))
    (button_ids : list string) : loop_end :=
  match n_clicks, button_ids with
  | clicks :: n_clicks', index :: button_ids' =>
      if bool_decide (clicks ≠ None ∧ clicks ≠ Some 0%Z) then
        match triggered with
        | [] => Raised
        | prop_id :: _ =>
            if Str.startswith prop_id
                 ("{" +:+ DQUOTE +:+ "index" +:+ DQUOTE +:+ ":" +:+ DQUOTE
                    +:+ index +:+ DQUOTE)
            then Returned index
            else clicked_button triggered n_clicks' button_ids'
        end
      else clicked_button triggered n_clicks' button_ids'
  | _, _ => Exhausted
  end.

(** [update_plot_type_from_click(n_clicks, current_type, button_ids,
    current_tab)]; [triggered] holds the [prop_id]s of [ctx.triggered] and
    [button_ids] the [index] of each button. *)
Definition update_plot_type_from_click (triggered : list string)
    (n_clicks : list (option Z)) (current_type : option string)
    (button_ids : list string) (current_tab : option string) : string :=
  let fallback := or_else current_type "monthly-forecast" in
  if bool_decide (current_tab ∈ [Some "validation"; Some "data"; Some "portfolio"])
  then fallback
  else if bool_decide (n_clicks = []) || bool_decide (button_ids = []) ||
          forallb (λ clicks, bool_decide (clicks = None ∨ clicks = Some 0%Z)) n_clicks
  then fallback
  else
    match clicked_button triggered n_clicks button_ids with
    | Returned index => index
    | Raised => fallback
    | Exhausted => fallback
    end.

(** ** update_main_content *)

(** What is shown, named by the call that builds it: [Card plot] is the
    card around what the call [plot] returns (the alert of the handler,
    should that call raise). *)
Inductive view : Type :=
  | Alert (message color : string)
  | ValidationContent
  | PortfolioContent
  | FileExplorer (site_name : string)
  | DataSummary (site_name : string)
  | DownloadCenter (site_name : string)
  | DailyHistorical (site_name metric : string)
  | MonthlyHistorical (site_name metric : string)
  | DailyForecast (site_name metric : string)
  | MonthlyForecast (site_name metric : string)
  | DiurnalPattern (site_name metric : string)
  | AnnualDistribution (site_name metric : string)
  | DurationCurve (site_name metric : string)
  | GhiVsGenerationHour (site_name : string)
  | GhiVsGenerationTemp (site_name : string)
  | Card (plot : view).

Global Instance view_eq_dec : EqDecision view.
Proof. solve_decision. Defined.

(** [create_data_view_content(view_type, site_name)] *)
Definition create_data_view_content (view_type : string) (site_name : option string)
    : view :=
  match site_name with
  | Some site =>
      if bool_decide (site = EmptyString)
      then Alert "Please select a site to view data" "info"
      else if bool_decide (view_type = "file-explorer") then FileExplorer site
      else if bool_decide (view_type = "data-summary") then DataSummary site
      else if bool_decide (view_type = "download-center") then DownloadCenter site
      else FileExplorer site
  | None => Alert "Please select a site to view data" "info"
  end.

(** [update_main_content(current_tab, plot_type, site_name, price_type,
    revenue_type, view_mode)] *)
Definition update_main_content
    (current_tab plot_type site_name price_type revenue_type view_mode : option string)
    : view :=
  if negb (truthy site_name) &&
     negb (bool_decide (current_tab ∈ [Some "validation"; Some "portfolio"]))
  then Alert "Please select a site to begin analysis" "info"
  else if bool_decide (current_tab = Some "validation") then ValidationContent
  else if bool_decide (current_tab = Some "data") then
    create_data_view_content (or_else plot_type "file-explorer") site_name
  else if bool_decide (current_tab = Some "portfolio") then PortfolioContent
  else
    let site := default EmptyString site_name in
    let metric :=
      if bool_decide (current_tab = Some "generation") then "generation"
      else if bool_decide (current_tab = Some "price") then "price_" +:+ fstr price_type
      else if bool_decide (current_tab = Some "revenue")
      then "revenue_" +:+ fstr revenue_type
      else "generation" in
    let plot :=
      if bool_decide (plot_type ∈ [Some "daily-forecast"; Some "monthly-forecast"]) then
        if bool_decide (view_mode = Some "historical") then
          if bool_decide (plot_type = Some "daily-forecast")
          then DailyHistorical site metric
          else if bool_decide (plot_type = Some "monthly-forecast")
          then MonthlyHistorical site metric
          else Alert "Historical view not available for this plot type" "warning"
        else
          if bool_decide (plot_type = Some "daily-forecast")
          then DailyForecast site metric
          else if bool_decide (plot_type = Some "monthly-forecast")
          then MonthlyForecast site metric
          else Alert "Please select a plot type" "warning"
      else
        if bool_decide (plot_type = Some "diurnal-pattern") then DiurnalPattern site metric
        else if bool_decide (plot_type = Some "annual-distribution")
        then AnnualDistribution site metric
        else if bool_decide (plot_type = Some "duration-curve")
        then DurationCurve site metric
        else if bool_decide (plot_type = Some "ghi-hour") then GhiVsGenerationHour site
        else if bool_decide (plot_type = Some "ghi-temp") then GhiVsGenerationTemp site
        else Alert "Please select a plot type" "warning" in
    Card plot.

(** ** toggle_view_mode, reset_view_mode *)

(** [any(clicks or [])] *)
Definition any_clicks (clicks : list (option Z)) : bool :=
  existsb (λ c, bool_decide (c ≠ None ∧ c ≠ Some 0%Z)) clicks.

(** [toggle_view_mode(monthly_clicks, daily_clicks, current_mode)];
    [triggered] is [ctx.triggered_id], a dictionary or [None]. *)
Definition toggle_view_mode (triggered : option (gmap string string))
    (monthly_clicks daily_clicks : list (option Z)) (current_mode : option string)
    : option string :=
  if negb (any_clicks monthly_clicks) && negb (any_clicks daily_clicks)
  then current_mode
  else
    match triggered with
    | Some id =>
        if negb (bool_decide (id = ∅)) &&
           bool_decide (id !! "action" = Some "to-historical")
        then Some "historical"
        else if negb (bool_decide (id = ∅)) &&
                bool_decide (id !! "action" = Some "to-forecast")
        then Some "forecast"
        else current_mode
    | None => current_mode
    end.

(** [reset_view_mode(current_tab, plot_type)] *)
Definition reset_view_mode (current_tab plot_type : option string) : string :=
  "forecast".

(** ** update_plot_type_buttons *)

(** [update_plot_type_buttons(current_type, button_ids, current_tab)]: the
    colours and the outlines; [button_ids] holds the [index] of each
    button. *)
Definition update_plot_type_buttons (current_type : option string)
    (button_ids : list string) (current_tab : option string)
    : list string * list bool :=
  if bool_decide (button_ids = []) || bool_decide (length button_ids = 0) ||
     bool_decide (current_tab ∈ [Some "validation"; Some "data"; Some "portfolio"])
  then ([], [])
  else if negb (truthy current_type)
  then (replicate (length button_ids) "secondary", replicate (length button_ids) true)
  else
    (map (λ bid, if bool_decide (Some bid = current_type) then "primary" else "secondary")
         button_ids,
     map (λ bid, bool_decide (Some bid ≠ current_type)) button_ids).

(** ** toggle_suggestion_modal *)

(** What the callback does: it returns the state of the modal and the
    context, or it raises [AttributeError] on a type that is [None]. *)
Inductive modal_update : Type :=
  | ModalUpdate (is_open : option bool) (context : string)
  | AttributeError.

(** [f"Section: {tab_name}"], with the type in upper case on the price
    and revenue tabs; [None] when [upper] is asked of [None]. *)
Definition section_part (current_tab price_type revenue_type : option string)
    : option (list string) :=
  if truthy current_tab then
    let tab_name := Str.title (default EmptyString current_tab) in
    if bool_decide (current_tab = Some "price") then
      t ← price_type;
      Some ["Section: " +:+ tab_name +:+ " (" +:+ Str.upper t +:+ ")"]
    else if bool_decide (current_tab = Some "revenue") then
      t ← revenue_type;
      Some ["Section: " +:+ tab_name +:+ " (" +:+ Str.upper t +:+ ")"]
    else Some ["Section: " +:+ tab_name]
  else Some [].

(** [toggle_suggestion_modal(btn_clicks, cancel_clicks, submit_clicks,
    is_open, current_tab, plot_type, site_name, price_type, revenue_type)];
    [triggered] is [ctx.triggered_id]. *)
Definition toggle_suggestion_modal (triggered : option string) (is_open : option bool)
    (current_tab plot_type site_name price_type revenue_type : option string)
    : modal_update :=
  if bool_decide (triggered = Some "suggestion-btn") then
    let site_part :=
      if truthy site_name
      then ["Site: " +:+ clean_site_name (default EmptyString site_name)] else [] in
    match section_part current_tab price_type revenue_type with
    | None => AttributeError
    | Some section =>
        let view_part :=
          if truthy plot_type &&
             negb (bool_decide (current_tab ∈ [Some "validation"; Some "data"]))
          then ["View: " +:+
                Str.title (Str.replace (default EmptyString plot_type) "-" " ")]
          else [] in
        ModalUpdate (Some true) (Str.join " | " (site_part ++ section ++ view_part))
    end
  else if bool_decide (triggered ∈ [Some "suggestion-cancel"; Some "suggestion-submit"])
  then ModalUpdate (Some false) EmptyString
  else ModalUpdate is_open EmptyString.

End Callbacks.

(* ================================================================== *)
(** * Vocabulary of the specification *)
(* ================================================================== *)

Module Spec.

Import Pandas.

(** The last [k] elements of a sequence (all of it when it is shorter). *)
Definition last_n {A} (k : nat) (l : list A) : list A := drop (length l - k) l.

Definition is_num (c : cell) : Prop :=
  match c with
  | Num _ => True
  | _ => False
  end.

Definition is_text (c : cell) : Prop :=
  match c with
  | Text _ => True
  | _ => False
  end.

Global Instance is_num_dec (c : cell) : Decision (is_num c).
Proof. destruct c; simpl; apply _. Defined.

Global Instance is_text_dec (c : cell) : Decision (is_text c).
Proof. destruct c; simpl; apply _. Defined.

(** The numbers present in a column. *)
Fixpoint present (s : list cell) : list Qc :=
  match s with
  | [] => []
  | Num q :: s' => q :: present s'
  | _ :: s' => present s'
  end.

(** The row's year is one of [years]. *)
Definition in_years (years : list Qc) (r : row) : bool :=
  bool_decide (Exists (λ y, at_ r "year" = Num y) years).

(** The row's entries under [keys] are the numbers [k]. *)
Definition has_key (keys : list string) (k : list Qc) (r : row) : bool :=
  bool_decide (map (at_ r) keys = Num <$> k).

(** The entries of column [col] in the rows of a group. *)
Definition group_values (keys : list string) (k : list Qc) (col : string)
    (rs : list row) : list cell :=
  map (λ r, at_ r col) (List.filter (has_key keys k) rs).


(** The members of the group with key [k] in a keyed sequence, in order. *)
Definition members {V} (k : list Qc) (kvs : list (list Qc * V)) : list V :=
  map snd (List.filter (λ kv : list Qc * V, bool_decide (kv.1 = k)) kvs).

(** The first group stored under [k]. *)
Fixpoint find_group {V} (k : list Qc) (gs : list (list Qc * list V)) : option (list V) :=
  match gs with
  | [] => None
  | (k', vs) :: gs' => if bool_decide (k = k') then Some vs else find_group k gs'
  end.

(** The period key of the rolling average, by metric and resolution. *)
Definition period_key (metric temporal : string) : list string :=
  if bool_decide (temporal = "monthly") then ["month"]
  else if bool_decide (temporal = "daily") then ["month"; "day"]
  else if bool_decide (metric ∈ ["generation"; "price_da"; "price_rt"]) then ["hour"]
  else ["month"; "day"; "hour"].

End Spec.

(* ================================================================== *)
(** * Tables and directory trees used as examples *)
(* ================================================================== *)

Module Examples.
Import Pandas Dashboard Plots.

Definition int (n : Z) : cell := Num (Qc_of_Z n).

(** The table of the specification: two Januaries. *)
Definition two_januaries : DataFrame :=
  mkDataFrame ["year"; "month"; "monthly_generation_mwh"]
    [ [("year", int 2020); ("month", int 1); ("monthly_generation_mwh", int 10)];
      [("year", int 2021); ("month", int 1); ("monthly_generation_mwh", int 20)] ].

Definition hourly_revenue : DataFrame :=
  mkDataFrame ["year"; "month"; "day"; "hour"; "revenue_da"]
    [ [("year", int 2020); ("month", int 1); ("day", int 1); ("hour", int 0);
       ("revenue_da", int 4)];
      [("year", int 2021); ("month", int 1); ("day", int 1); ("hour", int 0);
       ("revenue_da", int 6)];
      [("year", int 2021); ("month", int 1); ("day", int 2); ("hour", int 0);
       ("revenue_da", int 8)] ].

(** A portfolio under [/srv]: a regular site, a directory whose
    [Generation] entry is a regular file, a reserved directory, a stray
    file, and a nested [_parquet] folder. *)
Definition site_a : node :=
  Dir {[ "Generation" :=
           Dir {[ "forecast" :=
                    Dir {[ "distribution" :=
                             Dir {[ "SiteA_generation_hourly_distribution.parquet" :=
                                      File None ]};
                           "timeseries" :=
                             Dir {[ "SiteA_generation_hourly_timeseries.parquet" :=
                                      File None ]} ]};
                  "historical" :=
                    Dir {[ "SiteA_generation_monthly_historical.parquet" :=
                             File (Some two_januaries) ]} ]};
         "curtailment" :=
           Dir {[ "historical" :=
                    Dir {[ "SiteA_curtailment_monthly_historical.parquet" :=
                             File (Some two_januaries) ]} ]} ]}.

Definition portfolio_entries : gmap string node :=
  {[ "SiteA" := site_a;
     "SiteB" := Dir {[ "Generation" := File None ]};
     "bootstrap_selections_2024" := Dir {[ "Generation" := Dir ∅ ]};
     "notes.txt" := File None;
     "Renewable Portfolio LLC_parquet" := Dir ∅ ]}.

Definition portfolio : node := Dir portfolio_entries.

Definition world : World :=
  mkWorld (Dir {[ "srv" := Dir {[ "Renewable Portfolio LLC" := portfolio ]} ]}) ["srv"].

Definition root : Path := mkPath true ["srv"; "Renewable Portfolio LLC"].

Definition dashboard : t := mk root None.




(** A year of 10,001 sunny hours. *)
Definition sunny_hour : row :=
  [("year", int 2020); ("month", int 6); ("day", int 1); ("hour", int 12);
   ("generation_mw", int 5); ("shortwave_radiation", int 800);
   ("temperature_2m", int 25)].

Definition sunny_year : DataFrame :=
  mkDataFrame ["year"; "month"; "day"; "hour"; "generation_mw";
               "shortwave_radiation"; "temperature_2m"]
              (replicate (Z.to_nat 10001) sunny_hour).

Definition sunny_world : World :=
  mkWorld
    (Dir {[ "SiteC" :=
              Dir {[ "Generation" :=
                       Dir {[ "historical" :=
                                Dir {[ "SiteC_generation_hourly_historical.parquet" :=
                                         File (Some sunny_year) ]} ]} ]} ]})
    [].

Definition sunny_dashboard : t := mk (mkPath true []) None.

(** Stand-ins for pandas: timestamps that are all missing, and a sample
    that keeps the first rows whatever the generator state. *)
Definition no_dates (cols : list (list cell)) : result (list cell) :=
  Ok (map (λ _, NaN) (hd [] cols)).

Definition first_rows (g : bool) (random_state : option Z) (n : Z) (rs : list row)
    : list row :=
  take (Z.to_nat n) rs.


(** Stand-ins for scipy and pandas: a density estimate that accepts every
    dataset, and a sort that leaves the rows where they are. *)
Definition flat_density (dataset points : list Qc) : result (list Qc) :=
  Ok (map (λ _, 0%Qc) points).

Definition keep_order (col : string) (df : DataFrame) : DataFrame := df.

(** Two first days of January and one second. *)
Definition three_days : DataFrame :=
  mkDataFrame ["year"; "month"; "day"; "daily_generation_mwh"]
    [ [("year", int 2020); ("month", int 1); ("day", int 1);
       ("daily_generation_mwh", int 2)];
      [("year", int 2021); ("month", int 1); ("day", int 1);
       ("daily_generation_mwh", int 4)];
      [("year", int 2021); ("month", int 1); ("day", int 2);
       ("daily_generation_mwh", int 7)] ].

(** Two years of months in a single path. *)
Definition two_years_in_a_path : DataFrame :=
  mkDataFrame ["path_0"] (replicate 24 [("path_0", int 1)]).

Definition long_path_world : World :=
  mkWorld
    (Dir {[ "SiteD" :=
              Dir {[ "Generation" :=
                       Dir {[ "forecast" :=
                                Dir {[ "timeseries" :=
                                         Dir {[ "SiteD_generation_monthly_timeseries.parquet" :=
                                                  File (Some two_years_in_a_path) ]} ]} ]} ]} ]})
    [].

(** An hourly distribution of two hours. *)
Definition two_hours : DataFrame :=
  mkDataFrame ["hour"; "mean"; "p5"; "p95"]
    [ [("hour", int 0); ("mean", int 2); ("p5", int 1); ("p95", int 3)];
      [("hour", int 1); ("mean", int 4); ("p5", int 2); ("p95", int 6)];
      [("hour", int 0); ("mean", int 4); ("p5", int 3); ("p95", int 5)] ].

Definition diurnal_world : World :=
  mkWorld
    (Dir {[ "SiteE" :=
              Dir {[ "Generation" :=
                       Dir {[ "forecast" :=
                                Dir {[ "distribution" :=
                                         Dir {[ "SiteE_generation_hourly_distribution.parquet" :=
                                                  File (Some two_hours) ]} ]} ]} ]} ]})
    [].

(** A monthly forecast of two months with two paths, and a daily forecast
    of 31 days. *)
Definition two_months : DataFrame :=
  mkDataFrame ["month"; "mean"; "p10"; "p90"]
    [ [("month", int 1); ("mean", int 10); ("p10", int 8); ("p90", int 12)];
      [("month", int 2); ("mean", int 20); ("p10", int 18); ("p90", int 22)] ].

Definition two_paths : DataFrame :=
  mkDataFrame ["month"; "path_0"; "path_1"]
    [ [("month", int 1); ("path_0", int 9); ("path_1", int 11)];
      [("month", int 2); ("path_0", int 19); ("path_1", int 21)] ].

Definition january : DataFrame :=
  mkDataFrame ["month"; "day"; "mean"; "p10"; "p90"]
    (map (λ d, [("month", int 1); ("day", int (Z.of_nat d + 1)); ("mean", int 10);
                ("p10", int 8); ("p90", int 12)])
         (seq 0 31)).

Definition forecast_world : World :=
  mkWorld
    (Dir {[ "SiteF" :=
              Dir {[ "Generation" :=
                       Dir {[ "forecast" :=
                                Dir {[ "distribution" :=
                                         Dir {[ "SiteF_generation_monthly_distribution.parquet" :=
                                                  File (Some two_months);
                                                "SiteF_generation_daily_distribution.parquet" :=
                                                  File (Some january) ]};
                                       "timeseries" :=
                                         Dir {[ "SiteF_generation_monthly_timeseries.parquet" :=
                                                  File (Some two_paths) ]} ]};
                              "historical" :=
                                Dir {[ "SiteF_generation_monthly_historical.parquet" :=
                                         File (Some two_januaries) ]} ]} ]} ]})
    [].

(** A stand-in for [int] on strings that accepts none. *)
Definition no_text (s : string) : option Z := None.

End Examples.

(* ================================================================== *)
(** * Facts *)
(* ================================================================== *)

Import Spec.

(* ================================================================== *)
(** * The directory tree *)
(* ================================================================== *)

Section Tree.

Implicit Types (n : node) (p q : list string) (w : World) (P : Path).

Lemma walk_app n p q :
  walk n (p ++ q) = walk n p ≫= λ n', walk n' q.
Proof.
  revert n. induction p as [|c p IH]; intros n; simpl; [done|].
  destruct n as [?|m]; [done|]. destruct (m !! c); [apply IH|done].
Qed.

Lemma resolve_joinpath w P s : resolve w (P // s) = resolve w P ++ [s].
Proof. unfold resolve, joinpath. simpl. destruct (absolute P); by rewrite ?app_assoc. Qed.

Lemma stat_joinpath w P s :
  stat w (P // s) = stat w P ≫= λ n, walk n [s].
Proof. unfold stat. by rewrite resolve_joinpath, walk_app. Qed.

(** Whatever exists lies in something that exists. *)
Lemma exists_parent w P s : exists_ w (P // s) = true → exists_ w P = true.
Proof.
  unfold exists_. rewrite stat_joinpath. by destruct (stat w P).
Qed.

Lemma missing_parent w P s : exists_ w P = false → exists_ w (P // s) = false.
Proof.
  intros H. destruct (exists_ w (P // s)) eqn:E; [|done].
  apply exists_parent in E. congruence.
Qed.

Lemma name_joinpath P s : name (P // s) = s.
Proof. unfold name, joinpath. simpl. apply List.last_last. Qed.

Lemma stat_relative_cwd w s : stat w (Path_cwd w // s) = stat w (Path_of s).
Proof. done. Qed.

End Tree.

(* ================================================================== *)
(** * The path resolvers *)
(* ================================================================== *)

Section Resolvers.

Import Dashboard.

Lemma folder_of_table :
  folder_of "generation" = "Generation" ∧ folder_of "price_da" = "Price_da" ∧
  folder_of "price_rt" = "Price_rt" ∧ folder_of "revenue_da" = "Revenue_da" ∧
  folder_of "revenue_rt" = "Revenue_rt".
Proof. by vm_compute. Qed.

Lemma folder_of_fallback (metric : string) :
  metric ∉ ["generation"; "price_da"; "price_rt"; "revenue_da"; "revenue_rt"] →
  folder_of metric = metric.
Proof.
  rewrite !not_elem_of_cons. intros (?&?&?&?&?&_).
  unfold folder_of, folder_map.
  by rewrite !lookup_insert_ne, lookup_singleton_ne.
Qed.

(** C1.  Each resolver returns the conventional path
    [root/site/folder/forecast/category/site_metric_temporal_category.parquet]
    ([root/site/folder/historical/...] for the historical category) whenever
    something exists at that path; the folder is read from the five-entry
    table and a metric token outside the table is its own folder. *)
Theorem resolvers_return_conventional_path
    (w : World) (self : t) (site metric temporal : string) :
  let root := portfolio_path self in
  let folder := folder_of metric in
  let dist := root // site // folder // "forecast" // "distribution"
      // (site +:+ "_" +:+ metric +:+ "_" +:+ temporal +:+ "_distribution.parquet") in
  let ts := root // site // folder // "forecast" // "timeseries"
      // (site +:+ "_" +:+ metric +:+ "_" +:+ temporal +:+ "_timeseries.parquet") in
  let hist := root // site // folder // "historical"
      // (site +:+ "_" +:+ metric +:+ "_" +:+ temporal +:+ "_historical.parquet") in
  (exists_ w dist = true →
     find_distribution_file w self site metric temporal = Some dist) ∧
  (exists_ w ts = true →
     find_timeseries_file w self site metric temporal = Some ts) ∧
  (exists_ w hist = true →
     find_historical_file w self site metric temporal = Some hist) ∧
  (folder_of "generation" = "Generation" ∧ folder_of "price_da" = "Price_da" ∧
   folder_of "price_rt" = "Price_rt" ∧ folder_of "revenue_da" = "Revenue_da" ∧
   folder_of "revenue_rt" = "Revenue_rt") ∧
  (metric ∉ ["generation"; "price_da"; "price_rt"; "revenue_da"; "revenue_rt"] →
     folder = metric).
Proof.
  intros root folder dist ts hist.
  split; [|split; [|split; [|split; [apply folder_of_table|apply folder_of_fallback]]]].
  - intros Hfile.
    pose proof (exists_parent _ _ _ Hfile) as Hdir.
    pose proof (exists_parent _ _ _ (exists_parent _ _ _ Hdir)) as Hfolder.
    unfold find_distribution_file. fold root folder.
    rewrite Hfolder, Hdir. simpl.
    change (filename site metric temporal "distribution")
      with (site +:+ "_" +:+ metric +:+ "_" +:+ temporal +:+ "_distribution.parquet").
    fold dist. by rewrite Hfile.
  - intros Hfile.
    pose proof (exists_parent _ _ _ Hfile) as Hdir.
    pose proof (exists_parent _ _ _ (exists_parent _ _ _ Hdir)) as Hfolder.
    unfold find_timeseries_file. fold root folder.
    rewrite Hfolder, Hdir. simpl.
    change (filename site metric temporal "timeseries")
      with (site +:+ "_" +:+ metric +:+ "_" +:+ temporal +:+ "_timeseries.parquet").
    fold ts. by rewrite Hfile.
  - intros Hfile.
    pose proof (exists_parent _ _ _ Hfile) as Hdir.
    unfold find_historical_file. fold root folder.
    rewrite Hdir. simpl.
    change (filename site metric temporal "historical")
      with (site +:+ "_" +:+ metric +:+ "_" +:+ temporal +:+ "_historical.parquet").
    fold hist. by rewrite Hfile.
Qed.

(** C2.  When nothing exists at the conventional distribution path,
    [find_distribution_file] returns [None]; the function has no
    exceptional outcome.  That is the case in particular when the metric
    folder or the [forecast/distribution] directory does not exist. *)
Theorem missing_distribution_file_is_None
    (w : World) (self : t) (site metric temporal : string) :
  let metric_folder := portfolio_path self // site // folder_of metric in
  let dist_path := metric_folder // "forecast" // "distribution" in
  let file_path :=
    dist_path // (site +:+ "_" +:+ metric +:+ "_" +:+ temporal
                    +:+ "_distribution.parquet") in
  (exists_ w file_path = false →
     find_distribution_file w self site metric temporal = None) ∧
  (exists_ w metric_folder = false → exists_ w file_path = false) ∧
  (exists_ w dist_path = false → exists_ w file_path = false).
Proof.
  intros metric_folder dist_path file_path. split; [|split].
  - intros Hfile. unfold find_distribution_file. fold metric_folder.
    destruct (exists_ w metric_folder); [|done]. fold dist_path.
    destruct (exists_ w dist_path); [|done]. simpl.
    change (filename site metric temporal "distribution")
      with (site +:+ "_" +:+ metric +:+ "_" +:+ temporal +:+ "_distribution.parquet").
    fold file_path. by rewrite Hfile.
  - intros H. by do 3 apply missing_parent.
  - intros H. by apply missing_parent.
Qed.

Lemma resolvers_witness :
  exists_ Examples.world
    (Examples.root // "SiteA" // "Generation" // "forecast" // "distribution"
       // "SiteA_generation_hourly_distribution.parquet") = true ∧
  find_distribution_file Examples.world Examples.dashboard "SiteA" "generation" "hourly"
    = Some (Examples.root // "SiteA" // "Generation" // "forecast" // "distribution"
              // "SiteA_generation_hourly_distribution.parquet") ∧
  find_timeseries_file Examples.world Examples.dashboard "SiteA" "generation" "hourly"
    = Some (Examples.root // "SiteA" // "Generation" // "forecast" // "timeseries"
              // "SiteA_generation_hourly_timeseries.parquet") ∧
  find_historical_file Examples.world Examples.dashboard "SiteA" "curtailment" "monthly"
    = Some (Examples.root // "SiteA" // "curtailment" // "historical"
              // "SiteA_curtailment_monthly_historical.parquet").
Proof.
  pose proof (resolvers_return_conventional_path Examples.world Examples.dashboard
                "SiteA" "generation" "hourly") as H1.
  pose proof (resolvers_return_conventional_path Examples.world Examples.dashboard
                "SiteA" "curtailment" "monthly") as H2.
  cbv zeta in H1, H2.
  destruct H1 as (Hd & Ht & _). destruct H2 as (_ & _ & Hh & _).
  split; [reflexivity|]. split; [apply Hd; reflexivity|].
  split; [apply Ht; reflexivity|]. apply Hh; reflexivity.
Defined.

Lemma missing_distribution_witness :
  exists_ Examples.world
    (Examples.root // "SiteB" // "Generation" // "forecast" // "distribution"
       // "SiteB_generation_daily_distribution.parquet") = false ∧
  find_distribution_file Examples.world Examples.dashboard "SiteB" "generation" "daily"
    = None.
Proof.
  split; [reflexivity|].
  apply (missing_distribution_file_is_None Examples.world Examples.dashboard
           "SiteB" "generation" "daily").
  reflexivity.
Defined.

End Resolvers.

(* ================================================================== *)
(** * Root discovery *)
(* ================================================================== *)

Section Root.

Import Dashboard.

Lemma init_no_override w :
  portfolio_path (init w None) =
    if exists_ w (Path_of PARQUET_DIR) then Path_of PARQUET_DIR
    else if exists_ w (Path_of PORTFOLIO_DIR) then Path_of PORTFOLIO_DIR
    else Path_cwd w.
Proof.
  unfold init. simpl.
  destruct (exists_ w (Path_of PARQUET_DIR)) eqn:E1; [done|].
  destruct (exists_ w (Path_of PORTFOLIO_DIR)) eqn:E2; [done|].
  case_bool_decide; [done|].
  assert (exists_ w (Path_cwd w // PARQUET_DIR) = false) as ->.
  { unfold exists_ in *. by rewrite stat_relative_cwd. }
  assert (exists_ w (Path_cwd w // PORTFOLIO_DIR) = false) as ->.
  { unfold exists_ in *. by rewrite stat_relative_cwd. }
  done.
Qed.

(** C9, as the code has it.  Without an override the root is the first
    that exists of [Renewable Portfolio LLC_parquet] and
    [Renewable Portfolio LLC] in the working directory, else the working
    directory.  An override whose own last component is one of the two
    names is used as it is; any other override is replaced by the
    [_parquet] subfolder it contains, else by the plain subfolder it
    contains, and is used as it is when it contains neither. *)
Theorem portfolio_root_discovery (w : World) :
  (exists_ w (Path_of PARQUET_DIR) = true →
     portfolio_path (init w None) = Path_of PARQUET_DIR) ∧
  (exists_ w (Path_of PARQUET_DIR) = false →
   exists_ w (Path_of PORTFOLIO_DIR) = true →
     portfolio_path (init w None) = Path_of PORTFOLIO_DIR) ∧
  (exists_ w (Path_of PARQUET_DIR) = false →
   exists_ w (Path_of PORTFOLIO_DIR) = false →
     portfolio_path (init w None) = Path_cwd w) ∧
  ∀ b : Path,
    (name b ∈ [PORTFOLIO_DIR; PARQUET_DIR] →
       portfolio_path (init w (Some b)) = b) ∧
    (name b ∉ [PORTFOLIO_DIR; PARQUET_DIR] →
     exists_ w (b // PARQUET_DIR) = true →
       portfolio_path (init w (Some b)) = b // PARQUET_DIR) ∧
    (name b ∉ [PORTFOLIO_DIR; PARQUET_DIR] →
     exists_ w (b // PARQUET_DIR) = false →
     exists_ w (b // PORTFOLIO_DIR) = true →
       portfolio_path (init w (Some b)) = b // PORTFOLIO_DIR) ∧
    (name b ∉ [PORTFOLIO_DIR; PARQUET_DIR] →
     exists_ w (b // PARQUET_DIR) = false →
     exists_ w (b // PORTFOLIO_DIR) = false →
       portfolio_path (init w (Some b)) = b).
Proof.
  rewrite init_no_override.
  split; [by intros ->|]. split; [by intros -> ->|]. split; [by intros -> ->|].
  intros b. unfold init. simpl.
  split; [intros Hn; by rewrite bool_decide_eq_true_2|].
  split; [intros Hn ->; by rewrite bool_decide_eq_false_2|].
  split; intros Hn -> ->; by rewrite bool_decide_eq_false_2.
Qed.

Lemma portfolio_root_witness :
  exists_ Examples.world (Path_of PARQUET_DIR) = false ∧
  exists_ Examples.world (Path_of PORTFOLIO_DIR) = true ∧
  portfolio_path (init Examples.world None) = Path_of PORTFOLIO_DIR ∧
  portfolio_path (init Examples.world (Some (mkPath true ["srv"])))
    = mkPath true ["srv"] // PORTFOLIO_DIR.
Proof.
  destruct (portfolio_root_discovery Examples.world) as (_ & Hauto & _ & Hover).
  destruct (Hover (mkPath true ["srv"])) as (_ & _ & Hsub & _).
  split; [reflexivity|]. split; [reflexivity|].
  split; [apply Hauto; reflexivity|].
  apply Hsub; [|reflexivity..].
  apply (bool_decide_unpack _). by vm_compute.
Defined.

(** An override that is itself named [Renewable Portfolio LLC] is kept
    although it contains a [Renewable Portfolio LLC_parquet] folder. *)
Lemma override_named_portfolio_is_kept :
  name Examples.root = PORTFOLIO_DIR ∧
  exists_ Examples.world (Examples.root // PARQUET_DIR) = true ∧
  portfolio_path (init Examples.world (Some Examples.root)) = Examples.root ∧
  Examples.root ≠ Examples.root // PARQUET_DIR.
Proof. split; [done|]. split; [done|]. split; [by vm_compute|done]. Qed.

End Root.

(* ================================================================== *)
(** * The site catalogue *)
(* ================================================================== *)

Section Catalogue.

Import Dashboard.

Global Instance str_le_total : Total Str.le.
Proof. intros a b. apply String.leb_total. Qed.

Lemma str_compare_trans (a b c : string) :
  String.compare a b ≠ Gt → String.compare b c ≠ Gt → String.compare a c ≠ Gt.
Proof.
  revert b c. induction a as [|x a IH]; intros [|y b] [|z c]; simpl; try done.
  unfold Ascii.compare.
  destruct (N.compare_spec (N_of_ascii x) (N_of_ascii y)) as [Hxy|Hxy|Hxy],
           (N.compare_spec (N_of_ascii y) (N_of_ascii z)) as [Hyz|Hyz|Hyz],
           (N.compare_spec (N_of_ascii x) (N_of_ascii z)) as [Hxz|Hxz|Hxz];
    try done; try lia.
  apply IH.
Qed.

Global Instance str_le_trans : Transitive Str.le.
Proof.
  intros a b c. unfold Str.le, String.leb. intros Hab Hbc.
  pose proof (str_compare_trans a b c) as H.
  destruct (String.compare a b), (String.compare b c), (String.compare a c);
    try done; by destruct H.
Qed.

Lemma sites_of_listing w root (l : list (string * node)) :
  map name (List.filter (is_site w) (map (λ kv, root // kv.1) l)) =
  List.filter (λ s, is_site w (root // s)) l.*1.
Proof.
  induction l as [|[s n] l IH]; simpl; [done|].
  destruct (is_site w (root // s)); simpl; [|done].
  by rewrite name_joinpath, IH.
Qed.

Lemma is_dir_entry w root entries s :
  stat w root = Some (Dir entries) →
  is_dir w (root // s) = true → s ∈ (map_to_list entries).*1.
Proof.
  intros Hroot. unfold is_dir. rewrite stat_joinpath, Hroot. simpl.
  destruct (entries !! s) as [n|] eqn:E; [|done]. intros _.
  apply list_elem_of_fmap. exists (s, n). split; [done|].
  by apply elem_of_map_to_list.
Qed.

Lemma is_site_spec w item :
  is_site w item = true ↔
  is_dir w item = true ∧
  Str.startswith (name item) "bootstrap_selections" = false ∧
  ∃ f, f ∈ ["Generation"; "Price_da"; "Price_rt"; "Revenue_da"; "Revenue_rt"] ∧
       exists_ w (item // f) = true.
Proof.
  unfold is_site. rewrite !andb_true_iff, negb_true_iff, !orb_true_iff.
  split.
  - intros [[Hd Hp] Hf]. split; [done|]. split; [done|].
    destruct Hf as [[[[?|?]|?]|?]|?]; eexists; (split; [|eassumption]);
      set_solver.
  - intros (Hd & Hp & f & Hf & He). split; [done|].
    rewrite !elem_of_cons in Hf.
    destruct Hf as [->|[->|[->|[->|[->|Hf]]]]]; [tauto..|].
    by apply elem_of_nil in Hf.
Qed.

(** C8, as the code has it.  On a fresh instance whose root is a
    directory, [get_all_sites] returns (and caches) the ascending,
    duplicate-free list of exactly the names [s] such that [root/s] is a
    directory, [s] does not start with "bootstrap_selections", and
    something (a directory or a file) exists at [root/s/f] for one of the
    five metric folder names [f]; it is the empty list when no name
    qualifies. *)
Theorem site_catalogue (w : World) (self : t) (entries : gmap string node) :
  _sites_cache self = None →
  stat w (portfolio_path self) = Some (Dir entries) →
  ∃ sites : list string,
    get_all_sites w self = Ok (sites, mk (portfolio_path self) (Some sites)) ∧
    StronglySorted Str.le sites ∧ NoDup sites ∧
    (∀ s, s ∈ sites ↔
       is_dir w (portfolio_path self // s) = true ∧
       Str.startswith s "bootstrap_selections" = false ∧
       ∃ f, f ∈ ["Generation"; "Price_da"; "Price_rt"; "Revenue_da"; "Revenue_rt"] ∧
            exists_ w (portfolio_path self // s // f) = true) ∧
    ((∀ s, is_site w (portfolio_path self // s) = false) → sites = []).
Proof.
  intros Hcache Hroot. set (root := portfolio_path self) in *.
  set (keys := (map_to_list entries).*1).
  set (sites := List.filter (λ s, is_site w (root // s)) keys).
  assert (Hsites : ∀ s, s ∈ sites ↔ is_site w (root // s) = true).
  { intros s. unfold sites. rewrite list_elem_of_In, filter_In, <-list_elem_of_In.
    split; [tauto|]. intros Hs. split; [|done].
    apply is_site_spec in Hs as [Hd _]. by eapply is_dir_entry. }
  exists (Str.sorted sites). split; [|split; [|split; [|split]]].
  - unfold get_all_sites, iterdir. rewrite Hcache. fold root. rewrite Hroot.
    simpl. by rewrite sites_of_listing.
  - apply StronglySorted_merge_sort; apply _.
  - unfold Str.sorted. rewrite merge_sort_Permutation.
    apply NoDup_ListNoDup, List.NoDup_filter, NoDup_ListNoDup, NoDup_fst_map_to_list.
  - intros s. unfold Str.sorted. rewrite merge_sort_Permutation, Hsites.
    rewrite is_site_spec. by rewrite name_joinpath.
  - intros Hnone. destruct (Str.sorted sites) as [|s l] eqn:E; [done|].
    assert (s ∈ sites) as Hs.
    { unfold Str.sorted in E. rewrite <-(merge_sort_Permutation Str.le), E. left. }
    apply Hsites in Hs. by rewrite Hnone in Hs.
Qed.

(** A second call answers from the cache. *)
Lemma get_all_sites_cached w self sites :
  _sites_cache self = Some sites → get_all_sites w self = Ok (sites, self).
Proof. intros H. unfold get_all_sites. by rewrite H. Qed.

Lemma site_catalogue_witness :
  ∃ sites : list string,
    get_all_sites Examples.world Examples.dashboard
      = Ok (sites, mk Examples.root (Some sites)) ∧
    StronglySorted Str.le sites ∧ NoDup sites ∧
    ("SiteA" ∈ sites ↔
       is_dir Examples.world (Examples.root // "SiteA") = true ∧
       Str.startswith "SiteA" "bootstrap_selections" = false ∧
       ∃ f, f ∈ ["Generation"; "Price_da"; "Price_rt"; "Revenue_da"; "Revenue_rt"] ∧
            exists_ Examples.world (Examples.root // "SiteA" // f) = true).
Proof.
  destruct (site_catalogue Examples.world Examples.dashboard Examples.portfolio_entries)
    as (sites & Hres & Hsorted & Hnd & Hin & _).
  - reflexivity.
  - reflexivity.
  - exists sites. split; [exact Hres|]. split; [exact Hsorted|].
    split; [exact Hnd|]. apply Hin.
Defined.

(** The catalogue of the example portfolio: [SiteB] is listed although
    the only entry under a metric folder name it holds is a regular file,
    so that it contains none of the five metric folders. *)
Lemma file_named_as_metric_folder_makes_a_site :
  get_all_sites Examples.world Examples.dashboard
    = Ok (["SiteA"; "SiteB"], mk Examples.root (Some ["SiteA"; "SiteB"])) ∧
  forallb (λ f, negb (is_dir Examples.world (Examples.root // "SiteB" // f)))
          ["Generation"; "Price_da"; "Price_rt"; "Revenue_da"; "Revenue_rt"] = true.
Proof. split; by vm_compute. Qed.

End Catalogue.

(* ================================================================== *)
(** * The result monad *)
(* ================================================================== *)

Section Monad.

Lemma elem_of_List_filter {A} (f : A → bool) (l : list A) (x : A) :
  x ∈ List.filter f l ↔ x ∈ l ∧ f x = true.
Proof. rewrite !list_elem_of_In. apply filter_In. Qed.

Lemma mapM_Ok {A B} (f : A → result B) (g : A → B) l :
  (∀ x, x ∈ l → f x = Ok (g x)) → mapM f l = Ok (map g l).
Proof.
  induction l as [|x l IH]; intros H; simpl; [done|].
  rewrite H by left. simpl. rewrite IH; [done|]. intros y Hy. apply H. by right.
Qed.

End Monad.

(* ================================================================== *)
(** * Grouping *)
(* ================================================================== *)

Section Groups.

Import Pandas.
Context {V : Type}.
Implicit Types (k : list Qc) (v : V) (vs : list V).
Implicit Types (gs : list (list Qc * list V)) (kvs : list (list Qc * V)).

Lemma find_group_push k k' v gs :
  find_group k' (push k v gs) =
    if bool_decide (k = k') then Some (v :: default [] (find_group k gs))
    else find_group k' gs.
Proof.
  induction gs as [|[k0 vs] gs IH]; simpl.
  - repeat case_bool_decide; congruence.
  - destruct (bool_decide (k = k0)) eqn:E0; simpl.
    + apply bool_decide_eq_true in E0 as ->.
      repeat case_bool_decide; congruence.
    + apply bool_decide_eq_false in E0. rewrite IH.
      repeat case_bool_decide; congruence.
Qed.

Lemma push_keys k v gs :
  (push k v gs).*1 = if find_group k gs is Some _ then gs.*1 else gs.*1 ++ [k].
Proof.
  induction gs as [|[k0 vs] gs IH]; csimpl; [done|].
  case_bool_decide; csimpl; [done|]. rewrite IH. by destruct (find_group k gs).
Qed.

Lemma find_group_None k gs : find_group k gs = None ↔ k ∉ gs.*1.
Proof.
  induction gs as [|[k0 vs] gs IH]; simpl.
  - split; [intros _; apply not_elem_of_nil|done].
  - rewrite not_elem_of_cons. case_bool_decide; [naive_solver|]. rewrite IH. naive_solver.
Qed.

Lemma find_group_elem k vs gs :
  NoDup gs.*1 → (k, vs) ∈ gs ↔ find_group k gs = Some vs.
Proof.
  induction gs as [|[k0 vs0] gs IH]; simpl; intros Hnd.
  - split; [by intros ?%elem_of_nil|done].
  - apply list.NoDup_cons in Hnd as [Hk0 Hnd]. rewrite elem_of_cons.
    case_bool_decide as E.
    + subst k0. split; [|naive_solver].
      intros [[= ->]|Hin]; [done|]. destruct Hk0.
      apply list_elem_of_fmap. by exists (k, vs).
    + rewrite <-IH by done. naive_solver.
Qed.

Lemma NoDup_push k v gs : NoDup gs.*1 → NoDup (push k v gs).*1.
Proof.
  intros Hnd. rewrite push_keys. destruct (find_group k gs) eqn:E; [done|].
  apply find_group_None in E. apply list.NoDup_app. split; [done|].
  split; [|apply NoDup_singleton]. intros x Hx ->%list_elem_of_singleton. done.
Qed.

Lemma NoDup_groups kvs : NoDup (groups kvs).*1.
Proof.
  induction kvs as [|[k v] kvs IH]; simpl; [constructor|by apply NoDup_push].
Qed.

Lemma find_group_groups k kvs :
  find_group k (groups kvs) =
    match members k kvs with
    | [] => None
    | vs => Some vs
    end.
Proof.
  induction kvs as [|[k0 v] kvs IH]; simpl; [done|].
  rewrite find_group_push. unfold members in *. simpl.
  case_bool_decide as E; simpl.
  - subst k0. rewrite IH. by destruct (map snd _).
  - rewrite IH. done.
Qed.

(** The groups of a keyed sequence: one per key that occurs, holding the
    members with that key in order. *)
Lemma groups_spec k vs kvs :
  (k, vs) ∈ groups kvs ↔ vs = members k kvs ∧ vs ≠ [].
Proof.
  rewrite find_group_elem by apply NoDup_groups.
  rewrite find_group_groups. destruct (members k kvs); naive_solver.
Qed.

Lemma groups_keys k kvs : k ∈ (groups kvs).*1 ↔ k ∈ kvs.*1.
Proof.
  split.
  - intros ([k' vs]&->&Hin)%list_elem_of_fmap. simpl.
    apply groups_spec in Hin as [-> Hne]. unfold members in Hne.
    destruct (List.filter _ kvs) as [|[k0 v0] l] eqn:E; [done|].
    assert (In (k0, v0) (List.filter (λ kv : list Qc * V, bool_decide (kv.1 = k')) kvs))
      as Hin by (rewrite E; by left).
    apply filter_In in Hin as [Hin Hk]. apply bool_decide_eq_true in Hk. simpl in Hk.
    subst k0. apply list_elem_of_fmap. exists (k', v0). split; [done|].
    by apply list_elem_of_In.
  - intros ([k' v]&->&Hin)%list_elem_of_fmap. simpl.
    apply list_elem_of_fmap. exists (k', members k' kvs). split; [done|].
    apply groups_spec. split; [done|]. unfold members.
    assert (In (k', v) (List.filter (λ kv : list Qc * V, bool_decide (kv.1 = k')) kvs)) as Hf.
    { apply filter_In. split; [by apply list_elem_of_In|]. by apply bool_decide_eq_true. }
    intros Hnil. apply map_eq_nil in Hnil. rewrite Hnil in Hf. done.
Qed.

End Groups.

(* ================================================================== *)
(** * groupby and mean *)
(* ================================================================== *)

Section GroupBy.

Import Pandas Spec.
Implicit Types (df : DataFrame) (r : row) (rs : list row) (keys : list string).

Lemma getitem_Ok df col :
  col ∈ columns df → getitem df col = Ok (map (λ r, at_ r col) (rows df)).
Proof. intros H. unfold getitem. by rewrite bool_decide_eq_true_2. Qed.

Lemma group_key_spec (cs : list cell) :
  Forall (λ c, ¬ is_text c) cs →
  ∃ ok, group_key cs = Ok ok ∧ ∀ k, ok = Some k ↔ cs = Num <$> k.
Proof.
  induction cs as [|c cs IH]; intros Hcs.
  - exists (Some []). split; [done|]. intros [|q k]; naive_solver.
  - apply list.Forall_cons in Hcs as [Hc Hcs]. destruct (IH Hcs) as (ok & Hgk & Hok).
    simpl. rewrite Hgk. simpl. destruct c as [q| |s]; [| |done].
    + eexists. split; [done|]. intros [|q' k]; destruct ok as [k0|]; simpl.
      * split; [done|]. intros [=].
      * done.
      * split.
        -- intros [= -> ->]. f_equal. by apply Hok.
        -- intros [= -> Hk]. apply Hok in Hk. congruence.
      * split; [done|]. intros [= -> Hk]. by apply Hok in Hk.
    + exists None. split; [done|]. intros [|q' k]; naive_solver.
Qed.

Lemma keyed_rows_spec {V} keys (val : row → V) rs :
  (∀ r, r ∈ rs → Forall (λ c, ¬ is_text (at_ r c)) keys) →
  ∃ kvs, keyed_rows keys val rs = Ok kvs ∧
    (∀ k, members k kvs = map val (List.filter (has_key keys k) rs)) ∧
    (∀ k, k ∈ kvs.*1 ↔ ∃ r, r ∈ rs ∧ map (at_ r) keys = Num <$> k).
Proof.
  induction rs as [|r rs IH]; intros Hrs.
  - exists []. split; [done|]. split; [done|]. intros k. split.
    + by intros ?%elem_of_nil.
    + by intros (r & ?%elem_of_nil & _).
  - destruct IH as (kvs & Hkvs & Hmem & Hkeys).
    { intros r' Hr'. apply Hrs. by right. }
    destruct (group_key_spec (map (at_ r) keys)) as (ok & Hok & Hk).
    { apply Forall_fmap. apply Hrs. by left. }
    simpl. rewrite Hok. simpl. rewrite Hkvs. simpl. eexists. split; [done|].
    destruct ok as [k0|].
    + pose proof (proj1 (Hk k0) eq_refl) as Hk0. split.
      * intros k. unfold members, has_key in *. simpl.
        case_bool_decide as E1; case_bool_decide as E2; simpl.
        -- by rewrite <-Hmem.
        -- subst k0. done.
        -- apply Hk in E2. congruence.
        -- apply Hmem.
      * intros k. csimpl. rewrite elem_of_cons, Hkeys. split.
        -- intros [->|(r' & Hr' & Hrk)]; [exists r; split; [left|done]|].
           exists r'. split; [by right|done].
        -- intros (r' & [->|Hr']%elem_of_cons & Hrk).
           ++ left. apply Hk in Hrk. congruence.
           ++ right. by exists r'.
    + split.
      * intros k. unfold has_key. simpl. case_bool_decide as E; [|apply Hmem].
        apply Hk in E. done.
      * intros k. rewrite Hkeys. split.
        -- intros (r' & Hr' & Hrk). exists r'. split; [by right|done].
        -- intros (r' & [->|Hr']%elem_of_cons & Hrk); [by apply Hk in Hrk|].
           by exists r'.
Qed.

Lemma numbers_present (s : list cell) :
  Forall (λ c, ¬ is_text c) s → numbers s = Ok (present s).
Proof.
  induction s as [|c s IH]; intros Hs; [done|].
  apply list.Forall_cons in Hs as [Hc Hs]. simpl.
  destruct c; [by rewrite IH|by apply IH|done].
Qed.

Lemma mean_present (s : list cell) :
  Forall (λ c, ¬ is_text c) s → mean s = Ok (mean_of (present s)).
Proof. intros Hs. unfold mean. by rewrite numbers_present. Qed.

(** The groups that [groupby] forms and what [mean] makes of them: one
    entry per key that occurs among the rows, with the mean of the numbers
    present in the value column of the rows with that key. *)
Lemma groupby_mean_spec df keys col label :
  Forall (λ c, c ∈ columns df) keys → col ∈ columns df →
  (∀ r, r ∈ rows df →
     Forall (λ c, ¬ is_text (at_ r c)) keys ∧ ¬ is_text (at_ r col)) →
  ∃ gs : list (list Qc * cell),
    groupby_mean df keys col label =
      Ok (mkDataFrame (keys ++ [label])
            (map (λ g : list Qc * cell, zip keys (Num <$> g.1) ++ [(label, g.2)]) gs)) ∧
    NoDup gs.*1 ∧
    (∀ k, k ∈ gs.*1 ↔ ∃ r, r ∈ rows df ∧ map (at_ r) keys = Num <$> k) ∧
    (∀ k a, (k, a) ∈ gs →
       a = mean_of (present (group_values keys k col (rows df)))).
Proof.
  intros Hkeys Hcol Hrows.
  destruct (keyed_rows_spec keys (λ r, at_ r col) (rows df))
    as (kvs & Hkvs & Hmem & Hks); [intros r Hr; by apply Hrows|].
  set (sorted_groups := merge_sort group_le (groups kvs)).
  assert (Hperm : sorted_groups ≡ₚ groups kvs) by apply merge_sort_Permutation.
  assert (Hgroup : ∀ g, g ∈ sorted_groups →
            g.2 = group_values keys g.1 col (rows df)).
  { intros [k vs]. rewrite Hperm, groups_spec. intros [-> _]. apply Hmem. }
  assert (Hmeans : mapM (λ g : list Qc * list cell, a ← mean g.2; Ok (g.1, a))
                     sorted_groups
                   = Ok (map (λ g, (g.1, mean_of (present g.2))) sorted_groups)).
  { apply mapM_Ok. intros g Hg. rewrite mean_present; [done|].
    rewrite (Hgroup g Hg). unfold group_values. apply Forall_fmap, list.Forall_forall.
    intros r [Hr _]%elem_of_List_filter. by apply Hrows. }
  exists (map (λ g, (g.1, mean_of (present g.2))) sorted_groups).
  split; [|split; [|split]].
  - unfold groupby_mean, groupby.
    rewrite (mapM_Ok _ (λ c, map (λ r, at_ r c) (rows df))).
    2:{ intros c Hc. apply getitem_Ok. by eapply list.Forall_forall in Hkeys. }
    simpl. rewrite Hkvs. simpl. rewrite getitem_Ok by done. simpl.
    fold sorted_groups. rewrite Hmeans. done.
  - rewrite <-list_fmap_compose. simpl.
    change (fmap _ sorted_groups) with (sorted_groups.*1).
    rewrite Hperm. apply NoDup_groups.
  - intros k. rewrite <-list_fmap_compose.
    change (fmap _ sorted_groups) with (sorted_groups.*1).
    rewrite Hperm, groups_keys. apply Hks.
  - intros k a ([k' vs] & [= -> ->] & Hg)%list_elem_of_fmap.
    pose proof (Hgroup _ Hg) as Hv. simpl in *. by subst vs.
Qed.

End GroupBy.

(* ================================================================== *)
(** * The years of a table *)
(* ================================================================== *)

Section Years.

Import Pandas Spec Dashboard.

Lemma unique_from_elem (seen l : list cell) (c : cell) :
  c ∈ unique_from seen l ↔ c ∈ l ∧ c ∉ seen.
Proof.
  revert seen. induction l as [|x l IH]; intros seen; simpl.
  - split; [by intros ?%elem_of_nil|by intros [?%elem_of_nil _]].
  - case_bool_decide as E.
    + rewrite IH, elem_of_cons. naive_solver.
    + rewrite elem_of_cons, IH. rewrite !elem_of_cons.
      destruct (decide (c = x)); naive_solver.
Qed.

Lemma NoDup_unique_from (seen l : list cell) : NoDup (unique_from seen l).
Proof.
  revert seen. induction l as [|x l IH]; intros seen; simpl; [constructor|].
  case_bool_decide; [apply IH|]. apply list.NoDup_cons. split; [|apply IH].
  rewrite unique_from_elem, not_elem_of_cons. naive_solver.
Qed.

Lemma unique_elem (s : list cell) (c : cell) : c ∈ unique s ↔ c ∈ s.
Proof.
  unfold unique. rewrite unique_from_elem. split; [naive_solver|].
  intros H. split; [done|apply not_elem_of_nil].
Qed.

Lemma numeric_cells (s : list cell) :
  Forall is_num s → ∃ qs, s = Num <$> qs ∧ mapM as_number s = Ok qs.
Proof.
  induction s as [|c s IH]; intros H.
  - by exists [].
  - apply list.Forall_cons in H as [Hc Hs]. destruct (IH Hs) as (qs & -> & Hm).
    destruct c as [q| |]; try done. exists (q :: qs). simpl. by rewrite Hm.
Qed.

Lemma strictly_sorted (l : list Qc) :
  StronglySorted Qcle l → NoDup l → StronglySorted Qclt l.
Proof.
  induction 1 as [|x l Hs IH Hx]; intros Hnd; constructor.
  - apply IH. by apply list.NoDup_cons in Hnd as [_ ?].
  - apply list.NoDup_cons in Hnd as [Hnin _].
    apply list.Forall_forall. intros y Hy.
    eapply list.Forall_forall in Hx; [|done].
    apply Qcle_lt_or_eq in Hx as [?| ->]; done.
Qed.

(** The years of a table: distinct, ascending. *)
Lemma sorted_years (df : DataFrame) :
  (∀ r, r ∈ rows df → is_num (at_ r "year")) →
  ∃ years,
    sorted (unique (map (λ r, at_ r "year") (rows df))) = Ok years ∧
    StronglySorted Qclt years ∧
    ∀ y, y ∈ years ↔ ∃ r, r ∈ rows df ∧ at_ r "year" = Num y.
Proof.
  intros Hnum. set (col := map (λ r, at_ r "year") (rows df)).
  destruct (numeric_cells (unique col)) as (qs & Hqs & Hm).
  { apply list.Forall_forall. intros c Hc.
    apply (proj1 (unique_elem _ _)) in Hc.
    apply list_elem_of_fmap in Hc as (r & -> & Hr). by apply Hnum. }
  exists (merge_sort Qcle qs). split; [|split].
  - unfold sorted. by rewrite Hm.
  - apply strictly_sorted.
    + apply StronglySorted_merge_sort; apply _.
    + rewrite merge_sort_Permutation.
      apply (NoDup_fmap_1 Num). rewrite <-Hqs. apply NoDup_unique_from.
  - intros y. rewrite merge_sort_Permutation.
    trans (Num y ∈ unique col).
    + rewrite Hqs. split; [apply list_elem_of_fmap_2|].
      intros (q & [= ->] & Hq)%list_elem_of_fmap. done.
    + rewrite unique_elem. unfold col. rewrite list_elem_of_fmap. naive_solver.
Qed.

Lemma last_years_of_positive (years : list Qc) (n : Z) :
  (1 ≤ n)%Z →
  last_years_of years n = last_n (Nat.min (Z.to_nat n) (length years)) years.
Proof.
  intros Hn. unfold last_years_of, last_n, slice_from.
  destruct (Z.ltb_spec (Z.of_nat (length years)) n).
  - replace (length years - _) with 0 by lia. done.
  - destruct (Z.ltb_spec (- n) 0); [|lia]. f_equal. lia.
Qed.

Lemma isin_in_years (years : list Qc) (r : row) :
  isin years (at_ r "year") = in_years years r.
Proof.
  unfold isin, in_years. destruct (at_ r "year") as [q| |s].
  - apply bool_decide_ext. rewrite list.Exists_exists. split.
    + intros H. by exists q.
    + by intros (y & Hy & [= ->]).
  - symmetry. apply bool_decide_eq_false. by intros (?&?&?)%list.Exists_exists.
  - symmetry. apply bool_decide_eq_false. by intros (?&?&?)%list.Exists_exists.
Qed.

End Years.

(* ================================================================== *)
(** * The historical rolling average *)
(* ================================================================== *)

Section HistoricalAverage.

Import Pandas Spec Dashboard.

(** The value column by metric and resolution. *)
Lemma value_col_of_table :
  value_col_of "generation" "hourly" = Some "generation_mw" ∧
  value_col_of "generation" "daily" = Some "daily_generation_mwh" ∧
  value_col_of "generation" "monthly" = Some "monthly_generation_mwh" ∧
  (∀ metric, metric ∈ ["price_da"; "price_rt"] →
     value_col_of metric "hourly" = Some metric ∧
     value_col_of metric "daily" = Some "weighted_price" ∧
     value_col_of metric "monthly" = Some "weighted_price") ∧
  (∀ metric temporal, metric ∈ ["revenue_da"; "revenue_rt"] →
     value_col_of metric temporal = Some metric).
Proof.
  split; [done|]. split; [done|]. split; [done|]. split.
  - intros metric. rewrite !elem_of_cons.
    intros [->|[->|H]]; [done..|by apply elem_of_nil in H].
  - intros metric temporal. rewrite !elem_of_cons.
    intros [->|[->|H]]; [done..|by apply elem_of_nil in H].
Qed.

Lemma value_col_of_recognised (metric temporal vc : string) :
  value_col_of metric temporal = Some vc →
  metric ∈ ["generation"; "price_da"; "price_rt"; "revenue_da"; "revenue_rt"].
Proof.
  unfold value_col_of. repeat case_bool_decide; try done; intros _; set_solver.
Qed.

Lemma value_col_of_unrecognised (metric temporal : string) :
  metric ∉ ["generation"; "price_da"; "price_rt"; "revenue_da"; "revenue_rt"] →
  value_col_of metric temporal = None.
Proof.
  intros H. destruct (value_col_of metric temporal) as [vc|] eqn:E; [|done].
  by apply value_col_of_recognised in E.
Qed.

(** On a recognised metric the test [metric_type == 'generation' or 'price'
    in metric_type] singles out generation and the two price metrics. *)
Lemma diurnal_test (metric : string) :
  metric ∈ ["generation"; "price_da"; "price_rt"; "revenue_da"; "revenue_rt"] →
  bool_decide (metric = "generation") || Str.contains metric "price" =
  bool_decide (metric ∈ ["generation"; "price_da"; "price_rt"]).
Proof.
  rewrite !elem_of_cons.
  intros [->|[->|[->|[->|[->|H]]]]]; [by vm_compute..|by apply elem_of_nil in H].
Qed.

Lemma select_rows df (keep : row → bool) :
  rows (select df keep) = List.filter keep (rows df).
Proof. done. Qed.

(** What [historical_average] returns on a table that has the year
    column, the period key columns and the value column, the year entries
    being numbers and the key and value entries numbers or missing. *)
Lemma historical_average_spec (df : DataFrame) (metric temporal vc : string) (n : Z) :
  temporal ∈ ["monthly"; "daily"; "hourly"] →
  value_col_of metric temporal = Some vc →
  vc ∈ columns df → "year" ∈ columns df →
  Forall (λ c, c ∈ columns df) (period_key metric temporal) →
  (∀ r, r ∈ rows df →
     is_num (at_ r "year") ∧
     Forall (λ c, ¬ is_text (at_ r c)) (period_key metric temporal) ∧
     ¬ is_text (at_ r vc)) →
  ∃ (years : list Qc) (gs : list (list Qc * cell)),
    StronglySorted Qclt years ∧
    (∀ y, y ∈ years ↔ ∃ r, r ∈ rows df ∧ at_ r "year" = Num y) ∧
    let keys := period_key metric temporal in
    let selected := List.filter (in_years (last_years_of years n)) (rows df) in
    historical_average df metric temporal n =
      Ok (Some (mkDataFrame (keys ++ ["historical_avg"])
                  (map (λ g : list Qc * cell,
                          zip keys (Num <$> g.1) ++ [("historical_avg", g.2)]) gs))) ∧
    NoDup gs.*1 ∧
    (∀ k, k ∈ gs.*1 ↔ ∃ r, r ∈ selected ∧ map (at_ r) keys = Num <$> k) ∧
    (∀ k a, (k, a) ∈ gs → a = mean_of (present (group_values keys k vc selected))).
Proof.
  intros Htemp Hvc Hcol Hyear Hkeys Hrows.
  destruct (sorted_years df) as (years & Hsorted & Hstrict & Hyears);
    [intros r Hr; by apply Hrows|].
  set (keys := period_key metric temporal) in *.
  set (selected := List.filter (in_years (last_years_of years n)) (rows df)).
  set (df_recent := select df (λ r, isin (last_years_of years n) (at_ r "year"))).
  assert (Hrecent : rows df_recent = selected).
  { unfold df_recent, selected. rewrite select_rows.
    apply List.filter_ext. intros r. apply isin_in_years. }
  destruct (groupby_mean_spec df_recent keys vc "historical_avg")
    as (gs & Hgs & Hnd & Hk & Hmean); [done|done| |].
  { intros r Hr. rewrite Hrecent in Hr. apply elem_of_List_filter in Hr as [Hr _].
    destruct (Hrows r Hr) as (_ & ? & ?). done. }
  exists years, gs. split; [done|]. split; [done|]. simpl.
  rewrite Hrecent in Hk, Hmean. split; [|done].
  unfold historical_average. rewrite Hvc. simpl.
  rewrite (bool_decide_eq_true_2 _ Hcol). simpl.
  rewrite getitem_Ok by done. simpl. rewrite Hsorted. simpl.
  fold df_recent.
  assert (Hbranch : ∀ k : DataFrame → result (option DataFrame),
            (avg_df ← groupby_mean df_recent keys vc "historical_avg"; k avg_df) =
            k (mkDataFrame (keys ++ ["historical_avg"])
                 (map (λ g : list Qc * cell,
                         zip keys (Num <$> g.1) ++ [("historical_avg", g.2)]) gs)))
    by (intros k; by rewrite Hgs).
  unfold keys in *. unfold period_key in *.
  rewrite !elem_of_cons in Htemp.
  destruct Htemp as [->|[->|[->|H]]]; [| | |by apply elem_of_nil in H].
  - apply Hbranch.
  - apply Hbranch.
  - simpl in *. rewrite diurnal_test by (by eapply value_col_of_recognised).
    case_bool_decide; apply Hbranch.
Qed.

End HistoricalAverage.

Section HistoricalClaims.

Import Pandas Spec Dashboard.

Lemma calculate_historical_average_reads w self site metric temporal n p df :
  find_historical_file w self site metric temporal = Some p →
  read_parquet w p = Ok df →
  calculate_historical_average w self site metric temporal n =
    try_except (historical_average df metric temporal n) (λ _, None).
Proof. intros Hp Hdf. unfold calculate_historical_average. by rewrite Hp, Hdf. Qed.

(** The monthly rolling average for [num_years >= 1].  On a table with a
    numeric year column, a month column and the value column of
    (metric, monthly), it succeeds and returns one row per month that
    occurs among the selected rows; [historical_avg] is the arithmetic mean
    of the values present in the value column of the selected rows of that
    month.  The selected rows are those of the last
    [min(num_years, number of distinct years)] distinct years in ascending
    order.  On the two rows (2020, 1, 10) and (2021, 1, 20) with
    [num_years = 10] the result is the single row month 1, average 15. *)
Theorem monthly_rolling_average :
  (∀ (df : DataFrame) (metric vc : string) (n : Z),
     value_col_of metric "monthly" = Some vc →
     vc ∈ columns df → "year" ∈ columns df → "month" ∈ columns df →
     (∀ r, r ∈ rows df →
        is_num (at_ r "year") ∧ ¬ is_text (at_ r "month") ∧ ¬ is_text (at_ r vc)) →
     (1 ≤ n)%Z →
     ∃ (years : list Qc) (avg : list (Qc * cell)),
       StronglySorted Qclt years ∧
       (∀ y, y ∈ years ↔ ∃ r, r ∈ rows df ∧ at_ r "year" = Num y) ∧
       let last_years := last_n (Nat.min (Z.to_nat n) (length years)) years in
       let selected := List.filter (in_years last_years) (rows df) in
       historical_average df metric "monthly" n =
         Ok (Some (mkDataFrame ["month"; "historical_avg"]
                     (map (λ ma : Qc * cell,
                             [("month", Num ma.1); ("historical_avg", ma.2)]) avg))) ∧
       NoDup avg.*1 ∧
       (∀ m, m ∈ avg.*1 ↔ ∃ r, r ∈ selected ∧ at_ r "month" = Num m) ∧
       (∀ m a, (m, a) ∈ avg →
          a = mean_of (present (map (λ r, at_ r vc)
                 (List.filter (λ r, bool_decide (at_ r "month" = Num m)) selected))))) ∧
  historical_average Examples.two_januaries "generation" "monthly" 10 =
    Ok (Some (mkDataFrame ["month"; "historical_avg"]
                [[("month", Examples.int 1); ("historical_avg", Examples.int 15)]])).
Proof.
  split; [|by apply (bool_decide_unpack _); vm_compute].
  intros df metric vc n Hvc Hcol Hyear Hmonth Hrows Hn.
  destruct (historical_average_spec df metric "monthly" vc n)
    as (years & gs & Hsorted & Hyears & Hres & Hnd & Hk & Hmean);
    [set_solver|done|done|done| | |].
  { by repeat constructor. }
  { intros r Hr. destruct (Hrows r Hr) as (? & ? & ?). by repeat constructor. }
  rewrite last_years_of_positive in Hk, Hmean by done.
  change (period_key metric "monthly") with ["month"] in *.
  assert (Hone : ∀ k, k ∈ gs.*1 → ∃ m, k = [m]).
  { intros k (r & _ & Hr)%Hk. destruct k as [|m [|m' k]]; [done| |done]. by exists m. }
  exists years, (map (λ g : list Qc * cell, (hd 0%Qc g.1, g.2)) gs).
  split; [done|]. split; [done|]. simpl. split; [|split; [|split]].
  - rewrite Hres. do 3 f_equal. rewrite <-list_fmap_compose.
    apply list_fmap_ext. intros i [k a] Hi. simpl.
    destruct (Hone k) as [m ->]; [|done].
    apply list_elem_of_fmap. exists (k, a). split; [done|].
    by eapply list_elem_of_lookup_2.
  - rewrite <-list_fmap_compose.
    assert (Hinj : ∀ k1 k2, k1 ∈ gs.*1 → k2 ∈ gs.*1 →
              hd 0%Qc k1 = hd 0%Qc k2 → k1 = k2).
    { intros k1 k2 [m1 ->]%Hone [m2 ->]%Hone. simpl. by intros ->. }
    clear -Hnd Hinj. induction gs as [|[k a] gs IH]; [constructor|].
    csimpl in *. apply list.NoDup_cons in Hnd as [Hk Hnd].
    apply list.NoDup_cons. split.
    + intros ([k' a'] & Heq & Hin)%list_elem_of_fmap. simpl in Heq.
      apply Hk. assert (k' ∈ gs.*1) as Hk'.
      { apply list_elem_of_fmap. by exists (k', a'). }
      rewrite (Hinj k k'); [done|left|by right|done].
    + apply IH; [done|]. intros k1 k2 H1 H2. apply Hinj; by right.
  - intros m. rewrite <-list_fmap_compose. split.
    + intros ([k a] & -> & Hin)%list_elem_of_fmap. simpl.
      assert (k ∈ gs.*1) as Hkin by (apply list_elem_of_fmap; by exists (k, a)).
      destruct (Hone k Hkin) as [m ->]. apply Hk in Hkin as (r & Hr & Hkey).
      exists r. split; [done|]. csimpl in Hkey. simpl. congruence.
    + intros (r & Hr & Hm). assert ([m] ∈ gs.*1) as Hin.
      { apply Hk. exists r. split; [done|]. simpl. by rewrite Hm. }
      apply list_elem_of_fmap in Hin as ([k a] & Hkeq & Hin). simpl in Hkeq. subst k.
      apply list_elem_of_fmap. by exists ([m], a).
  - intros m a ([k a'] & [= -> ->] & Hin)%list_elem_of_fmap.
    assert (k ∈ gs.*1) as Hkin by (apply list_elem_of_fmap; by exists (k, a')).
    destruct (Hone k Hkin) as [m ->]. simpl.
    rewrite (Hmean _ _ Hin). unfold group_values. do 3 f_equal.
    apply List.filter_ext. intros r. unfold has_key. csimpl.
    apply bool_decide_ext. split; [by intros [= ->]|by intros ->].
Qed.

Lemma example_rows_checked (P : row → Prop) (rs : list row) :
  Forall P rs → ∀ r, r ∈ rs → P r.
Proof. intros H r Hr. by eapply list.Forall_forall in H. Qed.

Lemma monthly_rolling_average_witness :
  value_col_of "generation" "monthly" = Some "monthly_generation_mwh" ∧
  (1 ≤ 10)%Z ∧
  ∃ avg : list (Qc * cell),
    historical_average Examples.two_januaries "generation" "monthly" 10 =
      Ok (Some (mkDataFrame ["month"; "historical_avg"]
                  (map (λ ma : Qc * cell,
                          [("month", Num ma.1); ("historical_avg", ma.2)]) avg))) ∧
    NoDup avg.*1.
Proof.
  split; [reflexivity|]. split; [lia|].
  destruct (proj1 monthly_rolling_average Examples.two_januaries "generation"
              "monthly_generation_mwh" 10%Z)
    as (years & avg & _ & _ & Hres & Hnd & _).
  - reflexivity.
  - by apply (bool_decide_unpack _); vm_compute.
  - by apply (bool_decide_unpack _); vm_compute.
  - by apply (bool_decide_unpack _); vm_compute.
  - apply example_rows_checked. repeat constructor; simpl; tauto.
  - lia.
  - exists avg. split; assumption.
Defined.

(** C3.  The rolling average is documented as that of the last
    [num_years] years, and the last [min(num_years, number of distinct
    years)] years are what it selects for [num_years >= 1].  With
    [num_years = 0] the slice [years[-0:]] keeps every year instead of
    none: on the two rows (2020, 1, 10) and (2021, 1, 20) the code returns
    the row month 1, average 15, although the last [min(0, 2) = 0] years
    select no row. *)
Lemma zero_years_selects_all :
  historical_average Examples.two_januaries "generation" "monthly" 0 =
    Ok (Some (mkDataFrame ["month"; "historical_avg"]
                [[("month", Examples.int 1); ("historical_avg", Examples.int 15)]])) ∧
  List.filter
    (in_years (last_n (Nat.min (Z.to_nat 0) 2) [Qc_of_Z 2020; Qc_of_Z 2021]))
    (rows Examples.two_januaries) = [].
Proof. split; by apply (bool_decide_unpack _); vm_compute. Qed.

(** C4.  With the hourly resolution and a table holding the year column,
    the key columns and the value column, the rolling average groups the
    selected rows by [hour] alone for generation, price_da and price_rt and
    by [(month, day, hour)] for every other metric that has a value column
    (revenue_da and revenue_rt); in both cases each group yields the
    arithmetic mean of the values present in the value column. *)
Theorem hourly_rolling_average
    (df : DataFrame) (metric vc : string) (n : Z) :
  let keys :=
    if bool_decide (metric ∈ ["generation"; "price_da"; "price_rt"]) then ["hour"]
    else ["month"; "day"; "hour"] in
  value_col_of metric "hourly" = Some vc →
  vc ∈ columns df → "year" ∈ columns df → Forall (λ c, c ∈ columns df) keys →
  (∀ r, r ∈ rows df →
     is_num (at_ r "year") ∧ Forall (λ c, ¬ is_text (at_ r c)) keys ∧
     ¬ is_text (at_ r vc)) →
  ∃ (years : list Qc) (gs : list (list Qc * cell)),
    StronglySorted Qclt years ∧
    (∀ y, y ∈ years ↔ ∃ r, r ∈ rows df ∧ at_ r "year" = Num y) ∧
    let selected := List.filter (in_years (last_years_of years n)) (rows df) in
    historical_average df metric "hourly" n =
      Ok (Some (mkDataFrame (keys ++ ["historical_avg"])
                  (map (λ g : list Qc * cell,
                          zip keys (Num <$> g.1) ++ [("historical_avg", g.2)]) gs))) ∧
    NoDup gs.*1 ∧
    (∀ k, k ∈ gs.*1 ↔ ∃ r, r ∈ selected ∧ map (at_ r) keys = Num <$> k) ∧
    (∀ k a, (k, a) ∈ gs → a = mean_of (present (group_values keys k vc selected))).
Proof.
  intros keys Hvc Hcol Hyear Hkeys Hrows.
  apply (historical_average_spec df metric "hourly" vc n); try done.
  set_solver.
Qed.

Lemma hourly_rolling_average_witness :
  value_col_of "revenue_da" "hourly" = Some "revenue_da" ∧
  ∃ gs : list (list Qc * cell),
    historical_average Examples.hourly_revenue "revenue_da" "hourly" 10 =
      Ok (Some (mkDataFrame ["month"; "day"; "hour"; "historical_avg"]
                  (map (λ g : list Qc * cell,
                          zip ["month"; "day"; "hour"] (Num <$> g.1)
                            ++ [("historical_avg", g.2)]) gs))) ∧
    NoDup gs.*1.
Proof.
  split; [reflexivity|].
  destruct (hourly_rolling_average Examples.hourly_revenue "revenue_da" "revenue_da" 10%Z)
    as (years & gs & _ & _ & Hres & Hnd & _).
  - reflexivity.
  - by apply (bool_decide_unpack _); vm_compute.
  - by apply (bool_decide_unpack _); vm_compute.
  - repeat constructor; by apply (bool_decide_unpack _); vm_compute.
  - apply example_rows_checked. repeat constructor; simpl; tauto.
  - exists gs. split; assumption.
Defined.

(** The two branches on concrete tables. *)
Lemma hourly_revenue_by_month_day_hour :
  historical_average Examples.hourly_revenue "revenue_da" "hourly" 10 =
    Ok (Some (mkDataFrame ["month"; "day"; "hour"; "historical_avg"]
      [ [("month", Examples.int 1); ("day", Examples.int 1); ("hour", Examples.int 0);
         ("historical_avg", Examples.int 5)];
        [("month", Examples.int 1); ("day", Examples.int 2); ("hour", Examples.int 0);
         ("historical_avg", Examples.int 8)] ])).
Proof. by apply (bool_decide_unpack _); vm_compute. Qed.

(** C10.  For a metric token outside the five recognised ones
    [calculate_historical_average] returns [None], whether or not the
    resolver finds a historical file under the fallback folder: in the
    [try] block no branch assigns [value_col], reading it raises
    [UnboundLocalError], and the handler returns [None]. *)
Theorem unrecognised_metric_has_no_average
    (w : World) (self : t) (site metric temporal : string) (n : Z) :
  metric ∉ ["generation"; "price_da"; "price_rt"; "revenue_da"; "revenue_rt"] →
  calculate_historical_average w self site metric temporal n = None ∧
  ∀ df, historical_average df metric temporal n = Raise (UnboundLocalError "value_col").
Proof.
  intros Hmetric.
  assert (Hbody : ∀ df, historical_average df metric temporal n =
                          Raise (UnboundLocalError "value_col")).
  { intros df. unfold historical_average.
    by rewrite value_col_of_unrecognised. }
  split; [|done]. unfold calculate_historical_average.
  destruct (find_historical_file w self site metric temporal) as [p|]; [|done].
  destruct (read_parquet w p) as [df|e]; simpl; [|done]. by rewrite Hbody.
Qed.

Lemma unrecognised_metric_witness :
  find_historical_file Examples.world Examples.dashboard "SiteA" "curtailment" "monthly"
    = Some (Examples.root // "SiteA" // "curtailment" // "historical"
              // "SiteA_curtailment_monthly_historical.parquet") ∧
  read_parquet Examples.world
    (Examples.root // "SiteA" // "curtailment" // "historical"
       // "SiteA_curtailment_monthly_historical.parquet") = Ok Examples.two_januaries ∧
  calculate_historical_average Examples.world Examples.dashboard
    "SiteA" "curtailment" "monthly" 10 = None.
Proof.
  split; [by vm_compute|]. split; [by vm_compute|].
  apply (unrecognised_metric_has_no_average Examples.world Examples.dashboard
           "SiteA" "curtailment" "monthly" 10%Z).
  by apply (bool_decide_unpack _); vm_compute.
Defined.

End HistoricalClaims.

(* ================================================================== *)
(** * Annual totals and the duration curve *)
(* ================================================================== *)

Section Annual.

Import Pandas Spec Plots Views.

Variable density : Type.
Variable scipy_kde : list Qc → list Qc → result density.







(** From the file to the outcome, by the size of the sample. *)
Lemma create_annual_distribution_reads w dashboard site metric ts_file df values :
  Dashboard.find_timeseries_file w dashboard site metric "monthly" = Some ts_file →
  read_parquet w ts_file = Ok df →
  annual_values df = Ok values →
  match create_annual_distribution density scipy_kde w dashboard site metric with
  | AnnualNoData => False
  | AnnualInsufficient => values = []
  | AnnualError e =>
      values ≠ [] ∧ (length values = 1 → e = ValueError) ∧
      (1 < length values → metric ∈ ["generation"; "revenue_da"; "revenue_rt"] →
       ∃ points, scipy_kde values points = Raise e)
  | AnnualGraph fig =>
      annual_sample fig = values ∧ 1 < length values ∧
      mean_val fig = Numpy.mean values ∧
      p5_val fig = Numpy.percentile values (Qc_of_Z 5) ∧
      p95_val fig = Numpy.percentile values (Qc_of_Z 95) ∧
      scipy_kde values (x_smooth fig) = Ok (kde_values fig)
  end.
Proof.
  intros Hfile Hread Hvalues. unfold create_annual_distribution.
  rewrite Hfile, Hread. cbn [mbind result_bind]. rewrite Hvalues. cbn [mbind result_bind].
  destruct values as [|v values]; [done|].
  unfold gaussian_kde.
  destruct (decide (1 < length (v :: values))) as [Hlen|Hlen].
  - rewrite (bool_decide_eq_true_2 _ Hlen).
    destruct (scipy_kde (v :: values) _) as [kde_values|e] eqn:Ekde;
      cbn [mbind result_bind try_except];
      [|split; [done|split; [lia|intros _ _; by eexists]]].
    destruct (color_of metric) as [color|e] eqn:Ecolor;
      cbn [mbind result_bind try_except].
    2:{ split; [done|]. split; [lia|]. intros _ Hmetric. exfalso.
        rewrite !elem_of_cons in Hmetric.
        destruct Hmetric as [->|[->|[->|?%elem_of_nil]]]; [..|done];
          by vm_compute in Ecolor. }
    destruct (rgba color) as [fillcolor|e] eqn:Ergba;
      cbn [mbind result_bind try_except].
    2:{ split; [done|]. split; [lia|]. intros _ Hmetric. exfalso.
        rewrite !elem_of_cons in Hmetric.
        destruct Hmetric as [->|[->|[->|?%elem_of_nil]]]; [..|done];
          vm_compute in Ecolor; injection Ecolor as <-; by vm_compute in Ergba. }
    destruct (if bool_decide (metric = "generation") then _ else _) as [text|e] eqn:Etext;
      cbn [mbind result_bind try_except].
    2:{ split; [done|]. split; [lia|]. intros _ Hmetric. exfalso.
        revert Etext. repeat case_bool_decide; try done; set_solver. }
    cbn [annual_sample mean_val p5_val p95_val x_smooth Views.kde_values].
    by repeat split.
  - rewrite (bool_decide_eq_false_2 _ Hlen). cbn [mbind result_bind try_except].
    split; [done|]. split; [done|]. intros H. done.
Qed.



End Annual.

Section AnnualDistributionExamples.

Import Pandas Spec Plots Views.



End AnnualDistributionExamples.

Section Percentile.

Import Pandas Spec Plots.
Local Open Scope Qc_scope.

Ltac Qc_to_Q :=
  unfold Qcle, Qclt, Qcdiv, Qcinv, Qcplus, Qcmult, Qcminus, Qcopp, Q2Qc in *;
  simpl in *;
  repeat match goal with
         | H : context [Qred _] |- _ => rewrite !Qred_correct in H
         | |- context [Qred _] => rewrite !Qred_correct
         end.

Lemma lerp_bounds (a b t : Qc) :
  a ≤ b → 0 ≤ t → t ≤ 1 → a ≤ a + t * (b - a) ∧ a + t * (b - a) ≤ b.
Proof. intros. split; Qc_to_Q; nra. Qed.

Lemma lerp_mono (a b t u : Qc) :
  a ≤ b → t ≤ u → a + t * (b - a) ≤ a + u * (b - a).
Proof. intros. Qc_to_Q; nra. Qed.

Ltac percent_to_Q :=
  Qc_to_Q;
  change (/ inject_Z 100)%Q with (1 # 100)%Q in *;
  change (inject_Z 100) with (100 # 1)%Q in *.

Lemma position_bounds (q m : Qc) :
  0 ≤ q → q ≤ Qc_of_Z 100 → 0 ≤ m →
  0 ≤ q / Qc_of_Z 100 * m ∧ q / Qc_of_Z 100 * m ≤ m.
Proof. intros. split; percent_to_Q; nra. Qed.

Lemma position_mono (q1 q2 m : Qc) :
  q1 ≤ q2 → 0 ≤ m → q1 / Qc_of_Z 100 * m ≤ q2 / Qc_of_Z 100 * m.
Proof.
  intros. percent_to_Q.
  assert (0 <= (q2 - q1) * m)%Q by (apply Qmult_le_0_compat; lra). lra.
Qed.

Lemma Qc_of_nat_nonneg (n : nat) : 0 ≤ Qc_of_nat n.
Proof.
  unfold Qc_of_nat. rewrite <-Z2Qc_inj_0. apply (proj1 (Z2Qc_inj_le _ _)). lia.
Qed.

(** The floor of a position in [0, m]. *)
Lemma floor_position (p : Qc) (m : nat) :
  0 ≤ p → p ≤ Qc_of_nat m →
  let lo := Z.to_nat (Numpy.floor p) in
  (lo ≤ m)%nat ∧ Qc_of_nat lo ≤ p ∧ p - Qc_of_nat lo ≤ 1 ∧ 0 ≤ p - Qc_of_nat lo.
Proof.
  intros Hp0 Hpm lo. unfold Numpy.floor in lo.
  assert (0 ≤ Qfloor p)%Z as Hfl.
  { change 0%Z with (Qfloor 0). by apply Qfloor_resp_le. }
  assert (Qfloor p ≤ Z.of_nat m)%Z as Hfm.
  { rewrite <-(Qfloor_Z (Z.of_nat m)). by apply Qfloor_resp_le. }
  assert (Hlo : this (Qc_of_nat lo) = inject_Z (Qfloor p)).
  { unfold Qc_of_nat, lo. simpl. by rewrite Z2Nat.id. }
  pose proof (Qfloor_le p) as H1. pose proof (Qlt_floor p) as H2.
  split; [lia|]. rewrite inject_Z_plus in H2.
  change (inject_Z 1) with 1%Q in H2.
  split; [|split]; Qc_to_Q; rewrite ?Hlo; simpl in *;
    generalize dependent (inject_Z (Qfloor p)); intros; lra.
Qed.

Lemma floor_mono (p1 p2 : Qc) :
  0 ≤ p1 → p1 ≤ p2 → (Z.to_nat (Numpy.floor p1) ≤ Z.to_nat (Numpy.floor p2))%nat.
Proof.
  intros H0 H12. apply Z2Nat.inj_le.
  - change 0%Z with (Qfloor 0). by apply Qfloor_resp_le.
  - change 0%Z with (Qfloor 0). apply Qfloor_resp_le. Qc_to_Q. lra.
  - by apply Qfloor_resp_le.
Qed.

Lemma sorted_nth_le (s : list Qc) (i j : nat) :
  StronglySorted Qcle s → (i ≤ j)%nat → (j < length s)%nat →
  nth i s 0 ≤ nth j s 0.
Proof.
  intros Hs. revert i j. induction Hs as [|x s Hs IH Hx]; intros i j Hij Hj.
  - simpl in Hj. lia.
  - destruct i as [|i], j as [|j]; simpl in *; [apply Qcle_refl| |lia|].
    + eapply list.Forall_forall in Hx; [exact Hx|].
      apply list_elem_of_In, nth_In. lia.
    + apply IH; lia.
Qed.

(** [np.percentile] is monotone in the requested percentage. *)
Lemma percentile_mono (a : list Qc) (q1 q2 : Qc) :
  a ≠ [] → 0 ≤ q1 → q1 ≤ q2 → q2 ≤ Qc_of_Z 100 →
  Numpy.percentile a q1 ≤ Numpy.percentile a q2.
Proof.
  intros Ha H0 H12 H100. unfold Numpy.percentile.
  set (s := merge_sort Qcle a).
  assert (Hs : StronglySorted Qcle s) by (apply StronglySorted_merge_sort; apply _).
  assert (Hn : (0 < length s)%nat).
  { unfold s. rewrite merge_sort_Permutation. destruct a; [done|simpl; lia]. }
  set (m := (length s - 1)%nat).
  pose proof (Qc_of_nat_nonneg m) as Hm.
  pose proof (Qcle_trans _ _ _ H0 H12) as H02.
  pose proof (Qcle_trans _ _ _ H12 H100) as H1100.
  destruct (position_bounds q1 _ H0 H1100 Hm) as [Hp10 Hp1m].
  destruct (position_bounds q2 _ H02 H100 Hm) as [Hp20 Hp2m].
  pose proof (position_mono q1 q2 _ H12 Hm) as Hp12.
  set (p1 := q1 / Qc_of_Z 100 * Qc_of_nat m) in *.
  set (p2 := q2 / Qc_of_Z 100 * Qc_of_nat m) in *.
  destruct (floor_position p1 m Hp10 Hp1m) as (Hl1m & Hl1p & Hf11 & Hf10).
  destruct (floor_position p2 m Hp20 Hp2m) as (Hl2m & Hl2p & Hf21 & Hf20).
  pose proof (floor_mono p1 p2 Hp10 Hp12) as Hl12.
  set (lo1 := Z.to_nat (Numpy.floor p1)) in *.
  set (lo2 := Z.to_nat (Numpy.floor p2)) in *.
  assert (Hstep : ∀ lo, (lo ≤ m)%nat → nth lo s 0 ≤ nth (S lo `min` m) s 0).
  { intros lo Hlo. apply sorted_nth_le; [done|lia|lia]. }
  destruct (decide (lo1 = lo2)) as [Heq|Hne].
  - rewrite <-Heq in *. apply lerp_mono; [by apply Hstep|].
    Qc_to_Q. lra.
  - destruct (lerp_bounds _ _ _ (Hstep lo1 Hl1m) Hf10 Hf11) as [_ Hup].
    destruct (lerp_bounds _ _ _ (Hstep lo2 Hl2m) Hf20 Hf21) as [Hdown _].
    eapply Qcle_trans; [exact Hup|]. eapply Qcle_trans; [|exact Hdown].
    apply sorted_nth_le; [done|lia|lia].
Qed.

Lemma percentile_0 (a : list Qc) :
  Numpy.percentile a 0 = nth 0 (merge_sort Qcle a) 0.
Proof.
  unfold Numpy.percentile.
  assert (0 / Qc_of_Z 100 * Qc_of_nat (length (merge_sort Qcle a) - 1) = 0) as ->.
  { unfold Qcdiv. by rewrite !Qcmult_0_l. }
  replace (Z.to_nat (Numpy.floor 0)) with 0%nat by (by vm_compute).
  replace (Qc_of_nat 0) with 0 by (apply Qc_is_canon; by vm_compute).
  unfold Qcminus. by rewrite Qcplus_opp_r, Qcmult_0_l, Qcplus_0_r.
Qed.

Lemma percentile_100 (a : list Qc) :
  Numpy.percentile a (Qc_of_Z 100) =
    nth (length (merge_sort Qcle a) - 1) (merge_sort Qcle a) 0.
Proof.
  unfold Numpy.percentile. set (s := merge_sort Qcle a).
  set (m := (length s - 1)%nat).
  replace (Qc_of_Z 100 / Qc_of_Z 100 * Qc_of_nat m) with (Qc_of_nat m)
    by (field; rewrite <-Z2Qc_inj_0; by intros ?%Z2Qc_inj).
  assert (Z.to_nat (Numpy.floor (Qc_of_nat m)) = m) as ->.
  { unfold Numpy.floor, Qc_of_nat, Qc_of_Z. cbn [this]. rewrite Qfloor_Z. lia. }
  replace (S m `min` m)%nat with m by lia.
  unfold Qcminus. by rewrite !Qcplus_opp_r, Qcmult_0_l, Qcplus_0_r.
Qed.

End Percentile.

Section Duration.

Import Pandas Spec Plots.
Local Open Scope Qc_scope.

Lemma Qc_of_nat_nonzero (n : nat) : n ≠ 0%nat → Qc_of_nat n ≠ 0.
Proof.
  intros Hn. unfold Qc_of_nat. rewrite <-Z2Qc_inj_0. intros H%Z2Qc_inj. lia.
Qed.

Lemma sort_desc_Permutation (a : list Qc) : Numpy.sort_desc a ≡ₚ a.
Proof. unfold Numpy.sort_desc. by rewrite reverse_Permutation, merge_sort_Permutation. Qed.

Lemma sort_desc_descending (a : list Qc) :
  StronglySorted (λ x y, y ≤ x) (Numpy.sort_desc a).
Proof.
  unfold Numpy.sort_desc.
  apply (Sorted_StronglySorted (flip Qcle)), Sorted_reverse, Sorted_merge_sort, _.
Qed.

Lemma length_linspace (a b : Qc) (n : nat) : length (Numpy.linspace a b n) = n.
Proof.
  destruct n as [|[|n]]; [done..|]. unfold Numpy.linspace.
  by rewrite length_map, length_seq.
Qed.

Lemma linspace_lookup (a b : Qc) (n i : nat) :
  (2 ≤ n)%nat → (i < n)%nat →
  Numpy.linspace a b n !! i =
    Some (a + Qc_of_nat i * ((b - a) / Qc_of_nat (n - 1))).
Proof.
  intros Hn Hi. destruct n as [|[|n]]; [lia..|]. unfold Numpy.linspace.
  change (map ?f ?l) with (f <$> l).
  by rewrite list_lookup_fmap, lookup_seq_lt.
Qed.

Lemma linspace_percent (n i : nat) :
  (2 ≤ n)%nat → (i < n)%nat →
  Numpy.linspace 0 (Qc_of_Z 100) n !! i =
    Some (Qc_of_Z 100 * Qc_of_nat i / Qc_of_nat (n - 1)).
Proof.
  intros Hn Hi. rewrite linspace_lookup by done. f_equal.
  field. apply Qc_of_nat_nonzero. lia.
Qed.

Lemma mean_total (a : list Qc) :
  a ≠ [] → Numpy.mean a * Qc_of_nat (length a) = total a.
Proof.
  intros Ha. unfold Numpy.mean. rewrite Qcmult_comm. apply Qcmult_div_r.
  apply Qc_of_nat_nonzero. by destruct a.
Qed.

Section Pooled.

Variable parse_number : string → option Qc.

Lemma all_values_spec (df : DataFrame) :
  all_values parse_number df =
    Ok (concat (map (λ col, numeric_values parse_number (map (λ r, at_ r col) (rows df)))
                    (all_cols df))).
Proof.
  unfold all_values.
  assert (Hcols : Forall (λ c, c ∈ columns df) (all_cols df)).
  { unfold all_cols, year_cols, path_cols. apply Forall_app. split;
      apply list.Forall_forall; by intros col [? _]%elem_of_List_filter. }
  induction (all_cols df) as [|col cols IH]; [done|].
  apply list.Forall_cons in Hcols as [Hcol Hcols]. simpl.
  rewrite getitem_Ok by done. simpl. by rewrite IH.
Qed.

(** From the file to the curve. *)
Lemma create_duration_curve_reads w dashboard site metric ts_file df values :
  Dashboard.find_timeseries_file w dashboard site metric "hourly" = Some ts_file →
  read_parquet w ts_file = Ok df →
  all_values parse_number df = Ok values →
  create_duration_curve parse_number w dashboard site metric =
    match values with
    | [] => DurationInsufficient
    | _ => DurationCurve (duration_curve values)
    end.
Proof.
  intros Hfile Hread Hvalues. unfold create_duration_curve.
  by rewrite Hfile, Hread; simpl; rewrite Hvalues.
Qed.

End Pooled.

(** C6.  The pooled sample holds the numeric entries of the year and
    path columns, text being converted or dropped.  For a non-empty sample
    the curve is the sample in descending order, paired position by
    position with [linspace(0, 100, n)] (the [i]-th duration is
    [100 i / (n - 1)]); the mean is the arithmetic mean of the sample; the
    marker labelled P10 is the 90th percentile of the sample, P50 the 50th
    and P90 the 10th, so that the marked values descend from P10 to P90.
    The sample 10, 20, 30, 40, 50 gives the curve
    50, 40, 30, 20, 10 at 0, 25, 50, 75, 100 with mean 30. *)
Theorem duration_curve_of_sample :
  (∀ (parse_number : string → option Qc) (df : DataFrame),
     all_values parse_number df =
       Ok (concat (map (λ col, numeric_values parse_number
                                 (map (λ r, at_ r col) (rows df)))
                       (all_cols df)))) ∧
  (∀ values : list Qc, values ≠ [] →
     let c := duration_curve values in
     let n := length values in
     sorted_values c ≡ₚ values ∧
     StronglySorted (λ x y, y ≤ x) (sorted_values c) ∧
     duration_pct c = Numpy.linspace 0 (Qc_of_Z 100) n ∧
     length (duration_pct c) = length (sorted_values c) ∧
     (∀ i, (2 ≤ n)%nat → (i < n)%nat →
        duration_pct c !! i = Some (Qc_of_Z 100 * Qc_of_nat i / Qc_of_nat (n - 1))) ∧
     mean_value c * Qc_of_nat n = total values ∧
     percentiles c = [ (10%Z, Numpy.percentile values (Qc_of_Z 90));
                       (50%Z, Numpy.percentile values (Qc_of_Z 50));
                       (90%Z, Numpy.percentile values (Qc_of_Z 10)) ] ∧
     Numpy.percentile values (Qc_of_Z 10) ≤ Numpy.percentile values (Qc_of_Z 50) ∧
     Numpy.percentile values (Qc_of_Z 50) ≤ Numpy.percentile values (Qc_of_Z 90)) ∧
  duration_curve (Qc_of_Z <$> [10; 20; 30; 40; 50]%Z) =
    mkCurve (Qc_of_Z <$> [0; 25; 50; 75; 100]%Z)
            (Qc_of_Z <$> [50; 40; 30; 20; 10]%Z)
            (Qc_of_Z 30)
            [(10%Z, Qc_of_Z 46); (50%Z, Qc_of_Z 30); (90%Z, Qc_of_Z 14)].
Proof.
  split; [apply all_values_spec|].
  split; [|by apply (bool_decide_unpack _); vm_compute].
  intros values Hne c n.
  assert (Hlen : length (Numpy.sort_desc values) = n).
  { unfold n. by rewrite sort_desc_Permutation. }
  split; [apply sort_desc_Permutation|]. split; [apply sort_desc_descending|].
  split; [unfold c, duration_curve; simpl; by rewrite Hlen|].
  split; [unfold c, duration_curve; simpl; by rewrite length_linspace|].
  split; [|split; [by apply mean_total|split; [done|]]].
  - intros i Hn Hi. unfold c, duration_curve. simpl. rewrite Hlen.
    by apply linspace_percent.
  - split; apply percentile_mono; try done;
      by apply (bool_decide_unpack _); vm_compute.
Qed.

Lemma duration_curve_witness :
  sorted_values (duration_curve (Qc_of_Z <$> [10; 20; 30; 40; 50]%Z))
    ≡ₚ Qc_of_Z <$> [10; 20; 30; 40; 50]%Z ∧
  StronglySorted (λ x y, y ≤ x)
    (sorted_values (duration_curve (Qc_of_Z <$> [10; 20; 30; 40; 50]%Z))).
Proof.
  destruct (proj1 (proj2 duration_curve_of_sample)
              (Qc_of_Z <$> [10; 20; 30; 40; 50]%Z)) as (Hperm & Hdesc & _).
  - discriminate.
  - split; [exact Hperm|exact Hdesc].
Defined.

End Duration.

(* ================================================================== *)
(** * Scatter sampling *)
(* ================================================================== *)

Section ScatterFacts.

Import Pandas Spec Plots.

(** pandas and numpy as the program meets them: sampling with an explicit
    seed does not read the global generator, and a sample of [n] rows out
    of at least [n] has [n] rows. *)
Context (to_datetime : list (list cell) → result (list cell)).
Context (rng : Type).
Context (sample : rng → option Z → Z → list row → list row).
Context (sample_seeded : ∀ g g' seed n rs,
           sample g (Some seed) n rs = sample g' (Some seed) n rs).
Context (sample_length : ∀ g state n rs,
           (0 ≤ n ≤ Z.of_nat (length rs))%Z →
           length (sample g state n rs) = Z.to_nat n).

Ltac scatter_step :=
  match goal with
  | |- context [mbind _ ?m] =>
      lazymatch m with
      | context [mbind] => fail
      | _ => destruct m eqn:?; simpl; [|done]
      end
  end.

(** From the filtered rows to the points, when the colour column is
    there. *)
Lemma sampled_points_spec colour g (df_filtered : DataFrame) :
  colour ∈ columns df_filtered →
  sampled_points rng sample colour g df_filtered =
    Ok (if bool_decide (length (rows df_filtered) < 100) then ScatterInsufficient
        else if bool_decide (10000 < Z.of_nat (length (rows df_filtered)))%Z
        then ScatterPoints
               (mkDataFrame (columns df_filtered)
                            (sample g (Some 42%Z) 10000%Z (rows df_filtered)))
        else ScatterPoints df_filtered).
Proof.
  intros Hcolour. unfold sampled_points.
  case_bool_decide; [done|]. case_bool_decide; by rewrite getitem_Ok.
Qed.

Lemma sampled_points_seeded colour g g' df_filtered :
  sampled_points rng sample colour g df_filtered =
  sampled_points rng sample colour g' df_filtered.
Proof.
  unfold sampled_points. case_bool_decide; [done|]. case_bool_decide; [|done].
  by rewrite (sample_seeded g g').
Qed.

Lemma sampled_points_bounded colour g df_filtered d :
  sampled_points rng sample colour g df_filtered = Ok (ScatterPoints d) →
  100 ≤ length (rows d) ∧ (Z.of_nat (length (rows d)) ≤ 10000)%Z.
Proof.
  unfold sampled_points.
  case_bool_decide as Hsmall; [done|]. case_bool_decide as Hlarge.
  - scatter_step. intros [= <-]. simpl.
    rewrite sample_length by (split; [done|by apply Z.lt_le_incl]).
    split; [apply Nat2Z.inj_le|]; rewrite Z2Nat.id; done.
  - scatter_step. intros [= <-]. simpl in *. split; lia.
Qed.

Lemma scatter_points_seeded keep colour g g' df :
  scatter_points to_datetime rng sample keep colour g df =
  scatter_points to_datetime rng sample keep colour g' df.
Proof.
  unfold scatter_points.
  destruct (filtered_rows to_datetime keep df) as [[df_filtered|]|]; simpl; [|done..].
  apply sampled_points_seeded.
Qed.

Lemma scatter_points_bounded keep colour g df d :
  scatter_points to_datetime rng sample keep colour g df = Ok (ScatterPoints d) →
  100 ≤ length (rows d) ∧ (Z.of_nat (length (rows d)) ≤ 10000)%Z.
Proof.
  unfold scatter_points.
  destruct (filtered_rows to_datetime keep df) as [[df_filtered|]|]; simpl; [|done..].
  apply sampled_points_bounded.
Qed.

(** C7.  Both scatter plots draw at most 10,000 points (and at least 100),
    and the points drawn do not depend on the state of the global random
    generator.  Where [df_filtered], the rows of the table that pass the
    filter, are fewer than 100 the plot is refused; up to 10,000 they are
    all drawn; above 10,000 the points are the sample of exactly 10,000 of
    them taken with the seed 42. *)
Theorem scatter_sampling_bounded_and_seeded
    (w : World) (dashboard : Dashboard.t) (site : string) (g : rng) :
  (∀ g',
     create_ghi_vs_generation_hour to_datetime rng sample w dashboard g' site =
     create_ghi_vs_generation_hour to_datetime rng sample w dashboard g site) ∧
  (∀ g',
     create_ghi_vs_generation_temp to_datetime rng sample w dashboard g' site =
     create_ghi_vs_generation_temp to_datetime rng sample w dashboard g site) ∧
  (∀ d,
     create_ghi_vs_generation_hour to_datetime rng sample w dashboard g site
       = ScatterPoints d →
     100 ≤ length (rows d) ∧ (Z.of_nat (length (rows d)) ≤ 10000)%Z) ∧
  (∀ d,
     create_ghi_vs_generation_temp to_datetime rng sample w dashboard g site
       = ScatterPoints d →
     100 ≤ length (rows d) ∧ (Z.of_nat (length (rows d)) ≤ 10000)%Z) ∧
  (∀ (hist_file : Path) (df : DataFrame),
     Dashboard.find_historical_file w dashboard site "generation" "hourly"
       = Some hist_file →
     read_parquet w hist_file = Ok df →
     (∀ df_filtered,
        filtered_rows to_datetime 10 df = Ok (Some df_filtered) →
        "hour" ∈ columns df_filtered →
        create_ghi_vs_generation_hour to_datetime rng sample w dashboard g site =
          (if bool_decide (length (rows df_filtered) < 100) then ScatterInsufficient
           else if bool_decide (10000 < Z.of_nat (length (rows df_filtered)))%Z
           then ScatterPoints
                  (mkDataFrame (columns df_filtered)
                               (sample g (Some 42%Z) 10000%Z (rows df_filtered)))
           else ScatterPoints df_filtered) ∧
        ((10000 < Z.of_nat (length (rows df_filtered)))%Z →
         Z.of_nat (length (sample g (Some 42%Z) 10000%Z (rows df_filtered)))
         = 10000%Z)) ∧
     (∀ df_filtered,
        filtered_rows to_datetime 5 df = Ok (Some df_filtered) →
        "temperature_2m" ∈ columns df_filtered →
        create_ghi_vs_generation_temp to_datetime rng sample w dashboard g site =
          (if bool_decide (length (rows df_filtered) < 100) then ScatterInsufficient
           else if bool_decide (10000 < Z.of_nat (length (rows df_filtered)))%Z
           then ScatterPoints
                  (mkDataFrame (columns df_filtered)
                               (sample g (Some 42%Z) 10000%Z (rows df_filtered)))
           else ScatterPoints df_filtered) ∧
        ((10000 < Z.of_nat (length (rows df_filtered)))%Z →
         Z.of_nat (length (sample g (Some 42%Z) 10000%Z (rows df_filtered)))
         = 10000%Z))).
Proof.
  split; [|split; [|split; [|split]]].
  - intros g'. unfold create_ghi_vs_generation_hour, create_ghi_vs_generation.
    destruct (Dashboard.find_historical_file w dashboard site "generation" "hourly")
      as [hist_file|]; [|done].
    destruct (read_parquet w hist_file) as [df|e]; simpl; [|done].
    by rewrite (scatter_points_seeded _ _ g' g).
  - intros g'. unfold create_ghi_vs_generation_temp, create_ghi_vs_generation.
    destruct (Dashboard.find_historical_file w dashboard site "generation" "hourly")
      as [hist_file|]; [|done].
    destruct (read_parquet w hist_file) as [df|e]; simpl; [|done].
    by rewrite (scatter_points_seeded _ _ g' g).
  - intros d. unfold create_ghi_vs_generation_hour, create_ghi_vs_generation.
    destruct (Dashboard.find_historical_file w dashboard site "generation" "hourly")
      as [hist_file|]; [|done].
    destruct (read_parquet w hist_file) as [df|e]; simpl; [|done].
    destruct (scatter_points _ _ _ 10 "hour" g df) as [o|] eqn:E; simpl; [|done].
    intros ->. by eapply scatter_points_bounded.
  - intros d. unfold create_ghi_vs_generation_temp, create_ghi_vs_generation.
    destruct (Dashboard.find_historical_file w dashboard site "generation" "hourly")
      as [hist_file|]; [|done].
    destruct (read_parquet w hist_file) as [df|e]; simpl; [|done].
    destruct (scatter_points _ _ _ 5 "temperature_2m" g df) as [o|] eqn:E; simpl; [|done].
    intros ->. by eapply scatter_points_bounded.
  - intros hist_file df Hfile Hread.
    unfold create_ghi_vs_generation_hour, create_ghi_vs_generation_temp,
      create_ghi_vs_generation.
    rewrite Hfile, Hread. cbn [mbind result_bind].
    split; intros df_filtered Hfiltered Hcolour.
    + split.
      * unfold scatter_points. rewrite Hfiltered. cbn [mbind result_bind].
        by rewrite sampled_points_spec.
      * intros Hlarge. rewrite sample_length by lia. lia.
    + split.
      * unfold scatter_points. rewrite Hfiltered. cbn [mbind result_bind].
        by rewrite sampled_points_spec.
      * intros Hlarge. rewrite sample_length by lia. lia.
Qed.

End ScatterFacts.

Section ScatterExamples.

Import Pandas Spec Plots.

Lemma first_rows_seeded (g g' : bool) (seed n : Z) (rs : list row) :
  Examples.first_rows g (Some seed) n rs = Examples.first_rows g' (Some seed) n rs.
Proof. reflexivity. Defined.

Lemma first_rows_length (g : bool) (state : option Z) (n : Z) (rs : list row) :
  (0 ≤ n ≤ Z.of_nat (length rs))%Z →
  length (Examples.first_rows g state n rs) = Z.to_nat n.
Proof.
  intros Hn. unfold Examples.first_rows. rewrite length_take. lia.
Defined.

(** On a year of 10,001 qualifying hours the plot by hour draws the sample
    of 10,000 rows taken with the seed 42, whatever the state of the
    generator. *)
Lemma scatter_sampling_witness :
  ∃ df_filtered,
    filtered_rows Examples.no_dates 10 Examples.sunny_year = Ok (Some df_filtered) ∧
    create_ghi_vs_generation_hour Examples.no_dates bool Examples.first_rows
      Examples.sunny_world Examples.sunny_dashboard true "SiteC" =
    ScatterPoints
      (mkDataFrame (columns df_filtered)
                   (Examples.first_rows true (Some 42%Z) 10000%Z (rows df_filtered))) ∧
    Z.of_nat (length (Examples.first_rows true (Some 42%Z) 10000%Z (rows df_filtered)))
    = 10000%Z ∧
    create_ghi_vs_generation_hour Examples.no_dates bool Examples.first_rows
      Examples.sunny_world Examples.sunny_dashboard false "SiteC" =
    create_ghi_vs_generation_hour Examples.no_dates bool Examples.first_rows
      Examples.sunny_world Examples.sunny_dashboard true "SiteC".
Proof.
  assert (match filtered_rows Examples.no_dates 10 Examples.sunny_year with
          | Ok (Some df_filtered) =>
              bool_decide ("hour" ∈ columns df_filtered) &&
              (10000 <? Z.of_nat (length (rows df_filtered)))%Z
          | _ => false
          end = true) as Hfiltered by (by vm_compute).
  destruct (filtered_rows Examples.no_dates 10 Examples.sunny_year)
    as [[df_filtered|]|] eqn:E; try discriminate Hfiltered.
  apply andb_true_iff in Hfiltered as [Hcolour%bool_decide_eq_true Hlarge%Z.ltb_lt].
  destruct (scatter_sampling_bounded_and_seeded Examples.no_dates bool
              Examples.first_rows first_rows_seeded first_rows_length
              Examples.sunny_world Examples.sunny_dashboard "SiteC" true)
    as (Hseeded & _ & _ & _ & Hsample).
  destruct (Hsample
              (mkPath true ["SiteC"; "Generation"; "historical";
                            "SiteC_generation_hourly_historical.parquet"])
              Examples.sunny_year) as [Hhour _]; [by vm_compute|by vm_compute|].
  destruct (Hhour df_filtered E Hcolour) as [Hpoints Hlength].
  exists df_filtered. split; [reflexivity|]. split; [|split].
  - rewrite Hpoints. rewrite bool_decide_eq_false_2 by lia.
    by rewrite bool_decide_eq_true_2.
  - by apply Hlength.
  - apply Hseeded.
Defined.

(** On a year of 10,001 qualifying hours both plots draw 10,000 points. *)
Lemma sunny_year_is_sampled :
  match create_ghi_vs_generation_hour Examples.no_dates bool Examples.first_rows
          Examples.sunny_world Examples.sunny_dashboard true "SiteC" with
  | ScatterPoints d => (Z.of_nat (length (rows d)) =? 10000)%Z
  | _ => false
  end = true ∧
  match create_ghi_vs_generation_temp Examples.no_dates bool Examples.first_rows
          Examples.sunny_world Examples.sunny_dashboard true "SiteC" with
  | ScatterPoints d => (Z.of_nat (length (rows d)) =? 10000)%Z
  | _ => false
  end = true.
Proof. split; by vm_compute. Qed.

End ScatterExamples.

(* ================================================================== *)
(** * Further properties of the code *)
(* ================================================================== *)

Section CatalogueMore.
Import Dashboard.

(** X1. get_all_sites answers from its cache: once a call has returned a
    list of sites, every later call on the instance it leaves returns the
    same list and leaves the instance unchanged, whatever the file system
    has become in between. *)
Theorem site_catalogue_is_cached (w w' : World) (self self' : t) (sites : list string) :
  get_all_sites w self = Ok (sites, self') →
  get_all_sites w' self' = Ok (sites, self').
Proof.
  unfold get_all_sites. destruct (_sites_cache self) as [cache|] eqn:E.
  - intros [= <- <-]. by rewrite E.
  - destruct (iterdir w (portfolio_path self)) as [items|e]; simpl; [|done].
    by intros [= <- <-].
Qed.

Lemma site_catalogue_is_cached_witness :
  get_all_sites (mkWorld (Dir ∅) []) (mk Examples.root (Some ["SiteA"; "SiteB"]))
    = Ok (["SiteA"; "SiteB"], mk Examples.root (Some ["SiteA"; "SiteB"])).
Proof.
  apply (site_catalogue_is_cached Examples.world _ Examples.dashboard).
  by vm_compute.
Defined.

End CatalogueMore.

Section Text.

Implicit Types (s old new p : string) (c d : ascii).

Lemma string_length_append s1 s2 :
  String.length (s1 +:+ s2) = String.length s1 + String.length s2.
Proof. induction s1 as [|c s1 IH]; simpl; [done|by rewrite IH]. Qed.

Lemma prefix_length p s : String.prefix p s = true → String.length p ≤ String.length s.
Proof.
  revert s. induction p as [|c p IH]; intros [|d s]; simpl; try done; [lia|].
  destruct (ascii_dec c d); [|done]. intros H%IH. lia.
Qed.

Lemma contains_char_cons c d s :
  Str.contains (String d s) (String c EmptyString) = false ↔
  d ≠ c ∧ Str.contains s (String c EmptyString) = false.
Proof.
  cbn [Str.contains String.prefix]. rewrite orb_false_iff.
  destruct (ascii_dec c d) as [->|Hne].
  - split; [|by intros [? _]]. intros [H _]. by destruct s.
  - split; [by intros [_ ?]|]. by intros [_ ->].
Qed.

Lemma contains_char_append c s1 s2 :
  Str.contains s1 (String c EmptyString) = false →
  Str.contains s2 (String c EmptyString) = false →
  Str.contains (s1 +:+ s2) (String c EmptyString) = false.
Proof.
  intros H1 H2. induction s1 as [|d s1 IH]; [done|].
  apply contains_char_cons in H1 as [Hd H1].
  change (String d s1 +:+ s2) with (String d (s1 +:+ s2)).
  apply contains_char_cons. split; [done|by apply IH].
Qed.

(** Replacing a character by a text that does not hold it removes it. *)
Lemma replace_char_removes c new s k :
  Str.contains new (String c EmptyString) = false →
  Str.contains (Str.replace_from (String c EmptyString) new k s)
               (String c EmptyString) = false.
Proof.
  intros Hnew. revert k. induction s as [|d s IH]; intros k; [by destruct k|].
  destruct k as [|k]; [|apply IH]. cbn [Str.replace_from String.prefix].
  destruct (ascii_dec c d) as [->|Hne].
  - destruct s; by apply contains_char_append.
  - apply contains_char_cons. split; [done|apply IH].
Qed.

(** A text that starts with a character does not occur where the
    character does not. *)
Lemma replace_absent c p new s :
  Str.contains s (String c EmptyString) = false →
  Str.replace s (String c p) new = s.
Proof.
  unfold Str.replace. induction s as [|d s IH]; intros Hs; [done|].
  apply contains_char_cons in Hs as [Hd Hs].
  cbn [Str.replace_from String.prefix].
  destruct (ascii_dec c d) as [->|_]; [done|]. by rewrite IH.
Qed.

Lemma replace_from_length old new k s :
  String.length new ≤ String.length old → old ≠ EmptyString →
  String.length (Str.replace_from old new k s) + k `min` String.length s
    ≤ String.length s.
Proof.
  intros Hlen Hold. revert k. induction s as [|d s IH]; intros k; [simpl; lia|].
  destruct k as [|k].
  - cbn [Str.replace_from].
    destruct (String.prefix old (String d s)) eqn:E.
    + apply prefix_length in E. simpl in E. rewrite string_length_append.
      specialize (IH (String.length old - 1)).
      assert (0 < String.length old) by (destruct old; [done|simpl; lia]).
      simpl. lia.
    + specialize (IH 0). simpl. lia.
  - specialize (IH k). simpl. lia.
Qed.

Lemma replace_length s old new :
  String.length new ≤ String.length old → old ≠ EmptyString →
  String.length (Str.replace s old new) ≤ String.length s.
Proof.
  intros Hlen Hold. pose proof (replace_from_length old new 0 s Hlen Hold).
  unfold Str.replace. destruct old; [done|]. lia.
Qed.

Lemma title_from_length b s : String.length (Str.title_from b s) = String.length s.
Proof. revert b. induction s as [|c s IH]; intros b; simpl; [done|by rewrite IH]. Qed.

Lemma title_char_not_underscore (b : bool) c :
  c ≠ "_"%char → (if b then Str.to_lower c else Str.to_upper c) ≠ "_"%char.
Proof.
  destruct b, c as [[] [] [] [] [] [] [] []]; vm_compute; congruence.
Qed.

Lemma title_char_idem (b : bool) c :
  let c' := if b then Str.to_lower c else Str.to_upper c in
  (if b then Str.to_lower c' else Str.to_upper c') = c' ∧
  Str.is_lower c' || Str.is_upper c' = Str.is_lower c || Str.is_upper c.
Proof.
  destruct b, c as [[] [] [] [] [] [] [] []]; by vm_compute.
Qed.

Lemma title_from_no_underscore b s :
  Str.contains s "_" = false → Str.contains (Str.title_from b s) "_" = false.
Proof.
  revert b. induction s as [|c s IH]; intros b Hs; [done|].
  apply contains_char_cons in Hs as [Hc Hs]. cbn [Str.title_from].
  apply contains_char_cons. split; [by apply title_char_not_underscore|by apply IH].
Qed.

Lemma title_from_idem b s :
  Str.title_from b (Str.title_from b s) = Str.title_from b s.
Proof.
  revert b. induction s as [|c s IH]; intros b; [done|].
  cbn [Str.title_from]. destruct (title_char_idem b c) as [-> ->].
  by rewrite IH.
Qed.

Lemma clean_site_name_no_underscore s :
  Str.contains (Dashboard.clean_site_name s) "_" = false.
Proof.
  unfold Dashboard.clean_site_name, Str.title.
  apply title_from_no_underscore. unfold Str.replace at 1.
  by apply replace_char_removes.
Qed.

(** X2. For a site name of ASCII characters, the display name
    clean_site_name returns contains no underscore and is no longer than
    the site name. *)
Theorem display_name_has_no_underscore (site_name : string) :
  Str.contains (Dashboard.clean_site_name site_name) "_" = false ∧
  String.length (Dashboard.clean_site_name site_name) ≤ String.length site_name.
Proof.
  split; [apply clean_site_name_no_underscore|].
  unfold Dashboard.clean_site_name, Str.title. rewrite title_from_length.
  etrans; [apply replace_length; [simpl; lia|done]|].
  etrans; [apply replace_length; [simpl; lia|done]|].
  apply replace_length; [simpl; lia|done].
Qed.

(** X3. clean_site_name is idempotent on ASCII names: cleaning a display
    name again returns the same display name. *)
Theorem display_name_is_stable (site_name : string) :
  Dashboard.clean_site_name (Dashboard.clean_site_name site_name) =
  Dashboard.clean_site_name site_name.
Proof.
  pose proof (clean_site_name_no_underscore site_name) as H.
  set (r := Dashboard.clean_site_name site_name) in *.
  unfold Dashboard.clean_site_name at 1.
  do 3 rewrite (replace_absent _ _ _ r H).
  unfold r, Dashboard.clean_site_name, Str.title. apply title_from_idem.
Qed.

End Text.

Section Listing.

Import Dashboard.
Implicit Types (w : World) (p : Path) (s k : string).

Lemma endswith_append s1 s2 suffix :
  Str.endswith s2 suffix = true → Str.endswith (s1 +:+ s2) suffix = true.
Proof.
  intros H. induction s1 as [|c s1 IH]; [done|].
  change (String c s1 +:+ s2) with (String c (s1 +:+ s2)).
  cbn [Str.endswith]. rewrite IH. apply orb_true_r.
Qed.

Lemma fnmatch_literal pat name :
  Str.contains pat "*" = false →
  Pathlib.fnmatch pat name = bool_decide (name = pat).
Proof.
  revert name. induction pat as [|c pat IH]; intros name Hpat; [done|].
  apply contains_char_cons in Hpat as [Hc Hpat].
  cbn [Pathlib.fnmatch]. rewrite bool_decide_eq_false_2 by done.
  destruct name as [|d name]; [done|]. rewrite IH by done.
  repeat case_bool_decide; naive_solver.
Qed.

Lemma fnmatch_star_unfold pat name :
  Pathlib.fnmatch (String "*" pat) name =
    Pathlib.fnmatch pat name ||
    match name with
    | EmptyString => false
    | String _ name' => Pathlib.fnmatch (String "*" pat) name'
    end.
Proof.
  cbn [Pathlib.fnmatch]. rewrite bool_decide_eq_true_2 by done. by destruct name.
Qed.

Lemma fnmatch_star pat name :
  Str.contains pat "*" = false →
  Pathlib.fnmatch (String "*" pat) name = Str.endswith name pat.
Proof.
  intros Hpat. induction name as [|d name IH]; rewrite fnmatch_star_unfold;
    cbn [Str.endswith]; rewrite fnmatch_literal by done; [done|by rewrite IH].
Qed.

Lemma fnmatch_parquet name :
  Pathlib.fnmatch "*.parquet" name = Str.endswith name ".parquet".
Proof.
  by apply fnmatch_star.
Qed.

Lemma exists_child w p k :
  exists_ w (p // k) = true ↔
  ∃ m n, stat w p = Some (Dir m) ∧ m !! k = Some n.
Proof.
  unfold exists_. rewrite stat_joinpath.
  destruct (stat w p) as [[?|m]|]; simpl; [naive_solver| |naive_solver].
  destruct (m !! k) as [n|] eqn:E; split; try done.
  - intros _. by exists m, n.
  - intros (m' & n & [= <-] & Hk). congruence.
Qed.

Lemma glob_spec w p pattern (file : Path) :
  file ∈ Pathlib.glob w p pattern ↔
  ∃ k, file = p // k ∧ exists_ w (p // k) = true ∧ Pathlib.fnmatch pattern k = true.
Proof.
  unfold Pathlib.glob. split.
  - destruct (stat w p) as [[?|m]|] eqn:E; [by intros ?%elem_of_nil| |by intros ?%elem_of_nil].
    change (map ?f ?l) with (f <$> l).
    intros ([k n] & -> & [Hin Hm]%elem_of_List_filter)%list_elem_of_fmap.
    apply elem_of_map_to_list in Hin. exists k. split; [done|]. split; [|done].
    apply exists_child. by exists m, n.
  - intros (k & -> & (m & n & -> & Hk)%exists_child & Hm).
    change (map ?f ?l) with (f <$> l).
    apply list_elem_of_fmap. exists (k, n). split; [done|].
    apply elem_of_List_filter. split; [by apply elem_of_map_to_list|done].
Qed.

Section WithSizes.

Variable size_label : World → Path → string.

Lemma files_in_spec w main_folder main_path subfolder (f : FileInfo) :
  f ∈ files_in size_label w main_folder main_path subfolder ↔
  ∃ k, let file := Pathlib.truediv main_path subfolder // k in
    exists_ w file = true ∧ Str.endswith k ".parquet" = true ∧
    f = mkFileInfo main_folder (List.last (Str.split "/" subfolder) EmptyString)
                   k (Pathlib.str file) (size_label w file).
Proof.
  unfold files_in. set (sub_path := Pathlib.truediv main_path subfolder).
  split.
  - destruct (exists_ w sub_path); [|by intros ?%elem_of_nil].
    change (map ?f ?l) with (f <$> l).
    intros (file & -> & (k & -> & He & Hm)%glob_spec)%list_elem_of_fmap.
    exists k. rewrite name_joinpath. by rewrite <-fnmatch_parquet.
  - intros (k & He & Hm & ->). rewrite (exists_parent _ _ _ He).
    change (map ?f ?l) with (f <$> l).
    apply list_elem_of_fmap. exists (sub_path // k). rewrite name_joinpath.
    split; [done|]. apply glob_spec. exists k. by rewrite fnmatch_parquet.
Qed.

Lemma truediv_relative p s comps :
  String.prefix "/" s = false →
  List.filter (λ c, negb (bool_decide (c = EmptyString)) && negb (bool_decide (c = ".")))
              (Str.split "/" s) = comps →
  Pathlib.truediv p s = mkPath (absolute p) (parts p ++ comps).
Proof. intros Hrel Hcomps. unfold Pathlib.truediv. by rewrite Hrel, Hcomps. Qed.

Lemma truediv_subfolders p :
  Pathlib.truediv p "forecast/distribution" = p // "forecast" // "distribution" ∧
  Pathlib.truediv p "forecast/timeseries" = p // "forecast" // "timeseries" ∧
  Pathlib.truediv p "historical" = p // "historical".
Proof.
  split; [|split];
    (etrans; [apply truediv_relative; by vm_compute|]);
    unfold joinpath; simpl; by rewrite <-?app_assoc.
Qed.

Lemma files_info_spec w site_path (f : FileInfo) :
  f ∈ files_info size_label w site_path ↔
  ∃ folder kind k,
    folder ∈ ["Generation"; "Price_da"; "Price_rt"; "Revenue_da"; "Revenue_rt"] ∧
    kind ∈ [["forecast"; "distribution"]; ["forecast"; "timeseries"]; ["historical"]] ∧
    let file := foldl joinpath (site_path // folder) kind // k in
    exists_ w file = true ∧ Str.endswith k ".parquet" = true ∧
    f = mkFileInfo folder (List.last kind EmptyString) k
                   (Pathlib.str file) (size_label w file).
Proof.
  unfold files_info. rewrite list_elem_of_In, in_flat_map. split.
  - intros ([folder subs] & Hentry & Hf). simpl in Hf.
    destruct (exists_ w (site_path // folder)); [|done].
    apply in_flat_map in Hf as (sub & Hsub & Hf).
    apply list_elem_of_In, files_in_spec in Hf as (k & He & Hm & ->).
    destruct (truediv_subfolders (site_path // folder)) as (Hd & Ht & Hh).
    exists folder.
    assert (folder ∈ ["Generation"; "Price_da"; "Price_rt"; "Revenue_da"; "Revenue_rt"]
            ∧ subs = ["forecast/distribution"; "forecast/timeseries"; "historical"])
      as [Hfolder ->].
    { simpl in Hentry.
      destruct Hentry as [[= <- <-]|[[= <- <-]|[[= <- <-]|[[= <- <-]|[[= <- <-]|[]]]]]];
        (split; [set_solver|done]). }
    simpl in Hsub. destruct Hsub as [<-|[<-|[<-|[]]]].
    + exists ["forecast"; "distribution"], k. rewrite Hd in *.
      split; [done|]. split; [set_solver|]. done.
    + exists ["forecast"; "timeseries"], k. rewrite Ht in *.
      split; [done|]. split; [set_solver|]. done.
    + exists ["historical"], k. rewrite Hh in *.
      split; [done|]. split; [set_solver|]. done.
  - intros (folder & kind & k & Hfolder & Hkind & He & Hm & ->).
    destruct (truediv_subfolders (site_path // folder)) as (Hd & Ht & Hh).
    assert (∃ sub, In sub ["forecast/distribution"; "forecast/timeseries"; "historical"] ∧
              Pathlib.truediv (site_path // folder) sub
                = foldl joinpath (site_path // folder) kind ∧
              List.last (Str.split "/" sub) EmptyString = List.last kind EmptyString)
      as (sub & Hsub & Hpath & Hlast).
    { rewrite !elem_of_cons in Hkind.
      destruct Hkind as [->|[->|[->|?%elem_of_nil]]]; [| | |done].
      - exists "forecast/distribution". split; [simpl; tauto|]. by rewrite Hd.
      - exists "forecast/timeseries". split; [simpl; tauto|]. by rewrite Ht.
      - exists "historical". split; [simpl; tauto|]. by rewrite Hh. }
    exists (folder, ["forecast/distribution"; "forecast/timeseries"; "historical"]).
    split.
    { rewrite !elem_of_cons in Hfolder. simpl.
      destruct Hfolder as [->|[->|[->|[->|[->|?%elem_of_nil]]]]]; tauto. }
    cbn [fst snd].
    assert (exists_ w (site_path // folder) = true) as ->.
    { clear -He Hkind. rewrite !elem_of_cons in Hkind.
      destruct Hkind as [->|[->|[->|?%elem_of_nil]]]; [| | |done]; simpl in He.
      - by do 3 apply exists_parent in He.
      - by do 3 apply exists_parent in He.
      - by do 2 apply exists_parent in He. }
    apply in_flat_map. exists sub. split; [done|].
    apply list_elem_of_In, files_in_spec. exists k. simpl.
    rewrite Hpath, Hlast. done.
Qed.

Lemma get_available_files_fresh w self cache site :
  cache !! (site +:+ "_files") = None →
  get_available_files size_label w self cache site =
    (files_info size_label w (portfolio_path self // site),
     <[site +:+ "_files" := files_info size_label w (portfolio_path self // site)]> cache).
Proof. intros H. unfold get_available_files. by rewrite H. Qed.

End WithSizes.

End Listing.

Section ResolverFacts.

Import Dashboard.

Lemma find_distribution_file_Some w self site metric temporal p :
  find_distribution_file w self site metric temporal = Some p →
  p = portfolio_path self // site // folder_of metric // "forecast" // "distribution"
        // filename site metric temporal "distribution" ∧
  exists_ w p = true.
Proof.
  unfold find_distribution_file.
  destruct (exists_ w (portfolio_path self // site // folder_of metric)); [|done].
  destruct (exists_ w (_ // "forecast" // "distribution")); [|done]. simpl.
  destruct (exists_ w (_ // filename site metric temporal "distribution")) eqn:E; [|done].
  by intros [= <-].
Qed.

Lemma find_timeseries_file_Some w self site metric temporal p :
  find_timeseries_file w self site metric temporal = Some p →
  p = portfolio_path self // site // folder_of metric // "forecast" // "timeseries"
        // filename site metric temporal "timeseries" ∧
  exists_ w p = true.
Proof.
  unfold find_timeseries_file.
  destruct (exists_ w (portfolio_path self // site // folder_of metric)); [|done].
  destruct (exists_ w (_ // "forecast" // "timeseries")); [|done]. simpl.
  destruct (exists_ w (_ // filename site metric temporal "timeseries")) eqn:E; [|done].
  by intros [= <-].
Qed.

Lemma find_historical_file_Some w self site metric temporal p :
  find_historical_file w self site metric temporal = Some p →
  p = portfolio_path self // site // folder_of metric // "historical"
        // filename site metric temporal "historical" ∧
  exists_ w p = true.
Proof.
  unfold find_historical_file.
  destruct (exists_ w (_ // "historical")); [|done]. simpl.
  destruct (exists_ w (_ // filename site metric temporal "historical")) eqn:E; [|done].
  by intros [= <-].
Qed.

Lemma filename_endswith_parquet site metric temporal category :
  Str.endswith (filename site metric temporal category) ".parquet" = true.
Proof. unfold filename. by do 7 apply endswith_append. Qed.

Lemma folder_of_recognised metric :
  metric ∈ ["generation"; "price_da"; "price_rt"; "revenue_da"; "revenue_rt"] →
  folder_of metric ∈ ["Generation"; "Price_da"; "Price_rt"; "Revenue_da"; "Revenue_rt"].
Proof.
  rewrite !elem_of_cons.
  intros [->|[->|[->|[->|[->|?%elem_of_nil]]]]]; [| | | | |done];
    apply (bool_decide_unpack _); by vm_compute.
Qed.

End ResolverFacts.

Section FilesFacts.

Import Dashboard Views.

Variable size_label : World → Path → string.

(** X4. On an instance whose file cache is empty, get_available_files
    lists exactly the entries whose name ends in .parquet in the
    subfolders forecast/distribution, forecast/timeseries and historical
    of the five metric folders of the site; each entry carries its metric
    folder, the last component of its subfolder (distribution, timeseries
    or historical), its name, its path as a string and its size label. The
    site name is taken as a single path component. *)
Theorem file_listing_contents (w : World) (self : t) (site : string) (f : FileInfo) :
  f ∈ (get_available_files size_label w self ∅ site).1 ↔
  ∃ folder kind k,
    folder ∈ ["Generation"; "Price_da"; "Price_rt"; "Revenue_da"; "Revenue_rt"] ∧
    kind ∈ [["forecast"; "distribution"]; ["forecast"; "timeseries"]; ["historical"]] ∧
    let file := foldl joinpath (portfolio_path self // site // folder) kind // k in
    exists_ w file = true ∧ Str.endswith k ".parquet" = true ∧
    f = mkFileInfo folder (List.last kind EmptyString) k
                   (Pathlib.str file) (size_label w file).
Proof.
  rewrite get_available_files_fresh by done. simpl. apply files_info_spec.
Qed.

(** X5. For each of the five metrics, a file that find_distribution_file,
    find_timeseries_file or find_historical_file returns for a site is
    also listed by get_available_files for that site (on an empty file
    cache), under the folder of the metric and with the same name and
    path. *)
Theorem resolved_files_are_listed
    (w : World) (self : t) (site metric temporal : string) (p : Path) :
  metric ∈ ["generation"; "price_da"; "price_rt"; "revenue_da"; "revenue_rt"] →
  Some p ∈ [ find_distribution_file w self site metric temporal;
             find_timeseries_file w self site metric temporal;
             find_historical_file w self site metric temporal ] →
  ∃ f, f ∈ (get_available_files size_label w self ∅ site).1 ∧
       fi_metric f = folder_of metric ∧ fi_file f = name p ∧
       fi_path f = Pathlib.str p.
Proof.
  intros Hmetric Hp. apply folder_of_recognised in Hmetric.
  rewrite get_available_files_fresh by done. simpl.
  assert (∃ kind category,
            kind ∈ [["forecast"; "distribution"]; ["forecast"; "timeseries"];
                    ["historical"]] ∧
            p = foldl joinpath (portfolio_path self // site // folder_of metric) kind
                  // filename site metric temporal category ∧
            exists_ w p = true) as (kind & category & Hkind & -> & He).
  { rewrite !elem_of_cons in Hp. destruct Hp as [Hp|[Hp|[Hp|?%elem_of_nil]]]; [| | |done].
    - symmetry in Hp. apply find_distribution_file_Some in Hp as [-> He].
      exists ["forecast"; "distribution"], "distribution". split; [set_solver|done].
    - symmetry in Hp. apply find_timeseries_file_Some in Hp as [-> He].
      exists ["forecast"; "timeseries"], "timeseries". split; [set_solver|done].
    - symmetry in Hp. apply find_historical_file_Some in Hp as [-> He].
      exists ["historical"], "historical". split; [set_solver|done]. }
  eexists. split.
  - apply files_info_spec. exists (folder_of metric), kind, (filename site metric temporal category).
    split; [done|]. split; [done|]. simpl. split; [done|].
    split; [apply filename_endswith_parquet|done].
  - simpl. by rewrite name_joinpath.
Qed.

Lemma append_inj_r (a b c : string) : a +:+ c = b +:+ c → a = b.
Proof.
  revert b. induction a as [|x a IH]; intros [|y b] H; simpl in H.
  - done.
  - apply (f_equal String.length) in H.
    rewrite !string_length_append in H. simpl in H. lia.
  - apply (f_equal String.length) in H.
    rewrite !string_length_append in H. simpl in H. lia.
  - change (String x (a +:+ c) = String y (b +:+ c)) in H.
    injection H as -> H. f_equal. by apply IH.
Qed.

(** X6. get_available_files answers from its cache: a second call for the
    same site returns the list of the first call and leaves the cache as
    it is, whatever the file system and the file sizes have become; and a
    call leaves the cache entries of all other sites untouched. *)
Theorem file_listing_is_cached
    (size_label' : World → Path → string) (w w' : World) (self : t)
    (cache cache' : gmap string (list FileInfo)) (site : string) (files : list FileInfo) :
  get_available_files size_label w self cache site = (files, cache') →
  get_available_files size_label' w' self cache' site = (files, cache') ∧
  ∀ other, other ≠ site →
    cache' !! (other +:+ "_files") = cache !! (other +:+ "_files").
Proof.
  unfold get_available_files.
  destruct (cache !! (site +:+ "_files")) as [cached|] eqn:E.
  - intros [= <- <-]. by rewrite E.
  - intros [= <- <-]. rewrite lookup_insert_eq. split; [|intros other Hne].
    + done.
    + rewrite lookup_insert_ne; [done|]. by intros ?%append_inj_r.
Qed.

(** Grouping. *)

Lemma add_file_keys (f : FileInfo) (g : list (string * list FileInfo)) :
  (add_file f g).*1 =
    if bool_decide (fi_metric f ∈ g.*1) then g.*1 else g.*1 ++ [fi_metric f].
Proof.
  induction g as [|[m fs] g IH]; csimpl; [done|].
  destruct (decide (m = fi_metric f)) as [->|Hne].
  - rewrite (bool_decide_eq_true_2 (fi_metric f = fi_metric f)) by done. csimpl.
    rewrite bool_decide_eq_true_2; [done|left].
  - rewrite (bool_decide_eq_false_2 (m = fi_metric f)) by done. csimpl.
    rewrite IH. case_bool_decide as E2.
    + rewrite bool_decide_eq_true_2; [done|by right].
    + rewrite bool_decide_eq_false_2; [done|].
      rewrite not_elem_of_cons. naive_solver.
Qed.

Lemma add_file_NoDup f g : NoDup g.*1 → NoDup (add_file f g).*1.
Proof.
  intros Hnd. rewrite add_file_keys. case_bool_decide; [done|].
  apply list.NoDup_app. split; [done|]. split; [|apply NoDup_singleton].
  by intros x Hx ->%list_elem_of_singleton.
Qed.

Lemma add_file_lookup f g m fs :
  NoDup g.*1 →
  (m, fs) ∈ add_file f g ↔
  if bool_decide (m = fi_metric f)
  then (∃ fs0, fs = fs0 ++ [f] ∧ (m, fs0) ∈ g) ∨ (fs = [f] ∧ m ∉ g.*1)
  else (m, fs) ∈ g.
Proof.
  revert fs. induction g as [|[m0 fs0] g IH]; intros fs Hnd.
  - cbn [add_file]. rewrite list_elem_of_singleton. case_bool_decide as E.
    + split.
      * intros [= _ ->]. right. split; [done|apply not_elem_of_nil].
      * intros [(?&?&?%elem_of_nil)|[-> _]]; [done|]. by rewrite E.
    + split; [by intros [= -> ->]|by intros ?%elem_of_nil].
  - csimpl in Hnd. apply list.NoDup_cons in Hnd as [Hm0 Hnd]. specialize (IH fs Hnd).
    assert (Hg : ∀ fs', (m0, fs') ∉ g).
    { intros fs' Hin. apply Hm0. apply list_elem_of_fmap. by exists (m0, fs'). }
    cbn [add_file]. destruct (decide (m0 = fi_metric f)) as [E0|E0].
    + rewrite (bool_decide_eq_true_2 _ E0). subst m0. rewrite elem_of_cons.
      case_bool_decide as E.
      * subst m. split.
        -- intros [[= ->]|Hin]; [|by apply Hg in Hin].
           left. exists fs0. split; [done|left].
        -- intros [(fs1 & -> & Hin)|[_ Hnin]].
           ++ apply elem_of_cons in Hin as [[= ->]|Hin]; [by left|by apply Hg in Hin].
           ++ destruct Hnin. csimpl. left.
      * rewrite elem_of_cons. split; (intros [[= ? ?]|Hin]; [done|by right]).
    + rewrite (bool_decide_eq_false_2 _ E0). rewrite elem_of_cons, IH.
      case_bool_decide as E.
      * subst m. split.
        -- intros [[= ? _]|[(fs1 & -> & Hin)|[-> Hnin]]]; [done| |].
           ++ left. exists fs1. split; [done|by right].
           ++ right. split; [done|]. csimpl. rewrite not_elem_of_cons. naive_solver.
        -- intros [(fs1 & -> & Hin)|[-> Hnin]].
           ++ apply elem_of_cons in Hin as [[= ? _]|Hin]; [done|].
              right. left. by exists fs1.
           ++ csimpl in Hnin. apply not_elem_of_cons in Hnin as [_ Hnin]. right. by right.
      * by rewrite elem_of_cons.
Qed.

Lemma add_file_concat f g :
  concat (add_file f g).*2 ≡ₚ concat g.*2 ++ [f].
Proof.
  induction g as [|[m fs] g IH]; csimpl; [done|].
  case_bool_decide; csimpl.
  - rewrite <-!app_assoc. f_equiv. apply Permutation_app_comm.
  - rewrite IH. by rewrite app_assoc.
Qed.

Lemma group_files_snoc fs f :
  group_files (fs ++ [f]) = add_file f (group_files fs).
Proof. unfold group_files. by rewrite foldl_app. Qed.

Lemma group_files_NoDup fs : NoDup (group_files fs).*1.
Proof.
  induction fs as [|f fs IH] using rev_ind; [constructor|].
  rewrite group_files_snoc. by apply add_file_NoDup.
Qed.

Lemma group_files_keys fs m :
  m ∈ (group_files fs).*1 ↔ ∃ f, f ∈ fs ∧ fi_metric f = m.
Proof.
  induction fs as [|f fs IH] using rev_ind.
  - split; [by intros ?%elem_of_nil|by intros (?&?%elem_of_nil&_)].
  - rewrite group_files_snoc, add_file_keys.
    setoid_rewrite elem_of_app. setoid_rewrite list_elem_of_singleton.
    case_bool_decide as E.
    + rewrite IH. split; [naive_solver|].
      intros (f' & [Hin| ->] & <-); [naive_solver|]. by apply IH.
    + rewrite elem_of_app, list_elem_of_singleton, IH. naive_solver.
Qed.

Lemma filter_metric_nil fs m :
  List.filter (λ f, bool_decide (fi_metric f = m)) fs = [] ↔
  ¬ ∃ f, f ∈ fs ∧ fi_metric f = m.
Proof.
  split.
  - intros Hnil (f & Hin & Hm).
    assert (f ∈ List.filter (λ f, bool_decide (fi_metric f = m)) fs) as Hf
      by (apply elem_of_List_filter; split; [done|by apply bool_decide_eq_true]).
    rewrite Hnil in Hf. by apply elem_of_nil in Hf.
  - intros Hnone.
    destruct (List.filter (λ f, bool_decide (fi_metric f = m)) fs) as [|f l] eqn:E; [done|].
    destruct Hnone. exists f.
    assert (f ∈ List.filter (λ f, bool_decide (fi_metric f = m)) fs) as Hf
      by (rewrite E; left).
    apply elem_of_List_filter in Hf as [? ?%bool_decide_eq_true]. done.
Qed.

Lemma group_files_spec fs m g :
  (m, g) ∈ group_files fs ↔
  g = List.filter (λ f, bool_decide (fi_metric f = m)) fs ∧ g ≠ [].
Proof.
  revert g. induction fs as [|f fs IH] using rev_ind; intros g.
  - split; [by intros ?%elem_of_nil|by intros [-> ?]].
  - rewrite group_files_snoc, add_file_lookup by apply group_files_NoDup.
    rewrite List.filter_app. simpl.
    destruct (bool_decide (m = fi_metric f)) eqn:E.
    + apply bool_decide_eq_true in E. subst m.
      rewrite bool_decide_eq_true_2 by done.
      pose proof (filter_metric_nil fs (fi_metric f)) as Hnil.
      pose proof (group_files_keys fs (fi_metric f)) as Hkeys.
      set (l := List.filter _ fs) in *. split.
      * intros [(fs0 & -> & [-> _]%IH)|[-> Hnin]].
        -- split; [done|]. by destruct l.
        -- split; [|done]. rewrite (proj2 Hnil); [done|]. by rewrite <-Hkeys.
      * intros [-> _]. destruct l as [|f0 l'] eqn:El.
        -- right. split; [done|]. rewrite Hkeys. by apply Hnil.
        -- left. exists (f0 :: l'). split; [done|]. apply IH. done.
    + apply bool_decide_eq_false in E.
      rewrite bool_decide_eq_false_2 by done. by rewrite app_nil_r.
Qed.

Lemma group_files_concat fs : concat (group_files fs).*2 ≡ₚ fs.
Proof.
  induction fs as [|f fs IH] using rev_ind; [done|].
  by rewrite group_files_snoc, add_file_concat, IH.
Qed.

(** X7. create_file_explorer shows its alert only when no file is listed
    for the site; otherwise its cards are built from the groups of the
    listed files by metric folder: no metric has two cards, the group of a
    metric holds exactly the listed files of that metric in the order of
    the listing and is never empty, and all groups together hold every
    listed file once. *)
Theorem explorer_cards_partition_files
    (w : World) (dashboard : t) (cache : gmap string (list FileInfo)) (site : string) :
  let files := (get_available_files size_label w dashboard cache site).1 in
  match (create_file_explorer size_label w dashboard cache site).1 with
  | ExplorerAlert _ => files = []
  | ExplorerCards _ cards =>
      ∃ groups : list (string * list FileInfo),
        cards = map card_of groups ∧
        NoDup groups.*1 ∧
        (∀ m g, (m, g) ∈ groups ↔
           g = List.filter (λ f, bool_decide (fi_metric f = m)) files ∧ g ≠ []) ∧
        concat groups.*2 ≡ₚ files
  end.
Proof.
  intros files. unfold create_file_explorer. fold files.
  destruct files as [|f fs] eqn:E; [done|]. simpl.
  exists (group_files (f :: fs)). split; [done|].
  split; [apply group_files_NoDup|]. split; [apply group_files_spec|].
  apply group_files_concat.
Qed.

(** X8. On an empty file cache every card of create_file_explorer carries
    the sun, dollar-sign or chart-line icon: the fallback icon 'file' of
    get_metric_icon never appears, because every listed file lies in one
    of the five metric folders. *)
Theorem explorer_icons_are_never_the_fallback
    (w : World) (dashboard : t) (site : string) :
  match (create_file_explorer size_label w dashboard ∅ site).1 with
  | ExplorerAlert _ => True
  | ExplorerCards _ cards =>
      Forall (λ card, card_icon card ∈ ["fas fa-sun me-2"; "fas fa-dollar-sign me-2";
                                         "fas fa-chart-line me-2"]) cards
  end.
Proof.
  unfold create_file_explorer. rewrite get_available_files_fresh by done. simpl.
  set (files := files_info size_label w (portfolio_path dashboard // site)).
  assert (Hfiles : ∀ f, f ∈ files →
            fi_metric f ∈ ["Generation"; "Price_da"; "Price_rt"; "Revenue_da"; "Revenue_rt"]).
  { intros f (folder & kind & k & Hfolder & _ & _ & _ & ->)%files_info_spec. done. }
  destruct files as [|f fs] eqn:E; [done|]. rewrite <-E in *.
  apply Forall_fmap, list.Forall_forall. intros [m g] Hg.
  assert (m ∈ (group_files files).*1) as (f0 & Hf0 & <-)%group_files_keys.
  { apply list_elem_of_fmap. by exists (m, g). }
  apply Hfiles in Hf0. unfold compose, card_of. cbn [fst card_icon].
  rewrite !elem_of_cons in Hf0.
  destruct Hf0 as [->|[->|[->|[->|[->|?%elem_of_nil]]]]]; [| | | | |done];
    apply (bool_decide_unpack _); by vm_compute.
Qed.

End FilesFacts.

Section FilesExamples.

Import Dashboard Views.

Lemma resolved_files_are_listed_witness :
  ∃ f, f ∈ (get_available_files (λ _ _, "1.0 KB") Examples.world Examples.dashboard
              ∅ "SiteA").1 ∧
       fi_metric f = "Generation" ∧
       fi_file f = "SiteA_generation_monthly_historical.parquet".
Proof.
  destruct (resolved_files_are_listed (λ _ _, "1.0 KB") Examples.world Examples.dashboard
              "SiteA" "generation" "monthly"
              (Examples.root // "SiteA" // "Generation" // "historical"
                 // "SiteA_generation_monthly_historical.parquet"))
    as (f & Hin & Hm & Hf & _).
  - apply (bool_decide_unpack _). by vm_compute.
  - apply (bool_decide_unpack _). by vm_compute.
  - exists f. split; [exact Hin|]. split; [exact Hm|exact Hf].
Defined.

Lemma file_listing_is_cached_witness :
  get_available_files (λ _ _, "0.0 KB") (mkWorld (Dir ∅) []) Examples.dashboard
    (get_available_files (λ _ _, "1.0 KB") Examples.world Examples.dashboard ∅ "SiteA").2
    "SiteA"
  = get_available_files (λ _ _, "1.0 KB") Examples.world Examples.dashboard ∅ "SiteA".
Proof.
  apply (file_listing_is_cached (λ _ _, "1.0 KB") (λ _ _, "0.0 KB")
           Examples.world (mkWorld (Dir ∅) []) Examples.dashboard ∅ _ "SiteA").
  apply surjective_pairing.
Defined.

End FilesExamples.

Section ResolverForms.

Import Dashboard.

(** X9. find_timeseries_file returns <root>/<site>/<folder>/forecast/times
    eries/<site>_<metric>_<temporal>_timeseries.parquet when something
    exists at that path and None otherwise; find_historical_file does the
    same with <root>/<site>/<folder>/historical/<site>_<metric>_<temporal>
    _historical.parquet. *)
Theorem timeseries_and_historical_resolution
    (w : World) (self : t) (site metric temporal : string) :
  let folder := portfolio_path self // site // folder_of metric in
  let ts := folder // "forecast" // "timeseries"
      // (site +:+ "_" +:+ metric +:+ "_" +:+ temporal +:+ "_timeseries.parquet") in
  let hist := folder // "historical"
      // (site +:+ "_" +:+ metric +:+ "_" +:+ temporal +:+ "_historical.parquet") in
  find_timeseries_file w self site metric temporal
    = (if exists_ w ts then Some ts else None) ∧
  find_historical_file w self site metric temporal
    = (if exists_ w hist then Some hist else None).
Proof.
  intros folder ts hist. split.
  - unfold find_timeseries_file. fold folder.
    change (folder // "forecast" // "timeseries"
              // filename site metric temporal "timeseries") with ts.
    destruct (exists_ w ts) eqn:E.
    + pose proof (exists_parent _ _ _ E) as Hdir.
      pose proof (exists_parent _ _ _ (exists_parent _ _ _ Hdir)) as Hfolder.
      by rewrite Hfolder, Hdir.
    + by destruct (exists_ w folder), (exists_ w (folder // "forecast" // "timeseries")).
  - unfold find_historical_file. fold folder.
    change (folder // "historical" // filename site metric temporal "historical")
      with hist.
    destruct (exists_ w hist) eqn:E.
    + by rewrite (exists_parent _ _ _ E).
    + by destruct (exists_ w (folder // "historical")).
Qed.

End ResolverForms.

Section Inversion.

Import Pandas Spec Dashboard.

Lemma mapM_Ok_inv {A B} (f : A → result B) l ys :
  mapM f l = Ok ys → Forall2 (λ x y, f x = Ok y) l ys.
Proof.
  revert ys. induction l as [|x l IH]; intros ys; simpl.
  - intros [= <-]. constructor.
  - destruct (f x) as [y|] eqn:E; simpl; [|done].
    destruct (mapM f l) as [ys'|]; simpl; [|done].
    intros [= <-]. constructor; [done|by apply IH].
Qed.

Lemma getitem_Ok_inv df col s : getitem df col = Ok s → col ∈ columns df.
Proof. unfold getitem. by case_bool_decide. Qed.

Lemma mapM_getitem_columns df cols ss :
  mapM (getitem df) cols = Ok ss → Forall (λ c, c ∈ columns df) cols.
Proof.
  intros H%mapM_Ok_inv. induction H as [|c s cols ss Hc _ IH]; constructor; [|done].
  by eapply getitem_Ok_inv.
Qed.

Lemma key_leb_total (a b : list Qc) : key_leb a b = true ∨ key_leb b a = true.
Proof.
  revert b. induction a as [|x a IH]; intros [|y b]; simpl; auto.
  destruct (IH b) as [H|H]; repeat case_bool_decide; subst; auto.
  - exfalso. destruct (Qclt_le_dec x y) as [?|Hle]; [done|].
    apply Qcle_lt_or_eq in Hle as [?|?]; done.
  - exfalso. destruct (Qclt_le_dec x y) as [?|Hle]; [done|].
    apply Qcle_lt_or_eq in Hle as [?|?]; done.
Qed.

Lemma key_leb_trans (a b c : list Qc) :
  key_leb a b = true → key_leb b c = true → key_leb a c = true.
Proof.
  revert b c. induction a as [|x a IH]; intros [|y b] [|z c]; simpl; try done.
  intros Hab Hbc.
  destruct (decide (x < y)%Qc) as [Hxy|Hxy].
  - destruct (decide (y < z)%Qc) as [Hyz|Hyz].
    + rewrite (bool_decide_eq_true_2 (x < z)%Qc); [done|by eapply Qclt_trans].
    + rewrite (bool_decide_eq_false_2 (y < z)%Qc) in Hbc by done.
      destruct (decide (y = z)) as [->|Hne].
      * by rewrite (bool_decide_eq_true_2 (x < z)%Qc).
      * by rewrite (bool_decide_eq_false_2 (y = z)) in Hbc.
  - rewrite (bool_decide_eq_false_2 (x < y)%Qc) in Hab by done.
    destruct (decide (x = y)) as [->|Hne].
    + rewrite (bool_decide_eq_true_2 (y = y)) in Hab by done.
      destruct (decide (y < z)%Qc) as [Hyz|Hyz].
      * by rewrite (bool_decide_eq_true_2 (y < z)%Qc).
      * rewrite (bool_decide_eq_false_2 (y < z)%Qc) in Hbc |- * by done.
        destruct (decide (y = z)) as [->|Hne].
        -- rewrite (bool_decide_eq_true_2 (z = z)) in Hbc |- * by done. by eapply IH.
        -- by rewrite (bool_decide_eq_false_2 (y = z)) in Hbc.
    + by rewrite (bool_decide_eq_false_2 (x = y)) in Hab.
Qed.

Global Instance group_le_total {V} : Total (@group_le V).
Proof. intros g1 g2. apply key_leb_total. Qed.

Global Instance group_le_trans {V} : Transitive (@group_le V).
Proof. intros g1 g2 g3. apply key_leb_trans. Qed.

Lemma strictly_ascending_keys (ks : list (list Qc)) :
  StronglySorted (λ a b, key_leb a b = true) ks → NoDup ks →
  StronglySorted (λ a b, key_leb a b = true ∧ a ≠ b) ks.
Proof.
  induction 1 as [|k ks Hs IH Hk]; intros Hnd; constructor.
  - apply IH. by apply list.NoDup_cons in Hnd as [_ ?].
  - apply list.NoDup_cons in Hnd as [Hnin _].
    apply list.Forall_forall. intros k' Hk'.
    eapply list.Forall_forall in Hk; [|done]. split; [done|]. by intros ->.
Qed.

Lemma groupby_ascending {V} df keys (val : row → V) gs :
  groupby df keys val = Ok gs →
  Forall (λ c, c ∈ columns df) keys ∧
  StronglySorted (λ a b, key_leb a b = true ∧ a ≠ b) gs.*1.
Proof.
  unfold groupby. destruct (mapM (getitem df) keys) as [ss|] eqn:Ecols; simpl; [|done].
  destruct (keyed_rows keys val (rows df)) as [kvs|]; simpl; [|done].
  intros [= <-]. split; [by eapply mapM_getitem_columns|].
  apply strictly_ascending_keys.
  - apply (StronglySorted_fmap fst group_le); [done|].
    apply StronglySorted_merge_sort; apply _.
  - rewrite merge_sort_Permutation. apply NoDup_groups.
Qed.

Lemma groupby_mean_inv df keys col label out :
  groupby_mean df keys col label = Ok out →
  Forall (λ c, c ∈ columns df) keys ∧ col ∈ columns df ∧
  ∃ gs : list (list Qc * cell),
    out = mkDataFrame (keys ++ [label])
            (map (λ g : list Qc * cell, zip keys (Num <$> g.1) ++ [(label, g.2)]) gs) ∧
    StronglySorted (λ a b, key_leb a b = true ∧ a ≠ b) gs.*1.
Proof.
  unfold groupby_mean.
  destruct (groupby df keys (λ r, at_ r col)) as [gs0|] eqn:Egs; simpl; [|done].
  destruct (getitem df col) as [s|] eqn:Ecol; simpl; [|done].
  destruct (mapM _ gs0) as [avgs|] eqn:Eavg; simpl; [|done].
  intros [= <-]. apply groupby_ascending in Egs as [Hkeys Hsorted].
  split; [done|]. split; [by eapply getitem_Ok_inv|].
  exists avgs. split; [done|].
  assert (avgs.*1 = gs0.*1) as ->; [|done].
  apply mapM_Ok_inv in Eavg. clear -Eavg.
  induction Eavg as [|g a gs0 avgs Hg _ IH]; [done|]. csimpl. rewrite IH. f_equal.
  destruct (mean g.2); simpl in Hg; [|done]. by injection Hg as <-.
Qed.

Lemma historical_average_inv df metric temporal n avg :
  historical_average df metric temporal n = Ok (Some avg) →
  ∃ vc years,
    value_col_of metric temporal = Some vc ∧ vc ∈ columns df ∧ "year" ∈ columns df ∧
    sorted (unique (map (λ r, at_ r "year") (rows df))) = Ok years ∧
    temporal ∈ ["monthly"; "daily"; "hourly"] ∧
    groupby_mean (select df (λ r, isin (last_years_of years n) (at_ r "year")))
                 (period_key metric temporal) vc "historical_avg" = Ok avg.
Proof.
  unfold historical_average.
  destruct (value_col_of metric temporal) as [vc|] eqn:Evc; simpl; [|done].
  case_bool_decide as Hvc; simpl; [|done].
  destruct (getitem df "year") as [year|] eqn:Eyear; simpl; [|done].
  pose proof (getitem_Ok_inv _ _ _ Eyear) as Hyear.
  rewrite getitem_Ok in Eyear by done. injection Eyear as <-.
  destruct (sorted _) as [years|] eqn:Eyears; simpl; [|done].
  set (df_recent := select df _). intros H.
  exists vc, years. split; [done|]. split; [done|]. split; [done|]. split; [done|].
  unfold period_key. fold df_recent.
  case_bool_decide as Em; [subst temporal|].
  { split; [set_solver|].
    destruct (groupby_mean df_recent ["month"] vc "historical_avg"); simpl in H; congruence. }
  case_bool_decide as Ed; [subst temporal|].
  { split; [set_solver|].
    destruct (groupby_mean df_recent ["month"; "day"] vc "historical_avg");
      simpl in H; congruence. }
  case_bool_decide as Eh; [subst temporal|done].
  split; [set_solver|].
  rewrite diurnal_test in H by (by eapply value_col_of_recognised).
  case_bool_decide.
  - destruct (groupby_mean df_recent ["hour"] vc "historical_avg"); simpl in H; congruence.
  - destruct (groupby_mean df_recent ["month"; "day"; "hour"] vc "historical_avg");
      simpl in H; congruence.
Qed.

(** X10. Whenever calculate_historical_average returns a table, the
    historical file was found and read, the metric has a value column,
    that column and the column year are columns of the file, the temporal
    token is monthly, daily or hourly, the grouping keys are columns of
    the file, and the columns of the table returned are the grouping keys
    followed by historical_avg. *)
Theorem historical_average_requirements
    (w : World) (self : t) (site metric temporal : string) (n : Z) (avg : DataFrame) :
  calculate_historical_average w self site metric temporal n = Some avg →
  ∃ p df vc,
    find_historical_file w self site metric temporal = Some p ∧
    read_parquet w p = Ok df ∧
    value_col_of metric temporal = Some vc ∧
    vc ∈ columns df ∧ "year" ∈ columns df ∧
    temporal ∈ ["monthly"; "daily"; "hourly"] ∧
    Forall (λ c, c ∈ columns df) (period_key metric temporal) ∧
    columns avg = period_key metric temporal ++ ["historical_avg"].
Proof.
  unfold calculate_historical_average.
  destruct (find_historical_file w self site metric temporal) as [p|]; [|done].
  destruct (read_parquet w p) as [df|] eqn:Eread; simpl; [|done].
  destruct (historical_average df metric temporal n) as [[avg'|]|] eqn:E; simpl; [|done..].
  intros [= ->].
  apply historical_average_inv in E as (vc & years & Hvc & Hcol & Hyear & _ & Htemp & Hmean).
  apply groupby_mean_inv in Hmean as (Hkeys & _ & gs & -> & _).
  exists p, df, vc. by repeat split.
Qed.

(** X11. The rows of a table computed by calculate_historical_average are
    in strictly ascending lexicographic order of their grouping keys, so
    that no key has two rows. *)
Theorem historical_average_rows_ascend
    (df : DataFrame) (metric temporal : string) (n : Z) (avg : DataFrame) :
  historical_average df metric temporal n = Ok (Some avg) →
  let keys := period_key metric temporal in
  ∃ gs : list (list Qc * cell),
    avg = mkDataFrame (keys ++ ["historical_avg"])
            (map (λ g : list Qc * cell,
                    zip keys (Num <$> g.1) ++ [("historical_avg", g.2)]) gs) ∧
    StronglySorted (λ a b, key_leb a b = true ∧ a ≠ b) gs.*1.
Proof.
  intros (vc & years & _ & _ & _ & _ & _ & Hmean)%historical_average_inv keys.
  by apply groupby_mean_inv in Hmean as (_ & _ & gs & -> & Hsorted); exists gs.
Qed.

(** X12. For the temporal token daily, on a table that has the columns
    year, month, day and the value column, whose year entries are numbers
    and whose month, day and value entries are numbers or missing,
    calculate_historical_average computes one row per (month, day) pair
    present among the rows of the selected years (the slice
    years[-num_years:] of the ascending distinct years), and its
    historical_avg is the mean of the values present in that group. *)
Theorem daily_rolling_average
    (df : DataFrame) (metric vc : string) (n : Z) :
  value_col_of metric "daily" = Some vc →
  vc ∈ columns df → "year" ∈ columns df →
  "month" ∈ columns df → "day" ∈ columns df →
  (∀ r, r ∈ rows df →
     is_num (at_ r "year") ∧ ¬ is_text (at_ r "month") ∧ ¬ is_text (at_ r "day") ∧
     ¬ is_text (at_ r vc)) →
  ∃ (years : list Qc) (gs : list (list Qc * cell)),
    StronglySorted Qclt years ∧
    (∀ y, y ∈ years ↔ ∃ r, r ∈ rows df ∧ at_ r "year" = Num y) ∧
    let selected := List.filter (in_years (last_years_of years n)) (rows df) in
    historical_average df metric "daily" n =
      Ok (Some (mkDataFrame ["month"; "day"; "historical_avg"]
                  (map (λ g : list Qc * cell,
                          zip ["month"; "day"] (Num <$> g.1)
                            ++ [("historical_avg", g.2)]) gs))) ∧
    NoDup gs.*1 ∧
    (∀ k, k ∈ gs.*1 ↔ ∃ r, r ∈ selected ∧ map (at_ r) ["month"; "day"] = Num <$> k) ∧
    (∀ k a, (k, a) ∈ gs →
       a = mean_of (present (group_values ["month"; "day"] k vc selected))).
Proof.
  intros Hvc Hcol Hyear Hmonth Hday Hrows.
  apply (historical_average_spec df metric "daily" vc n); try done.
  - set_solver.
  - by repeat constructor.
  - intros r Hr. destruct (Hrows r Hr) as (? & ? & ? & ?). by repeat constructor.
Qed.

End Inversion.

Section InversionExamples.

Import Pandas Spec Dashboard.

Lemma historical_average_requirements_witness :
  ∃ p df vc,
    find_historical_file Examples.world Examples.dashboard "SiteA" "generation" "monthly"
      = Some p ∧
    read_parquet Examples.world p = Ok df ∧
    value_col_of "generation" "monthly" = Some vc ∧
    vc ∈ columns df ∧ "year" ∈ columns df.
Proof.
  destruct (historical_average_requirements Examples.world Examples.dashboard
              "SiteA" "generation" "monthly" 10%Z
              (mkDataFrame ["month"; "historical_avg"]
                 [[("month", Examples.int 1); ("historical_avg", Examples.int 15)]]))
    as (p & df & vc & Hp & Hdf & Hvc & Hcol & Hyear & _).
  - apply (bool_decide_unpack _). by vm_compute.
  - exists p, df, vc. repeat split; assumption.
Defined.

Lemma historical_average_rows_ascend_witness :
  ∃ gs : list (list Qc * cell),
    mkDataFrame ["month"; "day"; "hour"; "historical_avg"]
      [ [("month", Examples.int 1); ("day", Examples.int 1); ("hour", Examples.int 0);
         ("historical_avg", Examples.int 5)];
        [("month", Examples.int 1); ("day", Examples.int 2); ("hour", Examples.int 0);
         ("historical_avg", Examples.int 8)] ]
    = mkDataFrame (["month"; "day"; "hour"] ++ ["historical_avg"])
        (map (λ g : list Qc * cell,
                zip ["month"; "day"; "hour"] (Num <$> g.1)
                  ++ [("historical_avg", g.2)]) gs) ∧
    StronglySorted (λ a b, key_leb a b = true ∧ a ≠ b) gs.*1.
Proof.
  apply (historical_average_rows_ascend Examples.hourly_revenue "revenue_da" "hourly" 10%Z).
  apply (bool_decide_unpack _). by vm_compute.
Defined.

Lemma daily_rolling_average_witness :
  value_col_of "generation" "daily" = Some "daily_generation_mwh" ∧
  ∃ gs : list (list Qc * cell),
    historical_average Examples.three_days "generation" "daily" 10 =
      Ok (Some (mkDataFrame ["month"; "day"; "historical_avg"]
                  (map (λ g : list Qc * cell,
                          zip ["month"; "day"] (Num <$> g.1)
                            ++ [("historical_avg", g.2)]) gs))) ∧
    NoDup gs.*1.
Proof.
  split; [reflexivity|].
  destruct (daily_rolling_average Examples.three_days "generation"
              "daily_generation_mwh" 10%Z)
    as (years & gs & _ & _ & Hres & Hnd & _).
  - reflexivity.
  - by apply (bool_decide_unpack _); vm_compute.
  - by apply (bool_decide_unpack _); vm_compute.
  - by apply (bool_decide_unpack _); vm_compute.
  - by apply (bool_decide_unpack _); vm_compute.
  - apply example_rows_checked. repeat constructor; simpl; tauto.
  - exists gs. split; assumption.
Defined.

End InversionExamples.

Section AnnualMore.

Import Pandas Spec Plots Views.

Variable density : Type.
Variable scipy_kde : list Qc → list Qc → result density.

Lemma notna_count_le (s : list cell) : notna_count s ≤ length s.
Proof. unfold notna_count. apply List.filter_length_le. Qed.

Lemma annual_totals_none (df : DataFrame) (cols : list string) :
  Forall (λ c, c ∈ columns df) cols →
  (∀ col, col ∈ cols → notna_count (map (λ r, at_ r col) (rows df)) ≠ 12) →
  annual_totals df cols = Ok [].
Proof.
  intros Hcols Hnone. induction cols as [|col cols IH]; [done|].
  apply list.Forall_cons in Hcols as [Hcol Hcols]. simpl.
  rewrite getitem_Ok by done. simpl.
  rewrite bool_decide_eq_false_2 by (apply Hnone; left).
  apply IH; [done|]. intros c Hc. apply Hnone. by right.
Qed.

Lemma all_cols_columns (df : DataFrame) : Forall (λ c, c ∈ columns df) (all_cols df).
Proof.
  unfold all_cols, year_cols, path_cols. apply Forall_app. split;
    apply list.Forall_forall; by intros col [? _]%elem_of_List_filter.
Qed.

(** X13. When the monthly timeseries file is found and read,
    create_annual_distribution returns its insufficient-data alert if the
    table has fewer than 12 rows, and more generally if none of its year
    and path columns holds exactly 12 non-missing values (a column of 24
    values does not count). *)
Theorem annual_sample_needs_twelve_values
    (w : World) (dashboard : Dashboard.t) (site metric : string)
    (ts_file : Path) (df : DataFrame) :
  Dashboard.find_timeseries_file w dashboard site metric "monthly" = Some ts_file →
  read_parquet w ts_file = Ok df →
  length (rows df) < 12 ∨
  (∀ col, col ∈ all_cols df → notna_count (map (λ r, at_ r col) (rows df)) ≠ 12) →
  create_annual_distribution density scipy_kde w dashboard site metric
    = AnnualInsufficient.
Proof.
  intros Hfile Hread Hshort.
  assert (annual_values df = Ok []) as Hvalues.
  { apply annual_totals_none; [apply all_cols_columns|].
    destruct Hshort as [Hlen|Hnone]; [|done].
    intros col _. pose proof (notna_count_le (map (λ r, at_ r col) (rows df))) as H.
    rewrite length_map in H. lia. }
  pose proof (create_annual_distribution_reads density scipy_kde _ _ _ _ _ _ _
                Hfile Hread Hvalues) as H.
  destruct (create_annual_distribution _ _ w dashboard site metric) as [| |e|fig];
    [done|done| |].
  - by destruct H as [H _].
  - destruct H as (_ & H & _). simpl in H. lia.
Qed.

End AnnualMore.

Section AnnualExamples.

Import Pandas Spec Plots Views.

Lemma annual_sample_needs_twelve_values_witness :
  length (rows Examples.two_years_in_a_path) = 24 ∧
  create_annual_distribution (list Qc) Examples.flat_density Examples.long_path_world
    (Dashboard.mk (mkPath true []) None) "SiteD" "generation" = AnnualInsufficient.
Proof.
  split; [reflexivity|].
  apply (annual_sample_needs_twelve_values (list Qc) Examples.flat_density
           Examples.long_path_world
           (Dashboard.mk (mkPath true []) None) "SiteD" "generation"
           (mkPath true ["SiteD"; "Generation"; "forecast"; "timeseries";
                         "SiteD_generation_monthly_timeseries.parquet"])
           Examples.two_years_in_a_path).
  - by vm_compute.
  - by vm_compute.
  - right. apply list.Forall_forall. apply (bool_decide_unpack _). by vm_compute.
Defined.

End AnnualExamples.

Section Range.

Import Pandas Spec Plots.
Local Open Scope Qc_scope.

(** X14. For a non-empty pooled sample, the duration curve of
    create_duration_curve starts at the largest value and ends at the
    smallest, and each of its three percentile markers (P10, P50 and P90,
    the 90th, 50th and 10th percentile of the sample) lies between these
    two values; numbers are exact rationals in the model. *)
Theorem duration_markers_within_curve (values : list Qc) :
  values ≠ [] →
  let c := duration_curve values in
  ∃ hi lo : Qc,
    list.head (sorted_values c) = Some hi ∧ list.last (sorted_values c) = Some lo ∧
    (percentiles c).*1 = [10; 50; 90]%Z ∧
    Forall (λ marker : Z * Qc, lo ≤ marker.2 ∧ marker.2 ≤ hi) (percentiles c).
Proof.
  intros Hne c. set (s := merge_sort Qcle values).
  assert (Hlen : (0 < length s)%nat).
  { unfold s. rewrite merge_sort_Permutation. destruct values; [done|simpl; lia]. }
  exists (nth (length s - 1) s 0), (nth 0 s 0).
  assert (Hq : ∀ q, 0 ≤ q → q ≤ Qc_of_Z 100 →
            nth 0 s 0 ≤ Numpy.percentile values q ∧
            Numpy.percentile values q ≤ nth (length s - 1) s 0).
  { intros q H0 H100. unfold s. rewrite <-percentile_0, <-percentile_100.
    split; apply percentile_mono; try done; apply Qcle_refl. }
  split; [|split; [|split]].
  - unfold c, duration_curve, Numpy.sort_desc. cbn [sorted_values]. fold s.
    rewrite head_reverse, last_lookup, nth_lookup.
    replace (pred (length s)) with (length s - 1)%nat by lia.
    destruct (s !! (length s - 1)%nat) eqn:E; [done|].
    apply lookup_ge_None in E. lia.
  - unfold c, duration_curve, Numpy.sort_desc. cbn [sorted_values]. fold s.
    rewrite last_reverse, nth_lookup, <-head_lookup.
    destruct (list.head s) eqn:E; [done|].
    apply head_None in E. rewrite E in Hlen. simpl in Hlen. lia.
  - done.
  - unfold c, duration_curve. cbn [percentiles].
    repeat constructor; cbn [snd]; apply Hq; by apply (bool_decide_unpack _); vm_compute.
Qed.

Lemma duration_markers_within_curve_witness :
  ∃ hi lo : Qc,
    list.head (sorted_values (duration_curve (Qc_of_Z <$> [10; 20; 30; 40; 50]%Z))) = Some hi ∧
    list.last (sorted_values (duration_curve (Qc_of_Z <$> [10; 20; 30; 40; 50]%Z))) = Some lo ∧
    Forall (λ marker : Z * Qc, lo ≤ marker.2 ∧ marker.2 ≤ hi)
           (percentiles (duration_curve (Qc_of_Z <$> [10; 20; 30; 40; 50]%Z))).
Proof.
  destruct (duration_markers_within_curve (Qc_of_Z <$> [10; 20; 30; 40; 50]%Z))
    as (hi & lo & Hhi & Hlo & _ & Hmarkers).
  - discriminate.
  - exists hi, lo. split; [exact Hhi|]. split; [exact Hlo|exact Hmarkers].
Defined.

End Range.

(* ------------------------------------------------------------------ *)

Section ScatterMore.

Import Pandas Spec Plots.

Context (to_datetime : list (list cell) → result (list cell)).
Context (rng : Type).
Context (sample : rng → option Z → Z → list row → list row).
Context (sample_subset : ∀ g state n rs r, r ∈ sample g state n rs → r ∈ rs).

Lemma mask_rows (x1 x2 : Qc) (c1 c2 : string) (rs : list row) (m1 m2 : list bool) :
  mapM (gt x1) (map (λ r, at_ r c1) rs) = Ok m1 →
  mapM (gt x2) (map (λ r, at_ r c2) rs) = Ok m2 →
  ∀ r, r ∈ map fst (List.filter snd (zip rs (zip_with andb m1 m2))) →
    (∃ q, at_ r c1 = Num q ∧ (x1 < q)%Qc) ∧ (∃ q, at_ r c2 = Num q ∧ (x2 < q)%Qc).
Proof.
  revert m1 m2. induction rs as [|r0 rs IH]; intros m1 m2; simpl.
  - intros _ _ r ?%elem_of_nil. done.
  - destruct (gt x1 (at_ r0 c1)) as [b1|] eqn:E1; simpl; [|done].
    destruct (mapM (gt x1) _) as [m1'|] eqn:Em1; simpl; [|done]. intros [= <-].
    destruct (gt x2 (at_ r0 c2)) as [b2|] eqn:E2; simpl; [|done].
    destruct (mapM (gt x2) _) as [m2'|] eqn:Em2; simpl; [|done]. intros [= <-].
    simpl. intros r Hr.
    destruct (b1 && b2) eqn:Eb; simpl in Hr; [|by eapply IH].
    apply elem_of_cons in Hr as [->|Hr]; [|by eapply IH].
    apply andb_true_iff in Eb as [-> ->].
    unfold gt in E1, E2.
    destruct (at_ r0 c1) as [q1| |]; [|done..]. destruct (at_ r0 c2) as [q2| |]; [|done..].
    injection E1 as E1. injection E2 as E2.
    apply bool_decide_eq_true in E1, E2. split; eauto.
Qed.

Lemma filtered_rows_thresholds keep df df_filtered :
  filtered_rows to_datetime keep df = Ok (Some df_filtered) →
  ∀ r, r ∈ rows df_filtered →
    (∃ gen, at_ r "generation_mw" = Num gen ∧ (Q2Qc (1 # 10) < gen)%Qc) ∧
    (∃ ghi, at_ r "shortwave_radiation" = Num ghi ∧ (0 < ghi)%Qc).
Proof.
  unfold filtered_rows.
  destruct (if bool_decide ("datetime" ∈ columns df) then _ else _) as [dates|];
    simpl; [|done].
  destruct (setitem df "date" dates) as [df'|]; simpl; [|done].
  destruct (groupby df' ["year"] _) as [year_counts|]; simpl; [|done].
  destruct (map _ (List.filter _ year_counts)) as [|y ys]; [done|].
  set (df_years := select df' _).
  destruct (getitem df_years "generation_mw") as [gen|] eqn:Egen; simpl; [|done].
  destruct (mapM (gt (Q2Qc (1 # 10))) gen) as [gen_mask|] eqn:Egm; simpl; [|done].
  destruct (getitem df_years "shortwave_radiation") as [ghi|] eqn:Eghi; simpl; [|done].
  destruct (mapM (gt 0%Qc) ghi) as [ghi_mask|] eqn:Ehm; simpl; [|done].
  pose proof (getitem_Ok_inv _ _ _ Egen) as Hgen.
  pose proof (getitem_Ok_inv _ _ _ Eghi) as Hghi.
  rewrite getitem_Ok in Egen, Eghi by done.
  injection Egen as <-. injection Eghi as <-.
  pose proof (mask_rows _ _ _ _ _ _ _ Egm Ehm) as Hrows.
  intros [= <-] r Hr. by apply Hrows.
Qed.

Lemma scatter_points_thresholds keep colour g df d :
  scatter_points to_datetime rng sample keep colour g df = Ok (ScatterPoints d) →
  ∀ r, r ∈ rows d →
    (∃ gen, at_ r "generation_mw" = Num gen ∧ (Q2Qc (1 # 10) < gen)%Qc) ∧
    (∃ ghi, at_ r "shortwave_radiation" = Num ghi ∧ (0 < ghi)%Qc).
Proof.
  unfold scatter_points.
  destruct (filtered_rows to_datetime keep df) as [[df_filtered|]|] eqn:E;
    simpl; [|done..].
  pose proof (filtered_rows_thresholds _ _ _ E) as Hrows.
  unfold sampled_points. case_bool_decide; [done|].
  case_bool_decide.
  - destruct (getitem _ colour); simpl; [|done]. intros [= <-] r Hr. simpl in Hr.
    apply sample_subset in Hr. by apply Hrows.
  - destruct (getitem _ colour); simpl; [|done]. intros [= <-] r Hr. by apply Hrows.
Qed.

(** X15. Every point drawn by create_ghi_vs_generation_hour and
    create_ghi_vs_generation_temp has a numeric generation_mw above 0.1
    and a numeric shortwave_radiation above 0, sampled or not, given that
    a pandas sample returns rows of the table it samples. *)
Theorem scatter_points_pass_the_thresholds
    (w : World) (dashboard : Dashboard.t) (site : string) (g : rng) (d : DataFrame) :
  create_ghi_vs_generation_hour to_datetime rng sample w dashboard g site
    = ScatterPoints d ∨
  create_ghi_vs_generation_temp to_datetime rng sample w dashboard g site
    = ScatterPoints d →
  ∀ r, r ∈ rows d →
    (∃ gen, at_ r "generation_mw" = Num gen ∧ (Q2Qc (1 # 10) < gen)%Qc) ∧
    (∃ ghi, at_ r "shortwave_radiation" = Num ghi ∧ (0 < ghi)%Qc).
Proof.
  unfold create_ghi_vs_generation_hour, create_ghi_vs_generation_temp,
    create_ghi_vs_generation.
  destruct (Dashboard.find_historical_file w dashboard site "generation" "hourly")
    as [hist_file|]; [|by intros [?|?]].
  destruct (read_parquet w hist_file) as [df|e]; simpl; [|by intros [?|?]].
  intros [H|H].
  - destruct (scatter_points _ _ _ 10 "hour" g df) as [o|] eqn:E; simpl in H; [|done].
    subst o. by eapply scatter_points_thresholds.
  - destruct (scatter_points _ _ _ 5 "temperature_2m" g df) as [o|] eqn:E;
      simpl in H; [|done].
    subst o. by eapply scatter_points_thresholds.
Qed.

End ScatterMore.

Section ScatterMoreExamples.

Import Pandas Spec Plots.

Lemma first_rows_subset (g : bool) (state : option Z) (n : Z) (rs : list row) (r : row) :
  r ∈ Examples.first_rows g state n rs → r ∈ rs.
Proof. unfold Examples.first_rows. apply subseteq_take. Defined.

Lemma scatter_points_pass_the_thresholds_witness :
  ∃ d, create_ghi_vs_generation_hour Examples.no_dates bool Examples.first_rows
         Examples.sunny_world Examples.sunny_dashboard true "SiteC" = ScatterPoints d ∧
       ∀ r, r ∈ rows d →
         (∃ gen, at_ r "generation_mw" = Num gen ∧ (Q2Qc (1 # 10) < gen)%Qc) ∧
         (∃ ghi, at_ r "shortwave_radiation" = Num ghi ∧ (0 < ghi)%Qc).
Proof.
  assert (match create_ghi_vs_generation_hour Examples.no_dates bool Examples.first_rows
                  Examples.sunny_world Examples.sunny_dashboard true "SiteC" with
          | ScatterPoints _ => true
          | _ => false
          end = true) as Hpoints by (by vm_compute).
  destruct (create_ghi_vs_generation_hour Examples.no_dates bool Examples.first_rows
              Examples.sunny_world Examples.sunny_dashboard true "SiteC")
    as [| | | |d] eqn:E; try discriminate Hpoints.
  exists d. split; [reflexivity|].
  apply (scatter_points_pass_the_thresholds Examples.no_dates bool Examples.first_rows
           first_rows_subset Examples.sunny_world Examples.sunny_dashboard "SiteC" true d).
  left. exact E.
Defined.

End ScatterMoreExamples.

(* ------------------------------------------------------------------ *)

Section CallbackFacts.

Import Dashboard Callbacks.

(** X16. On an instance whose site cache is empty and whose portfolio root
    is not a directory, get_all_sites raises (NotADirectoryError when the
    root exists, FileNotFoundError when it does not); update_quick_stats
    raises the same for a selected site, and returns 'No site selected'
    without reading the file system when no site is selected. *)
Theorem quick_stats_need_a_directory
    (w : World) (dashboard : t) (site_name : option string) :
  _sites_cache dashboard = None →
  is_dir w (portfolio_path dashboard) = false →
  let e := if exists_ w (portfolio_path dashboard)
           then NotADirectoryError else FileNotFoundError in
  get_all_sites w dashboard = Raise e ∧
  update_quick_stats w dashboard site_name =
    if truthy site_name then Raise e else Ok ("No site selected", dashboard).
Proof.
  intros Hc Hd e.
  assert (get_all_sites w dashboard = Raise e) as Hsites.
  { subst e. unfold get_all_sites, iterdir, is_dir, exists_ in *. rewrite Hc.
    by destruct (stat w (portfolio_path dashboard)) as [[?|?]|]. }
  split; [done|]. unfold update_quick_stats.
  destruct (truthy site_name); simpl; [|done]. by rewrite Hsites.
Qed.

Lemma quick_stats_need_a_directory_witness :
  get_all_sites Examples.world (mk (Examples.root // "notes.txt") None)
    = Raise NotADirectoryError ∧
  update_quick_stats Examples.world (mk (Examples.root // "notes.txt") None) (Some "SiteA")
    = Raise NotADirectoryError.
Proof.
  apply (quick_stats_need_a_directory Examples.world
           (mk (Examples.root // "notes.txt") None) (Some "SiteA")); reflexivity.
Defined.

(** X17. handle_nav_clicks always stores one of the six tabs and marks
    exactly the card of that tab as active; a trigger nav-<tab> selects
    that tab, and without a trigger a stored tab that is one of the six is
    kept. *)
Theorem navigation_selects_one_valid_tab (triggered current_tab : option string) :
  let result := handle_nav_clicks triggered current_tab in
  result.1 ∈ TABS ∧
  map is_active result.2 = map (λ tab, bool_decide (tab = result.1)) TABS ∧
  length (List.filter is_active result.2) = 1 ∧
  (∀ tab, tab ∈ TABS → triggered = Some ("nav-" +:+ tab) → result.1 = tab) ∧
  (∀ tab, tab ∈ TABS → triggered = None → current_tab = Some tab → result.1 = tab).
Proof.
  intros result.
  assert (Hvalid : result.1 ∈ TABS).
  { unfold result, handle_nav_clicks. cbn [fst]. case_bool_decide; [done|].
    apply (bool_decide_unpack _). by vm_compute. }
  split; [done|]. split; [|split; [|split]].
  - unfold result, handle_nav_clicks. cbn [fst snd map is_active TABS].
    repeat f_equal; apply bool_decide_ext; naive_solver.
  - unfold result in *. unfold handle_nav_clicks in *. cbn [fst snd] in *.
    set (new_tab := if bool_decide (_ ∈ TABS) then _ else _) in *.
    unfold TABS in Hvalid. rewrite !elem_of_cons in Hvalid.
    destruct Hvalid as [->|[->|[->|[->|[->|[->|?%elem_of_nil]]]]]]; [| | | | | |done];
      by vm_compute.
  - intros tab Htab ->. unfold result, handle_nav_clicks. cbn [fst].
    unfold TABS in Htab. rewrite !elem_of_cons in Htab.
    destruct Htab as [->|[->|[->|[->|[->|[->|?%elem_of_nil]]]]]]; [| | | | | |done];
      by vm_compute.
  - intros tab Htab -> ->. unfold result, handle_nav_clicks. cbn [fst].
    unfold TABS in Htab. rewrite !elem_of_cons in Htab.
    destruct Htab as [->|[->|[->|[->|[->|[->|?%elem_of_nil]]]]]]; [| | | | | |done];
      by vm_compute.
Qed.

(** X18. handle_price_nav and handle_revenue_nav raise PreventUpdate
    outside their own tab; when they update, the day-ahead button is
    outlined exactly when the type they store is rt and the real-time
    button exactly when it is da, and a stored type da or rt is replaced
    only by da or rt. *)
Theorem type_buttons_follow_the_stored_type
    (triggered current_type current_tab : option string) :
  (current_tab ≠ Some "price" →
     handle_price_nav triggered current_type current_tab = PreventUpdate) ∧
  (current_tab ≠ Some "revenue" →
     handle_revenue_nav triggered current_type current_tab = PreventUpdate) ∧
  ∀ da_outline rt_outline new_type,
    handle_price_nav triggered current_type current_tab
      = Update (da_outline, rt_outline, new_type) ∨
    handle_revenue_nav triggered current_type current_tab
      = Update (da_outline, rt_outline, new_type) →
    da_outline = bool_decide (new_type = Some "rt") ∧
    rt_outline = bool_decide (new_type = Some "da") ∧
    (current_type ∈ [Some "da"; Some "rt"] → new_type ∈ [Some "da"; Some "rt"]).
Proof.
  unfold handle_price_nav, handle_revenue_nav, handle_type_nav.
  split; [intros H; by rewrite bool_decide_eq_false_2|].
  split; [intros H; by rewrite bool_decide_eq_false_2|].
  intros o1 o2 t [H|H];
    repeat (case_bool_decide; simpl in H; try done);
    injection H as <- <- <-; (split; [done|split; [done|intros ?; set_solver]]).
Qed.

Lemma type_buttons_follow_the_stored_type_witness :
  true = bool_decide (Some "rt" = Some "rt") ∧
  false = bool_decide (Some "rt" = Some "da") ∧
  (Some "da" ∈ [Some "da"; Some "rt"] → Some "rt" ∈ [Some "da"; Some "rt"]).
Proof.
  apply (proj2 (proj2 (type_buttons_follow_the_stored_type
                         (Some "price-rt-btn") (Some "da") (Some "price")))
           true false (Some "rt")).
  left. reflexivity.
Defined.

(** X19. On the data tab update_plot_buttons draws no button bar and
    stores the plot type monthly-forecast, update_plot_type_from_click
    leaves that value, and with it update_main_content shows the file
    explorer of any non-empty site: the values these two callbacks store
    never select the data summary or the download center. *)
Theorem data_tab_always_shows_the_file_explorer
    (current_plot_type price_type revenue_type view_mode : option string)
    (site : string) (triggered : list string) (n_clicks : list (option Z))
    (button_ids : list string) :
  site ≠ EmptyString →
  let stored := (update_plot_buttons (Some "data") current_plot_type).2 in
  (update_plot_buttons (Some "data") current_plot_type).1 = None ∧
  stored = Some "monthly-forecast" ∧
  update_plot_type_from_click triggered n_clicks stored button_ids (Some "data")
    = "monthly-forecast" ∧
  update_main_content (Some "data") stored (Some site) price_type revenue_type view_mode
    = FileExplorer site.
Proof.
  intros Hsite stored. split; [done|]. split; [done|]. split; [done|].
  unfold update_main_content, truthy. rewrite (bool_decide_eq_false_2 (site = "")) by done.
  cbn. unfold create_data_view_content. by rewrite (bool_decide_eq_false_2 (site = "")).
Qed.

Lemma data_tab_always_shows_the_file_explorer_witness :
  update_main_content (Some "data")
    (update_plot_buttons (Some "data") (Some "data-summary")).2
    (Some "SiteA") (Some "da") (Some "da") (Some "forecast") = FileExplorer "SiteA".
Proof.
  apply (data_tab_always_shows_the_file_explorer (Some "data-summary") (Some "da")
           (Some "da") (Some "forecast") "SiteA" [] [] []).
  discriminate.
Defined.

(** X20. When the price type and the revenue type are da or rt, every plot
    function update_main_content calls with a metric is called with one of
    generation, price_da, price_rt, revenue_da, revenue_rt; and for a plot
    type other than daily-forecast and monthly-forecast the view mode has
    no effect on what update_main_content shows. *)
Theorem plots_are_asked_for_recognised_metrics
    (current_tab plot_type site_name price_type revenue_type view_mode : option string) :
  price_type ∈ [Some "da"; Some "rt"] →
  revenue_type ∈ [Some "da"; Some "rt"] →
  (∀ plot, update_main_content current_tab plot_type site_name price_type revenue_type
             view_mode = Card plot →
     match plot with
     | DailyHistorical _ metric | MonthlyHistorical _ metric | DailyForecast _ metric
     | MonthlyForecast _ metric | DiurnalPattern _ metric | AnnualDistribution _ metric
     | DurationCurve _ metric =>
         metric ∈ ["generation"; "price_da"; "price_rt"; "revenue_da"; "revenue_rt"]
     | _ => True
     end) ∧
  (plot_type ∉ [Some "daily-forecast"; Some "monthly-forecast"] →
   ∀ view_mode',
     update_main_content current_tab plot_type site_name price_type revenue_type view_mode'
     = update_main_content current_tab plot_type site_name price_type revenue_type
         view_mode).
Proof.
  intros Hp Hr. split.
  - intros plot. unfold update_main_content.
    set (metric := if bool_decide (current_tab = Some "generation") then _ else _).
    assert (metric ∈ ["generation"; "price_da"; "price_rt"; "revenue_da"; "revenue_rt"])
      as Hmetric.
    { unfold metric. rewrite !elem_of_cons in Hp, Hr.
      destruct Hp as [->|[->|?%elem_of_nil]]; [| |done];
        (destruct Hr as [->|[->|?%elem_of_nil]]; [| |done]);
        repeat case_bool_decide; apply (bool_decide_unpack _); by vm_compute. }
    clearbody metric. unfold create_data_view_content.
    destruct (truthy site_name), site_name; simpl;
      repeat (case_bool_decide; simpl; try done);
      first [by intros [= <-]|by intros [=]].
  - intros Hplot view_mode'. unfold update_main_content.
    by rewrite (bool_decide_eq_false_2 (plot_type ∈ _)).
Qed.

Lemma plots_are_asked_for_recognised_metrics_witness :
  "price_rt" ∈ ["generation"; "price_da"; "price_rt"; "revenue_da"; "revenue_rt"].
Proof.
  apply (proj1 (plots_are_asked_for_recognised_metrics (Some "price") (Some "duration-curve")
                  (Some "SiteA") (Some "rt") (Some "da") (Some "forecast")
                  ltac:(apply (bool_decide_unpack _); by vm_compute)
                  ltac:(apply (bool_decide_unpack _); by vm_compute))
           (DurationCurve "SiteA" "price_rt")).
  reflexivity.
Defined.

End CallbackFacts.

(* ------------------------------------------------------------------ *)

Section ViewFacts.

Import Pandas Spec Dashboard Views.

(** X21. create_diurnal_pattern returns a graph only for the metrics
    generation, price_da and price_rt (for any other metric no title is
    assigned and the error alert is returned). In a graph the band runs
    over the hours of the mean line forth and back with as many values as
    hours, the mean line has a value per hour, and the historical trace is
    present exactly when calculate_historical_average returns a table,
    whose hour and historical_avg columns it plots. *)
Theorem diurnal_pattern_draws_generation_and_prices_only
    (w : World) (dashboard : t) (site metric : string) (fig : diurnal_figure) :
  create_diurnal_pattern w dashboard site metric = DiurnalGraph fig →
  metric ∈ ["generation"; "price_da"; "price_rt"] ∧
  band_x fig = mean_x fig ++ reverse (mean_x fig) ∧
  length (band_y fig) = length (band_x fig) ∧
  length (mean_y fig) = length (mean_x fig) ∧
  match calculate_historical_average w dashboard site metric "hourly" 10 with
  | None => hist_trace fig = None
  | Some avg =>
      hist_trace fig = Some (map (λ r, at_ r "hour") (rows avg),
                             map (λ r, at_ r "historical_avg") (rows avg))
  end.
Proof.
  unfold create_diurnal_pattern.
  destruct (find_distribution_file w dashboard site metric "hourly") as [p|]; [|done].
  destruct (read_parquet w p) as [df|]; simpl; [|done].
  destruct (groupby_agg_mean df ["hour"] ["mean"; "p5"; "p95"]) as [hourly|];
    simpl; [|done].
  destruct (getitem hourly "hour") as [hour|] eqn:Ehour; simpl; [|done].
  destruct (getitem hourly "p95") as [p95|] eqn:Ep95; simpl; [|done].
  destruct (getitem hourly "p5") as [p5|] eqn:Ep5; simpl; [|done].
  destruct (color_of metric) as [color|]; simpl; [|done].
  destruct (rgba color) as [fillcolor|]; simpl; [|done].
  destruct (getitem hourly "mean") as [mean_|] eqn:Emean; simpl; [|done].
  assert (Hlen : ∀ col s, getitem hourly col = Ok s → length s = length (rows hourly)).
  { intros col s Hs. pose proof (getitem_Ok_inv _ _ _ Hs) as Hcol.
    rewrite getitem_Ok in Hs by done. injection Hs as <-. by rewrite length_map. }
  apply Hlen in Ehour, Ep95, Ep5, Emean.
  destruct (calculate_historical_average w dashboard site metric "hourly" 10)
    as [avg|] eqn:Eavg.
  - destruct (getitem avg "hour") as [x|] eqn:Ex; simpl; [|done].
    destruct (getitem avg "historical_avg") as [y|] eqn:Ey; simpl; [|done].
    pose proof (getitem_Ok_inv _ _ _ Ex) as Hx. pose proof (getitem_Ok_inv _ _ _ Ey) as Hy.
    rewrite getitem_Ok in Ex, Ey by done. injection Ex as <-. injection Ey as <-.
    case_bool_decide as Eg; simpl.
    + intros [= <-]. simpl. rewrite !length_app, !length_reverse.
      split; [set_solver|]. split; [done|]. split; [lia|]. split; [lia|done].
    + case_bool_decide as Ep; simpl; [|done].
      intros [= <-]. simpl. rewrite !length_app, !length_reverse.
      split; [set_solver|]. split; [done|]. split; [lia|]. split; [lia|done].
  - simpl. case_bool_decide as Eg; simpl.
    + intros [= <-]. simpl. rewrite !length_app, !length_reverse.
      split; [set_solver|]. split; [done|]. split; [lia|]. split; [lia|done].
    + case_bool_decide as Ep; simpl; [|done].
      intros [= <-]. simpl. rewrite !length_app, !length_reverse.
      split; [set_solver|]. split; [done|]. split; [lia|]. split; [lia|done].
Qed.

End ViewFacts.

Section ViewExamples.

Import Pandas Spec Dashboard Views.

Lemma diurnal_pattern_witness :
  "generation" ∈ ["generation"; "price_da"; "price_rt"] ∧
  ∃ fig, create_diurnal_pattern Examples.diurnal_world (mk (mkPath true []) None)
           "SiteE" "generation" = DiurnalGraph fig ∧
         band_x fig = mean_x fig ++ reverse (mean_x fig).
Proof.
  assert (match create_diurnal_pattern Examples.diurnal_world (mk (mkPath true []) None)
                  "SiteE" "generation" with
          | DiurnalGraph _ => true
          | _ => false
          end = true) as Hgraph by (by vm_compute).
  destruct (create_diurnal_pattern Examples.diurnal_world (mk (mkPath true []) None)
              "SiteE" "generation") as [| |fig] eqn:E; try discriminate Hgraph.
  destruct (diurnal_pattern_draws_generation_and_prices_only Examples.diurnal_world
              (mk (mkPath true []) None) "SiteE" "generation" fig E) as (Hm & Hband & _).
  split; [exact Hm|]. exists fig. split; [reflexivity|exact Hband].
Defined.

End ViewExamples.

Section CallbackFacts2.

Import Dashboard Callbacks.

(** X23. update_plot_buttons draws a button bar exactly on the generation,
    price and revenue tabs; it then stores monthly-forecast and draws
    exactly one button - the one of the stored type - as primary and not
    outlined, all others secondary and outlined, whatever plot type was
    stored before. On the data tab it draws no bar and stores monthly-
    forecast; on every other tab it draws no bar and leaves the stored
    type. *)
Theorem plot_bar_highlights_monthly_forecast (current_tab current_plot_type : option string) :
  match update_plot_buttons current_tab current_plot_type with
  | (Some buttons, stored) =>
      current_tab ∈ [Some "generation"; Some "price"; Some "revenue"] ∧
      stored = Some "monthly-forecast" ∧
      Forall (λ b, btn_outline b = negb (bool_decide (Some (btn_value b) = stored)) ∧
                   btn_color b = if btn_outline b then "secondary" else "primary")
             buttons ∧
      length (List.filter (λ b, negb (btn_outline b)) buttons) = 1
  | (None, stored) =>
      (current_tab = Some "data" ∧ stored = Some "monthly-forecast") ∨
      ((current_tab ∉ [Some "generation"; Some "price"; Some "revenue"; Some "data"]) ∧
       stored = current_plot_type)
  end.
Proof.
  unfold update_plot_buttons, buttons_of.
  destruct (decide (current_tab = Some "generation")) as [->|Hg].
  { split; [set_solver|]. split; [done|]. split; [|done]. by repeat constructor. }
  rewrite (bool_decide_eq_false_2 _ Hg).
  destruct (decide (current_tab = Some "price")) as [->|Hp].
  { split; [set_solver|]. split; [done|]. split; [|done]. by repeat constructor. }
  rewrite (bool_decide_eq_false_2 _ Hp).
  destruct (decide (current_tab = Some "revenue")) as [->|Hr].
  { split; [set_solver|]. split; [done|]. split; [|done]. by repeat constructor. }
  rewrite (bool_decide_eq_false_2 _ Hr).
  destruct (decide (current_tab = Some "data")) as [->|Hd].
  { by left. }
  rewrite (bool_decide_eq_false_2 _ Hd). right. split; [set_solver|done].
Qed.

Lemma clicked_button_Returned triggered n_clicks button_ids index :
  clicked_button triggered n_clicks button_ids = Returned index →
  ∃ i clicks prop_id,
    button_ids !! i = Some index ∧ n_clicks !! i = Some (Some clicks) ∧ clicks ≠ 0%Z ∧
    list.head triggered = Some prop_id ∧
    Str.startswith prop_id
      ("{" +:+ DQUOTE +:+ "index" +:+ DQUOTE +:+ ":" +:+ DQUOTE +:+ index +:+ DQUOTE)
      = true.
Proof.
  revert button_ids. induction n_clicks as [|c n_clicks IH]; intros [|b button_ids];
    cbn [clicked_button]; try done.
  assert (Hrest : clicked_button triggered n_clicks button_ids = Returned index →
            ∃ i clicks prop_id,
              (b :: button_ids) !! i = Some index ∧
              (c :: n_clicks) !! i = Some (Some clicks) ∧ clicks ≠ 0%Z ∧
              list.head triggered = Some prop_id ∧
              Str.startswith prop_id
                ("{" +:+ DQUOTE +:+ "index" +:+ DQUOTE +:+ ":" +:+ DQUOTE +:+ index
                   +:+ DQUOTE) = true).
  { intros (i & clicks & prop_id & ? & ? & ? & ? & ?)%IH. by exists (S i), clicks, prop_id. }
  case_bool_decide as Hc; [|done].
  destruct triggered as [|prop_id triggered]; [done|].
  destruct (Str.startswith prop_id _) eqn:Hs; [|done].
  intros [= <-]. destruct Hc as [Hc1 Hc2]. destruct c as [clicks|]; [|done].
  exists 0, clicks, prop_id. repeat split; try done. by intros ->.
Qed.

(** X24. update_plot_type_from_click returns either the stored plot type
    (monthly-forecast when none is stored) or the index of a button that
    has a non-zero click count and whose index opens the first triggered
    property id; on the validation, data and portfolio tabs it always
    returns the former. *)
Theorem plot_type_changes_only_to_a_clicked_button
    (triggered : list string) (n_clicks : list (option Z)) (current_type : option string)
    (button_ids : list string) (current_tab : option string) :
  let chosen :=
    update_plot_type_from_click triggered n_clicks current_type button_ids current_tab in
  chosen = or_else current_type "monthly-forecast" ∨
  ((current_tab ∉ [Some "validation"; Some "data"; Some "portfolio"]) ∧
   ∃ i clicks prop_id,
     button_ids !! i = Some chosen ∧ n_clicks !! i = Some (Some clicks) ∧ clicks ≠ 0%Z ∧
     list.head triggered = Some prop_id ∧
     Str.startswith prop_id
       ("{" +:+ DQUOTE +:+ "index" +:+ DQUOTE +:+ ":" +:+ DQUOTE +:+ chosen +:+ DQUOTE)
       = true).
Proof.
  intros chosen. unfold chosen, update_plot_type_from_click.
  case_bool_decide as Htab; [by left|].
  destruct (_ || _ || _); [by left|].
  destruct (clicked_button triggered n_clicks button_ids) as [index| |] eqn:E;
    [|by left..].
  right. split; [done|]. by apply clicked_button_Returned.
Qed.

Lemma any_clicks_false clicks :
  Forall (λ c, c = None ∨ c = Some 0%Z) clicks → any_clicks clicks = false.
Proof.
  induction 1 as [|c clicks Hc _ IH]; [done|]. cbn [any_clicks existsb].
  fold (any_clicks clicks). rewrite IH, orb_false_r.
  apply bool_decide_eq_false. naive_solver.
Qed.

(** X25. toggle_view_mode returns the current mode, historical or
    forecast, and it returns the current mode whenever no view button has
    a non-zero click count, whatever triggered it; update_main_content
    calls create_daily_historical or create_monthly_historical only when
    the view mode is historical. *)
Theorem view_mode_changes_only_on_a_click
    (triggered : option (gmap string string)) (monthly_clicks daily_clicks : list (option Z))
    (current_mode : option string) :
  toggle_view_mode triggered monthly_clicks daily_clicks current_mode
    ∈ [current_mode; Some "historical"; Some "forecast"] ∧
  (Forall (λ c, c = None ∨ c = Some 0%Z) (monthly_clicks ++ daily_clicks) →
   toggle_view_mode triggered monthly_clicks daily_clicks current_mode = current_mode) ∧
  (∀ current_tab plot_type site_name price_type revenue_type site metric,
     update_main_content current_tab plot_type site_name price_type revenue_type
       current_mode ∈ [Card (DailyHistorical site metric);
                       Card (MonthlyHistorical site metric)] →
     current_mode = Some "historical").
Proof.
  split; [|split].
  - unfold toggle_view_mode. destruct (_ && _); [set_solver|].
    destruct triggered as [id|]; [|set_solver].
    repeat (destruct (_ && _)); set_solver.
  - intros [Hm Hd]%Forall_app. unfold toggle_view_mode.
    by rewrite !any_clicks_false.
  - intros current_tab plot_type site_name price_type revenue_type site metric.
    unfold update_main_content, create_data_view_content.
    destruct (decide (current_mode = Some "historical")) as [->|Hmode]; [done|].
    rewrite (bool_decide_eq_false_2 (current_mode = _)) by done.
    destruct (truthy site_name), site_name; simpl;
      repeat (case_bool_decide; simpl; try done);
      (intros Hview; repeat (apply elem_of_cons in Hview as [Hview|Hview]; [done|]);
       by apply elem_of_nil in Hview).
Qed.

Lemma view_mode_changes_only_on_a_click_witness :
  toggle_view_mode (Some {[ "type" := "view-nav-btn"; "action" := "to-historical" ]})
    [None] [Some 0%Z] (Some "forecast") = Some "forecast".
Proof.
  apply (proj1 (proj2 (view_mode_changes_only_on_a_click
                         (Some {[ "type" := "view-nav-btn"; "action" := "to-historical" ]})
                         [None] [Some 0%Z] (Some "forecast")))).
  apply (bool_decide_unpack _). by vm_compute.
Defined.

End CallbackFacts2.

Section StylingFacts.

Import Dashboard Callbacks.

(** X26. update_plot_type_buttons returns either no styles or one colour
    and one outline per button; a button is outlined exactly when it is
    secondary, and it is primary exactly when its index is the stored plot
    type (none is primary when no type is stored). Applied to the buttons
    update_plot_buttons has just drawn and to the plot type it stored, it
    returns exactly the colours and outlines these buttons were drawn
    with. *)
Theorem styling_agrees_with_the_plot_bar
    (current_type current_tab : option string) (button_ids : list string) :
  let styles := update_plot_type_buttons current_type button_ids current_tab in
  Forall2 (λ colour outline, colour = if outline : bool then "secondary" else "primary")
          styles.1 styles.2 ∧
  (styles.1 = [] ∨
   (length styles.1 = length button_ids ∧
    ∀ i index, button_ids !! i = Some index →
      styles.1 !! i = Some "primary" ↔ Some index = current_type ∧ index ≠ EmptyString)) ∧
  ∀ current_plot_type buttons stored,
    update_plot_buttons current_tab current_plot_type = (Some buttons, stored) →
    update_plot_type_buttons stored (map btn_value buttons) current_tab
      = (map btn_color buttons, map btn_outline buttons).
Proof.
  intros styles. split; [|split].
  - unfold styles, update_plot_type_buttons.
    destruct (_ || _ || _); [constructor|].
    destruct (negb (truthy current_type)); cbn [fst snd].
    + induction button_ids; by constructor.
    + induction button_ids as [|b bs IH]; [constructor|].
      cbn [map]. constructor; [|done].
      by destruct (decide (Some b = current_type));
        [rewrite bool_decide_eq_true_2, bool_decide_eq_false_2 by tauto
        |rewrite bool_decide_eq_false_2, bool_decide_eq_true_2 by tauto].
  - unfold styles, update_plot_type_buttons.
    destruct (_ || _ || _); [by left|]. right.
    destruct (negb (truthy current_type)) eqn:Et; cbn [fst snd].
    + split; [by rewrite length_replicate|]. intros i index Hi.
      rewrite lookup_replicate. split; [by intros [[=] _]|].
      intros [<- Hne]. simpl in Et. by rewrite bool_decide_eq_false_2 in Et.
    + split; [by rewrite length_map|]. intros i index Hi.
      rewrite list_lookup_fmap, Hi. simpl.
      apply negb_false_iff in Et. case_bool_decide as E.
      * split; [|done]. intros _. split; [done|]. intros ->. by rewrite <-E in Et.
      * split; [done|]. by intros [? _].
  - intros current_plot_type buttons stored.
    unfold update_plot_buttons, buttons_of.
    destruct (decide (current_tab = Some "generation")) as [->|Hg].
    { by intros [= <- <-]. }
    rewrite (bool_decide_eq_false_2 _ Hg).
    destruct (decide (current_tab = Some "price")) as [->|Hp].
    { by intros [= <- <-]. }
    rewrite (bool_decide_eq_false_2 _ Hp).
    destruct (decide (current_tab = Some "revenue")) as [->|Hr].
    { by intros [= <- <-]. }
    rewrite (bool_decide_eq_false_2 _ Hr).
    destruct (decide (current_tab = Some "data")) as [->|Hd]; [done|].
    by rewrite (bool_decide_eq_false_2 _ Hd).
Qed.

Lemma styling_agrees_with_the_plot_bar_witness :
  update_plot_type_buttons (Some "monthly-forecast")
    ["daily-forecast"; "monthly-forecast"; "annual-distribution"] (Some "revenue")
  = (["secondary"; "primary"; "secondary"], [true; false; true]).
Proof.
  apply (proj2 (proj2 (styling_agrees_with_the_plot_bar None (Some "revenue") []))
           (Some "duration-curve")
           [ mkPlotButton "Daily Forecast" "daily-forecast" "fa-calendar-day"
                          "secondary" true;
             mkPlotButton "Monthly Forecast" "monthly-forecast" "fa-chart-bar"
                          "primary" false;
             mkPlotButton "Annual Distribution" "annual-distribution" "fa-chart-area"
                          "secondary" true ]
           (Some "monthly-forecast")).
  reflexivity.
Defined.

(** X27. toggle_suggestion_modal raises AttributeError exactly when it is
    triggered by the suggestion button on the price tab with no price type
    stored, or on the revenue tab with no revenue type stored. Otherwise
    the suggestion button opens the modal, cancel and submit close it with
    an empty context, and any other trigger leaves the modal as it is with
    an empty context. *)
Theorem suggestion_modal_opens_on_its_button
    (triggered : option string) (is_open : option bool)
    (current_tab plot_type site_name price_type revenue_type : option string) :
  let outcome := toggle_suggestion_modal triggered is_open current_tab plot_type
                   site_name price_type revenue_type in
  (outcome = AttributeError ↔
     triggered = Some "suggestion-btn" ∧
     ((current_tab = Some "price" ∧ price_type = None) ∨
      (current_tab = Some "revenue" ∧ revenue_type = None))) ∧
  ∀ opened context, outcome = ModalUpdate opened context →
    (triggered = Some "suggestion-btn" → opened = Some true) ∧
    (triggered ∈ [Some "suggestion-cancel"; Some "suggestion-submit"] →
       opened = Some false ∧ context = EmptyString) ∧
    (triggered ∉ [Some "suggestion-btn"; Some "suggestion-cancel";
                  Some "suggestion-submit"] →
       opened = is_open ∧ context = EmptyString).
Proof.
  intros outcome. unfold outcome, toggle_suggestion_modal.
  destruct (decide (triggered = Some "suggestion-btn")) as [->|Hbtn].
  - rewrite bool_decide_eq_true_2 by done.
    assert (section_part current_tab price_type revenue_type = None ↔
            (current_tab = Some "price" ∧ price_type = None) ∨
            (current_tab = Some "revenue" ∧ revenue_type = None)) as Hsection.
    { unfold section_part. destruct (truthy current_tab) eqn:Et.
      - destruct (decide (current_tab = Some "price")) as [->|Hp].
        { rewrite bool_decide_eq_true_2 by done. destruct price_type; simpl; naive_solver. }
        rewrite (bool_decide_eq_false_2 _ Hp).
        destruct (decide (current_tab = Some "revenue")) as [->|Hr].
        { rewrite bool_decide_eq_true_2 by done.
          destruct revenue_type; simpl; naive_solver. }
        rewrite (bool_decide_eq_false_2 _ Hr). naive_solver.
      - split; [done|]. by intros [[-> _]|[-> _]]. }
    destruct (section_part current_tab price_type revenue_type) as [section|].
    + split; [split; [done|]|].
      * intros [_ H]. by apply Hsection in H.
      * intros opened context [= <- <-]. split; [done|]. split.
        -- intros H. set_solver.
        -- intros H. set_solver.
    + split; [|done]. split; [|done]. intros _. split; [done|]. by apply Hsection.
  - rewrite (bool_decide_eq_false_2 _ Hbtn). split.
    + split; [by case_bool_decide|]. by intros [? _].
    + intros opened context. case_bool_decide as Hc; intros [= <- <-].
      * split; [done|]. split; [done|]. intros H. set_solver.
      * split; [done|]. split; [done|]. done.
Qed.

Lemma suggestion_modal_opens_on_its_button_witness :
  toggle_suggestion_modal (Some "suggestion-btn") (Some false) (Some "revenue")
    (Some "monthly-forecast") (Some "SiteA") (Some "da") None = AttributeError.
Proof.
  apply (proj1 (suggestion_modal_opens_on_its_button (Some "suggestion-btn") (Some false)
                  (Some "revenue") (Some "monthly-forecast") (Some "SiteA")
                  (Some "da") None)).
  split; [reflexivity|]. right. split; reflexivity.
Defined.

End StylingFacts.

Section ForecastFacts.

Import Pandas Dashboard Views.

Variable int_str : string → option Z.

Lemma default_graph {F} (o : option (forecast_outcome F)) (fig : F) :
  default ForecastError o = ForecastGraph fig → o = Some (ForecastGraph fig).
Proof. destruct o as [?|]; simpl; [by intros ->|done]. Qed.

Lemma ok_Some {A} (r : result A) (a : A) : ok r = Some a ↔ r = Ok a.
Proof. destruct r; simpl; naive_solver. Qed.

Lemma getitem_inv (df : DataFrame) (col : string) (s : list cell) :
  getitem df col = Ok s → col ∈ columns df ∧ s = map (λ r, at_ r col) (rows df).
Proof. unfold getitem. case_bool_decide; [|done]. by intros [= <-]. Qed.

(** Months wrap around: [MONTH_NAMES[k - 1]] exists from -11 to 12. *)
Lemma index_month (k : Z) (name : string) :
  index MONTH_NAMES (k - 1) = Some name ↔
  (-11 ≤ k ≤ 12)%Z ∧ MONTH_NAMES !! Z.to_nat ((k + 11) `mod` 12) = Some name.
Proof.
  destruct (decide (-11 ≤ k ≤ 12)%Z) as [Hk|Hk].
  - assert (k ∈ [-11; -10; -9; -8; -7; -6; -5; -4; -3; -2; -1; 0; 1; 2; 3; 4; 5; 6; 7;
                 8; 9; 10; 11; 12]%Z) as Hin.
    { rewrite !elem_of_cons. lia. }
    rewrite !elem_of_cons in Hin.
    repeat (destruct Hin as [->|Hin]; [by vm_compute; naive_solver|]).
    by apply elem_of_nil in Hin.
  - split; [|by intros [? _]]. unfold index.
    case_bool_decide as H0.
    + intros H%lookup_lt_Some. simpl in H. lia.
    + case_bool_decide as H1; [|done]. simpl in H1. lia.
Qed.

Lemma month_abbr_Some (m : cell) (label : string) :
  month_abbr int_str m = Some label ↔
  ∃ k name, int_ int_str m = Some k ∧ (-11 ≤ k ≤ 12)%Z ∧
            MONTH_NAMES !! Z.to_nat ((k + 11) `mod` 12) = Some name ∧
            label = String.substring 0 3 name.
Proof.
  unfold month_abbr. split.
  - intros (k & Hk & (name & Hname%index_month & [= <-])%bind_Some)%bind_Some.
    exists k, name. tauto.
  - intros (k & name & -> & Hk & Hname & ->). simpl.
    by rewrite (proj2 (index_month k name)).
Qed.

Lemma mapM_path_traces (df_ts : DataFrame) (metric color : string) (cols : list string) :
  Forall (λ col, col ∈ columns df_ts) cols →
  color_of metric = Ok color →
  list.mapM (λ path, y ← ok (getitem df_ts path); _ ← ok (color_of metric); Some y) cols
  = Some (map (λ path, map (λ r, at_ r path) (rows df_ts)) cols).
Proof.
  intros Hcols Hcolor. apply mapM_Some.
  induction Hcols as [|col cols Hcol _ IH]; constructor; [|done].
  by rewrite getitem_Ok, Hcolor.
Qed.

Lemma mask_filter {A} (f : A → bool) (l : list A) :
  map fst (List.filter snd (zip l (map f l))) = List.filter f l.
Proof.
  induction l as [|a l IH]; [done|]. simpl. destruct (f a); simpl; by rewrite IH.
Qed.

Lemma hist_value_Some (hist_avg : DataFrame) (month v : cell) :
  hist_value hist_avg month = Some v →
  match list.head (List.filter (λ h, eq_cell (at_ h "month") month) (rows hist_avg)) with
  | Some h => v = at_ h "historical_avg"
  | None => v = NaN
  end.
Proof.
  unfold hist_value.
  intros (hist_month & [_ ->]%ok_Some%getitem_inv & H)%bind_Some. cbv zeta in H.
  unfold Plots.select_mask in H. cbn [rows columns] in H.
  rewrite map_map, (mask_filter (λ h, eq_cell (at_ h "month") month)) in H.
  destruct (List.filter _ (rows hist_avg)) as [|h hs] eqn:E.
  - simpl in H. by injection H as <-.
  - rewrite bool_decide_eq_true_2 in H by (simpl; lia).
    apply bind_Some in H as (values & [_ ->]%ok_Some%getitem_inv & H).
    cbn [rows map list.head] in H. by injection H as <-.
Qed.

(** X28. When create_monthly_forecast returns a plot, it draws at most 30
    path traces: the first 30 columns of the monthly timeseries whose name
    starts with path_, in column order, and none without a timeseries
    file. With a month column in the distribution the x axis has one
    position per row, and every row has a month that int() accepts and
    that lies between -11 and 12, labelled with the first three letters of
    the month name, where 0 and negative months count back from December;
    without a month column the axis is that of the twelve months, whatever
    the number of rows. *)
Theorem monthly_forecast_paths_and_months
    (w : World) (dashboard : Dashboard.t) (site metric : string) (fig : monthly_figure) :
  create_monthly_forecast int_str w dashboard site metric = ForecastGraph fig →
  ∃ dist_file df_dist,
    find_distribution_file w dashboard site metric "monthly" = Some dist_file ∧
    read_parquet w dist_file = Ok df_dist ∧
    length (path_traces fig) ≤ 30 ∧
    match find_timeseries_file w dashboard site metric "monthly" with
    | Some ts_file =>
        ∃ df_ts, read_parquet w ts_file = Ok df_ts ∧
                 path_traces fig =
                   map (λ path, map (λ r, at_ r path) (rows df_ts))
                       (take 30 (Plots.path_cols df_ts))
    | None => path_traces fig = []
    end ∧
    monthly_band_x fig = monthly_x fig ++ reverse (monthly_x fig) ∧
    if bool_decide ("month" ∈ columns df_dist) then
      monthly_x fig = seq 0 (length (rows df_dist)) ∧
      Forall2 (λ r label,
                 ∃ k name, int_ int_str (at_ r "month") = Some k ∧ (-11 ≤ k ≤ 12)%Z ∧
                           MONTH_NAMES !! Z.to_nat ((k + 11) `mod` 12) = Some name ∧
                           label = String.substring 0 3 name)
              (rows df_dist) (month_labels fig)
    else
      monthly_x fig = seq 0 12 ∧
      month_labels fig = ["Jan"; "Feb"; "Mar"; "Apr"; "May"; "Jun";
                          "Jul"; "Aug"; "Sep"; "Oct"; "Nov"; "Dec"].
Proof.
  unfold create_monthly_forecast.
  destruct (find_distribution_file w dashboard site metric "monthly") as [dist_file|];
    [|done].
  intros H%default_graph.
  apply bind_Some in H as (df_dist & Eread%ok_Some & H). cbv zeta in H.
  apply bind_Some in H as (axis & Eaxis & H).
  apply bind_Some in H as (paths & Epaths & H).
  apply bind_Some in H as (p10 & _ & H).
  apply bind_Some in H as (p90 & _ & H).
  apply bind_Some in H as (color & Ecolor%ok_Some & H).
  apply bind_Some in H as (fillcolor & _ & H).
  apply bind_Some in H as (mean_ & _ & H).
  apply bind_Some in H as (hist & _ & H).
  injection H as <-.
  cbn [path_traces monthly_band_x monthly_x month_labels].
  exists dist_file, df_dist. split; [done|]. split; [done|].
  assert (match find_timeseries_file w dashboard site metric "monthly" with
          | Some ts_file =>
              ∃ df_ts, read_parquet w ts_file = Ok df_ts ∧
                       paths = map (λ path, map (λ r, at_ r path) (rows df_ts))
                                   (take 30 (Plots.path_cols df_ts))
          | None => paths = []
          end) as Hpaths.
  { destruct (find_timeseries_file w dashboard site metric "monthly") as [ts_file|] eqn:Ets;
      [|by injection Epaths as <-].
    apply find_timeseries_file_Some in Ets as [_ Hex]. rewrite Hex in Epaths.
    apply bind_Some in Epaths as (df_ts & Ets%ok_Some & Epaths).
    exists df_ts. split; [done|].
    rewrite (mapM_path_traces df_ts metric color) in Epaths; [by injection Epaths as <-|
                                                              |done].
    apply list.Forall_forall. intros col Hcol%subseteq_take.
    unfold Plots.path_cols in Hcol. by apply elem_of_List_filter in Hcol as [? _]. }
  split.
  { destruct (find_timeseries_file w dashboard site metric "monthly").
    - destruct Hpaths as (df_ts & _ & ->). rewrite length_map, length_take. lia.
    - rewrite Hpaths. simpl. lia. }
  split; [done|]. split; [done|].
  case_bool_decide as Hmonth.
  - apply bind_Some in Eaxis as (actual_months & [_ ->]%ok_Some%getitem_inv & Eaxis).
    apply bind_Some in Eaxis as (labels & Elabels & [= <-]).
    cbn [fst snd]. split; [by rewrite length_map|].
    apply mapM_Some in Elabels.
    change (map ?f ?l) with (f <$> l) in Elabels. apply Forall2_fmap_l in Elabels.
    eapply Forall2_impl; [|exact Elabels].
    intros r label Hlabel. by apply month_abbr_Some.
  - by injection Eaxis as <-.
Qed.

(** X29. When create_monthly_forecast returns a plot, the historical trace
    is drawn exactly when calculate_historical_average returns a table and
    the distribution has a month column. It then holds one value per row
    of the distribution, as the mean line does: the historical average of
    the first row of the table whose month equals the month of that row,
    and a missing value when the table has no such month. *)
Theorem monthly_forecast_overlay
    (w : World) (dashboard : Dashboard.t) (site metric : string) (fig : monthly_figure) :
  create_monthly_forecast int_str w dashboard site metric = ForecastGraph fig →
  ∃ dist_file df_dist,
    find_distribution_file w dashboard site metric "monthly" = Some dist_file ∧
    read_parquet w dist_file = Ok df_dist ∧
    monthly_mean_y fig = map (λ r, at_ r "mean") (rows df_dist) ∧
    match calculate_historical_average w dashboard site metric "monthly" 10 with
    | Some hist_avg =>
        if bool_decide ("month" ∈ columns df_dist) then
          ∃ values,
            hist_values fig = Some values ∧
            Forall2 (λ r v,
                       match list.head (List.filter
                                          (λ h, eq_cell (at_ h "month") (at_ r "month"))
                                          (rows hist_avg)) with
                       | Some h => v = at_ h "historical_avg"
                       | None => v = NaN
                       end)
                    (rows df_dist) values
        else hist_values fig = None
    | None => hist_values fig = None
    end.
Proof.
  unfold create_monthly_forecast.
  destruct (find_distribution_file w dashboard site metric "monthly") as [dist_file|];
    [|done].
  intros H%default_graph.
  apply bind_Some in H as (df_dist & Eread%ok_Some & H). cbv zeta in H.
  apply bind_Some in H as (axis & _ & H).
  apply bind_Some in H as (paths & _ & H).
  apply bind_Some in H as (p10 & _ & H).
  apply bind_Some in H as (p90 & _ & H).
  apply bind_Some in H as (color & _ & H).
  apply bind_Some in H as (fillcolor & _ & H).
  apply bind_Some in H as (mean_ & [_ ->]%ok_Some%getitem_inv & H).
  apply bind_Some in H as (hist & Ehist & H).
  injection H as <-. cbn [hist_values monthly_mean_y].
  exists dist_file, df_dist. split; [done|]. split; [done|]. split; [done|].
  destruct (calculate_historical_average w dashboard site metric "monthly" 10)
    as [hist_avg|]; [|by injection Ehist as <-].
  case_bool_decide as Hmonth; [|by injection Ehist as <-].
  apply bind_Some in Ehist as (actual_months & [_ ->]%ok_Some%getitem_inv & Ehist).
  apply bind_Some in Ehist as (values & Evalues & [= <-]).
  exists values. split; [done|].
  apply mapM_Some in Evalues.
  change (map ?f ?l) with (f <$> l) in Evalues. apply Forall2_fmap_l in Evalues.
  eapply Forall2_impl; [|exact Evalues].
  intros r v Hv. by apply hist_value_Some.
Qed.

Lemma filter_seq_sorted (f : nat → bool) (start n : nat) :
  StronglySorted lt (List.filter f (seq start n)).
Proof.
  revert start. induction n as [|n IH]; intros start; [constructor|].
  cbn [seq List.filter]. destruct (f start); [|apply IH].
  constructor; [apply IH|].
  apply list.Forall_forall. intros j [Hj _]%elem_of_List_filter.
  apply elem_of_seq in Hj. lia.
Qed.

Lemma tick_label_Some (df : DataFrame) (i : nat) (label : string) :
  tick_label int_str df i = Some label →
  ∃ r month day name,
    rows df !! i = Some r ∧
    int_ int_str (at_ r "month") = Some month ∧ int_ int_str (at_ r "day") = Some day ∧
    (-11 ≤ month ≤ 12)%Z ∧
    MONTH_NAMES !! Z.to_nat ((month + 11) `mod` 12) = Some name ∧
    label = String.substring 0 3 name +:+ " " +:+ Str.of_Z day.
Proof.
  unfold tick_label.
  intros (r & Hr & H)%bind_Some.
  apply bind_Some in H as (? & _ & H).
  apply bind_Some in H as (month & Hmonth & H).
  apply bind_Some in H as (? & _ & H).
  apply bind_Some in H as (day & Hday & H).
  apply bind_Some in H as (name & [Hk Hname]%index_month & [= <-]).
  by exists r, month, day, name.
Qed.

(** X30. When create_daily_forecast returns a plot of a distribution of n
    rows, the band runs over the positions 0 to n-1 forth and back with 2n
    values, the mean line has n values, and the ticks stand in ascending
    order at exactly the multiples of 30 below n. Each tick is labelled
    with the first three letters of the month name and the day of its own
    row, both read with int(), the month lying between -11 and 12; so a
    month or day that int() rejects in one of these rows leaves no plot. *)
Theorem daily_forecast_ticks
    (w : World) (dashboard : Dashboard.t) (site metric : string) (fig : daily_figure) :
  create_daily_forecast int_str w dashboard site metric = ForecastGraph fig →
  ∃ dist_file df,
    find_distribution_file w dashboard site metric "daily" = Some dist_file ∧
    read_parquet w dist_file = Ok df ∧
    let n := length (rows df) in
    daily_band_x fig = seq 0 n ++ reverse (seq 0 n) ∧
    length (daily_band_y fig) = 2 * n ∧
    length (daily_mean_y fig) = n ∧
    StronglySorted lt (tick_positions fig) ∧
    (∀ i, i ∈ tick_positions fig ↔ i < n ∧ i `mod` 30 = 0) ∧
    Forall2 (λ i label,
               ∃ r month day name,
                 rows df !! i = Some r ∧
                 int_ int_str (at_ r "month") = Some month ∧
                 int_ int_str (at_ r "day") = Some day ∧
                 (-11 ≤ month ≤ 12)%Z ∧
                 MONTH_NAMES !! Z.to_nat ((month + 11) `mod` 12) = Some name ∧
                 label = String.substring 0 3 name +:+ " " +:+ Str.of_Z day)
            (tick_positions fig) (tick_labels fig).
Proof.
  unfold create_daily_forecast.
  destruct (find_distribution_file w dashboard site metric "daily") as [dist_file|];
    [|done].
  intros H%default_graph.
  apply bind_Some in H as (df & Eread%ok_Some & H). cbv zeta in H.
  apply bind_Some in H as (p10 & [_ ->]%ok_Some%getitem_inv & H).
  apply bind_Some in H as (p90 & [_ ->]%ok_Some%getitem_inv & H).
  apply bind_Some in H as (color & _ & H).
  apply bind_Some in H as (fillcolor & _ & H).
  apply bind_Some in H as (mean_ & [_ ->]%ok_Some%getitem_inv & H).
  apply bind_Some in H as (labels & Elabels & H).
  injection H as <-.
  cbn [daily_band_x daily_band_y daily_mean_y tick_positions tick_labels].
  exists dist_file, df. split; [done|]. split; [done|].
  set (n := length (rows df)).
  split; [done|].
  split; [rewrite length_app, length_reverse, !length_map; unfold n; lia|].
  split; [by rewrite length_map|].
  split; [|split].
  - apply filter_seq_sorted.
  - intros i. unfold range_step. rewrite elem_of_List_filter, elem_of_seq.
    rewrite bool_decide_eq_true. fold n. split; [intros [? ?]|intros [? ?]]; split;
      try done; lia.
  - apply mapM_Some in Elabels. eapply Forall2_impl; [|exact Elabels].
    intros i label Hlabel. by apply tick_label_Some.
Qed.

End ForecastFacts.

Section ForecastExamples.

Import Pandas Dashboard Views.

Lemma monthly_forecast_paths_and_months_witness :
  ∃ fig, create_monthly_forecast Examples.no_text Examples.forecast_world
           (Dashboard.mk (mkPath true []) None) "SiteF" "generation" = ForecastGraph fig ∧
         length (path_traces fig) ≤ 30 ∧
         monthly_band_x fig = monthly_x fig ++ reverse (monthly_x fig).
Proof.
  assert (match create_monthly_forecast Examples.no_text Examples.forecast_world
                  (Dashboard.mk (mkPath true []) None) "SiteF" "generation" with
          | ForecastGraph _ => true
          | _ => false
          end = true) as Hgraph by (by vm_compute).
  destruct (create_monthly_forecast Examples.no_text Examples.forecast_world
              (Dashboard.mk (mkPath true []) None) "SiteF" "generation")
    as [| |fig] eqn:E; try discriminate Hgraph.
  destruct (monthly_forecast_paths_and_months Examples.no_text Examples.forecast_world
              (Dashboard.mk (mkPath true []) None) "SiteF" "generation" fig E)
    as (dist_file & df_dist & _ & _ & Hlen & _ & Hband & _).
  exists fig. split; [reflexivity|]. split; [exact Hlen|exact Hband].
Defined.

Lemma monthly_forecast_overlay_witness :
  ∃ fig df_dist,
    create_monthly_forecast Examples.no_text Examples.forecast_world
      (Dashboard.mk (mkPath true []) None) "SiteF" "generation" = ForecastGraph fig ∧
    monthly_mean_y fig = map (λ r, at_ r "mean") (rows df_dist).
Proof.
  assert (match create_monthly_forecast Examples.no_text Examples.forecast_world
                  (Dashboard.mk (mkPath true []) None) "SiteF" "generation" with
          | ForecastGraph _ => true
          | _ => false
          end = true) as Hgraph by (by vm_compute).
  destruct (create_monthly_forecast Examples.no_text Examples.forecast_world
              (Dashboard.mk (mkPath true []) None) "SiteF" "generation")
    as [| |fig] eqn:E; try discriminate Hgraph.
  destruct (monthly_forecast_overlay Examples.no_text Examples.forecast_world
              (Dashboard.mk (mkPath true []) None) "SiteF" "generation" fig E)
    as (dist_file & df_dist & _ & _ & Hmean & _).
  exists fig, df_dist. split; [reflexivity|exact Hmean].
Defined.

Lemma daily_forecast_ticks_witness :
  ∃ fig, create_daily_forecast Examples.no_text Examples.forecast_world
           (Dashboard.mk (mkPath true []) None) "SiteF" "generation" = ForecastGraph fig ∧
         StronglySorted lt (tick_positions fig).
Proof.
  assert (match create_daily_forecast Examples.no_text Examples.forecast_world
                  (Dashboard.mk (mkPath true []) None) "SiteF" "generation" with
          | ForecastGraph _ => true
          | _ => false
          end = true) as Hgraph by (by vm_compute).
  destruct (create_daily_forecast Examples.no_text Examples.forecast_world
              (Dashboard.mk (mkPath true []) None) "SiteF" "generation")
    as [| |fig] eqn:E; try discriminate Hgraph.
  destruct (daily_forecast_ticks Examples.no_text Examples.forecast_world
              (Dashboard.mk (mkPath true []) None) "SiteF" "generation" fig E)
    as (dist_file & df & _ & _ & _ & _ & _ & Hsorted & _).
  exists fig. split; [reflexivity|exact Hsorted].
Defined.

End ForecastExamples.

Section HistoricalFacts.

Import Pandas Spec Dashboard Views.

Context (to_datetime : list (list cell) → result (list cell)).
Context (sort_values : string → DataFrame → DataFrame).
Context (sort_values_columns : ∀ col df, columns (sort_values col df) = columns df).
Context (sort_values_permutes : ∀ col df, rows (sort_values col df) ≡ₚ rows df).

Lemma last_ten_years (years : list Qc) :
  (if bool_decide (10 ≤ length years) then slice_from (-10) years else years)
  = last_years_of years 10.
Proof.
  unfold last_years_of. case_bool_decide as H.
  - destruct (Z.ltb_spec (Z.of_nat (length years)) 10); [lia|done].
  - destruct (Z.ltb_spec (Z.of_nat (length years)) 10); [done|lia].
Qed.

Lemma at_set_at_ne (col c : string) (v : cell) (r : row) :
  c ≠ col → at_ (set_at col v r) c = at_ r c.
Proof.
  intros Hne. induction r as [|[c' v'] r IH]; simpl.
  - by rewrite bool_decide_eq_false_2 by done.
  - destruct (decide (c' = col)) as [->|Hc].
    + rewrite (bool_decide_eq_true_2 (col = col)) by done. simpl.
      by rewrite !(bool_decide_eq_false_2 (col = c)) by done.
    + rewrite (bool_decide_eq_false_2 _ Hc). simpl. by rewrite IH.
Qed.

Lemma column_after_setitem (col c : string) (rs : list row) (vs : list cell) :
  c ≠ col → length vs = length rs →
  map (λ r, at_ r c) (zip_with (λ r v, set_at col v r) rs vs) = map (λ r, at_ r c) rs.
Proof.
  intros Hne. revert vs. induction rs as [|r rs IH]; intros [|v vs]; simpl; try done.
  intros [= Hlen]. by rewrite at_set_at_ne, IH.
Qed.

Lemma column_of_filter {A B} (f : A → B) (p : B → bool) (l : list A) :
  map f (List.filter (λ a, p (f a)) l) = List.filter p (map f l).
Proof.
  induction l as [|a l IH]; simpl; [done|]. destruct (p (f a)); simpl; by rewrite IH.
Qed.

Lemma filter_permutation {A} (p : A → bool) (l l' : list A) :
  l ≡ₚ l' → List.filter p l ≡ₚ List.filter p l'.
Proof.
  induction 1 as [|x l l' _ IH|x y l|l l' l'' _ IH1 _ IH2]; simpl.
  - done.
  - destruct (p x); [by constructor|done].
  - destruct (p x), (p y); try done. constructor.
  - by etransitivity.
Qed.

Lemma value_col_not_date (metric temporal vc : string) :
  temporal ∈ ["daily"; "monthly"] →
  value_col_of metric temporal = Some vc → vc ≠ "date".
Proof.
  intros Htemp. unfold value_col_of. rewrite !elem_of_cons in Htemp.
  destruct Htemp as [->|[->|?%elem_of_nil]]; [| |done];
    repeat case_bool_decide; intros [= <-]; try done; intros ->; set_solver.
Qed.

Lemma historical_average_of_recent
    (w : World) (dashboard : t) (site metric temporal vc : string)
    (hist_file : Path) (df : DataFrame) (years : list Qc) :
  temporal ∈ ["daily"; "monthly"] →
  find_historical_file w dashboard site metric temporal = Some hist_file →
  read_parquet w hist_file = Ok df →
  value_col_of metric temporal = Some vc →
  vc ∈ columns df →
  getitem df "year" = Ok (map (λ r, at_ r "year") (rows df)) →
  sorted (unique (map (λ r, at_ r "year") (rows df))) = Ok years →
  calculate_historical_average w dashboard site metric temporal 10 =
    try_except
      (avg ← groupby_mean (select df (λ r, isin (last_years_of years 10) (at_ r "year")))
               (period_key metric temporal) vc "historical_avg";
       Ok (Some avg))
      (λ _, None).
Proof.
  intros Htemp Hfind Hread Hvc Hcol Hyear Hyears.
  unfold calculate_historical_average. rewrite Hfind, Hread. simpl.
  unfold historical_average. rewrite Hvc. simpl.
  rewrite (bool_decide_eq_true_2 _ Hcol). simpl. rewrite Hyear. simpl.
  rewrite Hyears. simpl.
  unfold period_key. rewrite !elem_of_cons in Htemp.
  destruct Htemp as [->|[->|?%elem_of_nil]]; [| |done]; cbn [bool_decide];
    repeat (case_bool_decide; try done).
Qed.

Lemma create_historical_graph
    (daily : bool) (w : World) (dashboard : t) (site metric : string)
    (fig : historical_figure) :
  create_historical to_datetime sort_values daily w dashboard site metric
    = HistoricalGraph fig →
  ∃ hist_file df years vc,
    find_historical_file w dashboard site metric (if daily then "daily" else "monthly")
      = Some hist_file ∧
    read_parquet w hist_file = Ok df ∧
    sorted (unique (map (λ r, at_ r "year") (rows df))) = Ok years ∧
    value_col_of metric (if daily then "daily" else "monthly") = Some vc ∧
    calculate_historical_average w dashboard site metric
        (if daily then "daily" else "monthly") 10 =
      try_except
        (avg ← groupby_mean
                 (select df (λ r, isin (last_years_of years 10) (at_ r "year")))
                 (period_key metric (if daily then "daily" else "monthly")) vc
                 "historical_avg";
         Ok (Some avg))
        (λ _, None) ∧
    trace_y fig ≡ₚ
      List.filter (λ c, negb (bool_decide (c = NaN)))
        (map (λ r, at_ r vc)
           (rows (select df (λ r, isin (last_years_of years 10) (at_ r "year"))))) ∧
    length (trace_x fig) = length (trace_y fig).
Proof.
  unfold create_historical. cbv zeta.
  set (temporal := if daily then "daily" else "monthly").
  assert (temporal ∈ ["daily"; "monthly"]) as Htemp
    by (unfold temporal; destruct daily; set_solver).
  destruct (find_historical_file w dashboard site metric temporal) as [p|] eqn:Hfind;
    [|done].
  destruct (read_parquet w p) as [df|] eqn:Hread; cbn [mbind result_bind try_except];
    [|done].
  assert ((if bool_decide (metric = "generation")
           then Some (temporal +:+ "_generation_mwh")
           else if bool_decide (metric ∈ ["price_da"; "price_rt"])
                then Some "weighted_price"
                else if bool_decide (metric ∈ ["revenue_da"; "revenue_rt"])
                     then Some metric else None)
          = value_col_of metric temporal) as ->.
  { unfold value_col_of. rewrite !elem_of_cons in Htemp.
    destruct Htemp as [->|[->|?%elem_of_nil]]; [| |done];
      repeat case_bool_decide; try done; set_solver. }
  destruct (value_col_of metric temporal) as [vc|] eqn:Hvc; [|done].
  destruct (decide (vc ∈ columns df)) as [Hcol|Hcol];
    [rewrite (bool_decide_eq_true_2 _ Hcol)|by rewrite (bool_decide_eq_false_2 _ Hcol)].
  cbn [negb].
  destruct (getitem df "year") as [year|] eqn:Hyear;
    cbn [mbind result_bind try_except]; [|done].
  pose proof Hyear as [_ ->]%getitem_inv.
  destruct (sorted _) as [years|] eqn:Hyears; cbn [mbind result_bind try_except]; [|done].
  rewrite last_ten_years.
  set (df_recent := select df _).
  match goal with
  | |- try_except (mbind _ ?calendar) _ = _ → _ =>
      destruct calendar as [cal|]; cbn [mbind result_bind try_except]; [|done]
  end.
  destruct (to_datetime cal) as [dates|]; cbn [mbind result_bind try_except]; [|done].
  unfold Plots.setitem.
  destruct (decide (length dates = length (rows df_recent))) as [Hlen|Hlen];
    [rewrite (bool_decide_eq_true_2 _ Hlen)|by rewrite (bool_decide_eq_false_2 _ Hlen)].
  cbn [mbind result_bind try_except].
  match goal with
  | |- context [sort_values "date" ?d] => set (df_dated := d)
  end.
  destruct (getitem _ "date") as [x|] eqn:Hx; cbn [mbind result_bind try_except]; [|done].
  destruct (getitem _ vc) as [y|] eqn:Hy; cbn [mbind result_bind try_except]; [|done].
  destruct (color_of metric) as [color|]; cbn [mbind result_bind try_except]; [|done].
  intros [= <-]. cbn [trace_x trace_y].
  apply getitem_inv in Hx as [_ ->]. apply getitem_inv in Hy as [_ ->].
  exists p, df, years, vc. split; [done|]. split; [done|]. split; [done|].
  split; [done|]. split; [by apply (historical_average_of_recent _ _ _ _ _ _ p df)|].
  split; [|by rewrite !length_map].
  unfold dropna, select. cbn [rows].
  pose proof (column_of_filter (λ r, at_ r vc) (λ c, negb (bool_decide (c = NaN)))
                (rows (sort_values "date" df_dated))) as Hkept.
  cbv beta in Hkept. rewrite Hkept. apply filter_permutation.
  transitivity (map (λ r, at_ r vc) (rows df_dated)).
  - apply Permutation_map, sort_values_permutes.
  - unfold df_dated. cbn [rows].
    rewrite column_after_setitem; [done|by eapply value_col_not_date|done].
Qed.

Lemma historical_metric_has_a_colour (metric temporal vc : string) :
  value_col_of metric temporal = Some vc → ∃ color, color_of metric = Ok color.
Proof.
  intros Hvc.
  assert (metric ∈ ["generation"; "price_da"; "price_rt"; "revenue_da"; "revenue_rt"])
    as Hmetric.
  { unfold value_col_of in Hvc. repeat case_bool_decide; try done; set_solver. }
  destruct (color_of metric) as [color|e] eqn:E; [by eexists|]. exfalso.
  rewrite !elem_of_cons in Hmetric.
  destruct Hmetric as [->|[->|[->|[->|[->|?%elem_of_nil]]]]]; [..|done];
    by vm_compute in E.
Qed.

Lemma create_historical_returns
    (daily : bool) (w : World) (dashboard : t) (site metric vc : string)
    (hist_file : Path) (df : DataFrame) (years : list Qc) (dates : list cell) :
  let temporal := if daily then "daily" else "monthly" in
  let df_recent := select df (λ r, isin (last_years_of years 10) (at_ r "year")) in
  find_historical_file w dashboard site metric temporal = Some hist_file →
  read_parquet w hist_file = Ok df →
  value_col_of metric temporal = Some vc →
  vc ∈ columns df →
  Forall (λ c, c ∈ columns df)
         (if daily then ["year"; "month"; "day"] else ["year"; "month"]) →
  sorted (unique (map (λ r, at_ r "year") (rows df))) = Ok years →
  to_datetime [map (λ r, at_ r "year") (rows df_recent);
               map (λ r, at_ r "month") (rows df_recent);
               if daily then map (λ r, at_ r "day") (rows df_recent)
               else replicate (length (rows df_recent)) (Num (Qc_of_Z 1))]
    = Ok dates →
  length dates = length (rows df_recent) →
  ∃ fig, create_historical to_datetime sort_values daily w dashboard site metric
         = HistoricalGraph fig.
Proof.
  intros temporal df_recent Hfind Hread Hvc Hcol Hcal Hyears Hdates Hlen.
  assert (temporal ∈ ["daily"; "monthly"]) as Htemp
    by (unfold temporal; destruct daily; set_solver).
  assert ("year" ∈ columns df ∧ "month" ∈ columns df ∧
          (daily = true → "day" ∈ columns df)) as (Hy & Hm & Hd).
  { rewrite list.Forall_forall in Hcal.
    destruct daily; (split; [apply Hcal; set_solver|split; [apply Hcal; set_solver|]]);
      [intros _; apply Hcal; set_solver|done]. }
  pose proof (value_col_not_date _ _ _ Htemp Hvc) as Hne.
  destruct (historical_metric_has_a_colour _ _ _ Hvc) as [color Hcolor].
  unfold create_historical. cbv zeta. fold temporal. rewrite Hfind, Hread.
  cbn [mbind result_bind try_except].
  assert ((if bool_decide (metric = "generation")
           then Some (temporal +:+ "_generation_mwh")
           else if bool_decide (metric ∈ ["price_da"; "price_rt"])
                then Some "weighted_price"
                else if bool_decide (metric ∈ ["revenue_da"; "revenue_rt"])
                     then Some metric else None)
          = value_col_of metric temporal) as ->.
  { unfold value_col_of. rewrite !elem_of_cons in Htemp.
    destruct Htemp as [->|[->|?%elem_of_nil]]; [| |done];
      repeat case_bool_decide; try done; set_solver. }
  rewrite Hvc, (bool_decide_eq_true_2 _ Hcol). cbn [negb].
  rewrite (getitem_Ok df "year" Hy). cbn [mbind result_bind try_except].
  rewrite Hyears. cbn [mbind result_bind try_except].
  rewrite last_ten_years. fold df_recent.
  assert ((if daily then mapM (getitem df_recent) ["year"; "month"; "day"]
           else
             year_month ← mapM (getitem df_recent) ["year"; "month"];
             Ok (year_month ++ [replicate (length (rows df_recent)) (Num (Qc_of_Z 1))]))
          = Ok [map (λ r, at_ r "year") (rows df_recent);
                map (λ r, at_ r "month") (rows df_recent);
                if daily then map (λ r, at_ r "day") (rows df_recent)
                else replicate (length (rows df_recent)) (Num (Qc_of_Z 1))]) as ->.
  { destruct daily; cbn [mapM mbind result_bind];
      rewrite !(getitem_Ok df_recent) by (try done; by apply Hd); done. }
  cbn [mbind result_bind try_except]. rewrite Hdates.
  cbn [mbind result_bind try_except].
  unfold Plots.setitem. rewrite (bool_decide_eq_true_2 _ Hlen).
  cbn [mbind result_bind try_except].
  rewrite !getitem_Ok.
  - cbn [mbind result_bind try_except]. rewrite Hcolor.
    cbn [mbind result_bind try_except]. by eexists.
  - unfold dropna, df_recent, select. cbn [columns]. rewrite sort_values_columns.
    cbn [columns]. case_bool_decide; set_solver.
  - unfold dropna, df_recent, select. cbn [columns]. rewrite sort_values_columns.
    cbn [columns]. case_bool_decide; set_solver.
Qed.

(** X22. When create_daily_historical or create_monthly_historical returns
    a graph, its trace has one date per value and its values are, up to
    order, the non-missing entries of the value column in the rows of the
    last ten distinct years of the historical table (the rows are dated,
    sorted by date and those with a missing value dropped; sort_values is
    taken to reorder rows and keep the columns).
    calculate_historical_average with its default of ten years, for the
    same site, metric and resolution, uses the same value column and is
    the grouped mean, by month and day for the daily view and by month for
    the monthly view, over exactly those rows of the last ten distinct
    years. A graph is returned whenever the file is found and read, the
    table has the value column and the calendar columns with numeric
    years, and to_datetime dates every row of those years. *)
Theorem historical_views_show_the_averaged_rows
    (daily : bool) (w : World) (dashboard : t) (site metric : string) :
  let temporal := if daily then "daily" else "monthly" in
  let view :=
    if daily then create_daily_historical to_datetime sort_values
    else create_monthly_historical to_datetime sort_values in
  (∀ fig, view w dashboard site metric = HistoricalGraph fig →
     ∃ hist_file df years vc,
       find_historical_file w dashboard site metric temporal = Some hist_file ∧
       read_parquet w hist_file = Ok df ∧
       sorted (unique (map (λ r, at_ r "year") (rows df))) = Ok years ∧
       value_col_of metric temporal = Some vc ∧
       calculate_historical_average w dashboard site metric temporal 10 =
         try_except
           (avg ← groupby_mean
                    (select df (λ r, isin (last_years_of years 10) (at_ r "year")))
                    (if daily then ["month"; "day"] else ["month"]) vc
                    "historical_avg";
            Ok (Some avg))
           (λ _, None) ∧
       trace_y fig ≡ₚ
         List.filter (λ c, negb (bool_decide (c = NaN)))
           (map (λ r, at_ r vc)
              (rows (select df (λ r, isin (last_years_of years 10) (at_ r "year"))))) ∧
       length (trace_x fig) = length (trace_y fig)) ∧
  (∀ hist_file df years vc dates,
     let df_recent := select df (λ r, isin (last_years_of years 10) (at_ r "year")) in
     find_historical_file w dashboard site metric temporal = Some hist_file →
     read_parquet w hist_file = Ok df →
     value_col_of metric temporal = Some vc →
     vc ∈ columns df →
     Forall (λ c, c ∈ columns df)
            (if daily then ["year"; "month"; "day"] else ["year"; "month"]) →
     sorted (unique (map (λ r, at_ r "year") (rows df))) = Ok years →
     to_datetime [map (λ r, at_ r "year") (rows df_recent);
                  map (λ r, at_ r "month") (rows df_recent);
                  if daily then map (λ r, at_ r "day") (rows df_recent)
                  else replicate (length (rows df_recent)) (Num (Qc_of_Z 1))]
       = Ok dates →
     length dates = length (rows df_recent) →
     ∃ fig, view w dashboard site metric = HistoricalGraph fig).
Proof.
  intros temporal view. split.
  - intros fig H.
    assert (create_historical to_datetime sort_values daily w dashboard site metric
            = HistoricalGraph fig) as Hgraph by (by destruct daily).
    destruct (create_historical_graph daily w dashboard site metric fig Hgraph)
      as (hist_file & df & years & vc & Hfile & Hread & Hyears & Hvc & Havg & Hy & Hx).
    exists hist_file, df, years, vc. repeat (split; [done|]). split; [|done].
    unfold temporal. rewrite Havg. unfold period_key. by destruct daily.
  - intros hist_file df years vc dates df_recent Hfile Hread Hvc Hcol Hcal Hyears
      Hdates Hlen.
    destruct (create_historical_returns daily w dashboard site metric vc hist_file df
                years dates Hfile Hread Hvc Hcol Hcal Hyears Hdates Hlen) as [fig Hfig].
    exists fig. by destruct daily.
Qed.

End HistoricalFacts.

Section HistoricalExamples.

Import Pandas Spec Dashboard Views.

Lemma historical_views_witness :
  ∃ fig,
    create_monthly_historical Examples.no_dates Examples.keep_order Examples.world
      Examples.dashboard "SiteA" "generation" = HistoricalGraph fig ∧
    ∃ hist_file df years vc,
      find_historical_file Examples.world Examples.dashboard "SiteA" "generation"
        "monthly" = Some hist_file ∧
      read_parquet Examples.world hist_file = Ok df ∧
      sorted (unique (map (λ r, at_ r "year") (rows df))) = Ok years ∧
      value_col_of "generation" "monthly" = Some vc ∧
      calculate_historical_average Examples.world Examples.dashboard "SiteA" "generation"
          "monthly" 10 =
        try_except
          (avg ← groupby_mean
                   (select df (λ r, isin (last_years_of years 10) (at_ r "year")))
                   ["month"] vc "historical_avg";
           Ok (Some avg))
          (λ _, None) ∧
      trace_y fig ≡ₚ
        List.filter (λ c, negb (bool_decide (c = NaN)))
          (map (λ r, at_ r vc)
             (rows (select df (λ r, isin (last_years_of years 10) (at_ r "year"))))) ∧
      length (trace_x fig) = length (trace_y fig).
Proof.
  pose proof (historical_views_show_the_averaged_rows Examples.no_dates
                Examples.keep_order (λ _ _, eq_refl) (λ _ _, Permutation_refl _)
                false Examples.world Examples.dashboard "SiteA" "generation")
    as [Hgraph Hreturns].
  destruct (Hreturns
              (mkPath true ["srv"; "Renewable Portfolio LLC"; "SiteA"; "Generation";
                            "historical"; "SiteA_generation_monthly_historical.parquet"])
              Examples.two_januaries [Qc_of_Z 2020; Qc_of_Z 2021]
              "monthly_generation_mwh" [NaN; NaN]) as [fig Hfig].
  - by vm_compute.
  - by vm_compute.
  - reflexivity.
  - apply (bool_decide_unpack _). by vm_compute.
  - apply (bool_decide_unpack _). by vm_compute.
  - apply (bool_decide_unpack _). by vm_compute.
  - apply (bool_decide_unpack _). by vm_compute.
  - reflexivity.
  - exists fig. split; [exact Hfig|]. exact (Hgraph fig Hfig).
Defined.

End HistoricalExamples.
